(** * NoMice: the gesture controller, embedded and verified

    A shallow embedding of [src/utils.py], [src/hand_tracker.py] (its two
    data classes) and [src/gesture_controller.py].

    Conventions of the embedding.
    - A Python [float] is a real number of [R]: arithmetic is exact, there
      is no rounding, no infinity and no NaN.  A Python [int] is a [Z];
      where an [int] meets a [float] it is injected with [IZR].
    - A call that can raise returns a [result]; the exceptions are the
      built-in ones the controller can meet, [IndexError],
      [ZeroDivisionError] and [AttributeError].
    - The controller object is threaded through a state monad; the calls it
      makes to [pyautogui] are collected, in order, in a trace. *)

From Stdlib Require Import String.
From Stdlib Require Import Reals Lra Lia ZArith List Bool Arith.
Import ListNotations.

Open Scope R_scope.

(** ** Python values and outcomes *)

Module Py.

Inductive exn : Set :=
| IndexError
| ZeroDivisionError
| AttributeError.

Inductive result (A : Type) : Type :=
| Ok (a : A)
| Raise (e : exn).

Arguments Ok {A} a.
Arguments Raise {A} e.

(** [a < b] and [a <= b] on floats, as the truth value Python computes. *)
Definition ltb (a b : R) : bool := if Rlt_dec a b then true else false.
Definition leb (a b : R) : bool := if Rle_dec a b then true else false.

(** [l[i]] for a non-negative index. *)
Definition getitem {A : Type} (l : list A) (i : nat) : result A :=
  match nth_error l i with
  | Some a => Ok a
  | None => Raise IndexError
  end.

(** [l[-k]] for [k >= 1]: the k-th item counted from the right. *)
Definition getitem_neg {A : Type} (l : list A) (k : nat) : result A :=
  if (k <=? length l)%nat then getitem l (length l - k) else Raise IndexError.

(** [a / b]: true division raises on a zero divisor. *)
Definition truediv (a b : R) : result R :=
  if Req_dec_T b 0 then Raise ZeroDivisionError else Ok (a / b).

(** [int(r)]: truncation toward zero. *)
Definition int (r : R) : Z :=
  if Rle_dec 0 r then Int_part r else (- Int_part (- r))%Z.

(** [collections.deque(maxlen=n)]: the items, oldest first. *)
Record deque : Type := mkDeque { maxlen : nat; items : list R }.

(** [d.append(v)] for a capacity of at least 1 (the controller's is 5): a
    full deque drops its leftmost item first. *)
Definition deque_append (d : deque) (v : R) : deque :=
  if (length (items d) =? maxlen d)%nat
  then mkDeque (maxlen d) (tl (items d) ++ [v])
  else mkDeque (maxlen d) (items d ++ [v]).

Definition deque_clear (d : deque) : deque := mkDeque (maxlen d) [].

Definition len (d : deque) : nat := length (items d).

End Py.

Import Py.

(** ** src/utils.py *)

Module Utils.

(** [max(min_value, min(value, max_value))] *)
Definition clamp (value min_value max_value : R) : R :=
  Rmax min_value (Rmin value max_value).

(** [start + (end - start) * t] *)
Definition lerp (start end_ t : R) : R :=
  start + (end_ - start) * t.

(** [math.hypot(x2 - x1, y2 - y1)] *)
Definition hypot (a b : R) : R := sqrt (a * a + b * b).

Definition distance_2d (x1 y1 x2 y2 : R) : R :=
  hypot (x2 - x1) (y2 - y1).

End Utils.

Import Utils.

(** ** src/hand_tracker.py: the data classes *)

Module LandmarkPoint.
Record t : Type := mk { x : R; y : R; z : R }.
End LandmarkPoint.

Record HandData : Type := mkHandData { landmarks : list LandmarkPoint.t }.

(** ** src/gesture_controller.py *)

Module SmoothPoint.
Record t : Type := mk { x : R; y : R }.
End SmoothPoint.

(** The calls made to [pyautogui], the input injector. *)
Inductive Button : Set := ButtonLeft | ButtonRight.

Inductive GuiCall : Type :=
| moveTo (x y : R)
| click (button : Button)
| scroll (clicks : Z).

(** The attributes of the controller.  [scroll_sensitivity] is annotated
    [int]; the annotation is not enforced and the value meets a float at
    once (line 150), so any number is taken: it is a real here. *)
Record MouseGestureController : Type := mkController {
  camera_width : Z;
  camera_height : Z;
  smoothing_factor : R;
  margin : Z;
  left_pinch_threshold : R;
  right_pinch_threshold : R;
  scroll_sensitivity : R;
  screen_width : Z;
  screen_height : Z;
  prev_cursor : SmoothPoint.t;
  scroll_history : deque;
  left_click_latched : bool;
  right_click_latched : bool;
  current_mode : string
}.

(** Assignments to the five attributes that change after construction. *)
Definition with_prev_cursor (p : SmoothPoint.t) (s : MouseGestureController) :=
  mkController (camera_width s) (camera_height s) (smoothing_factor s)
    (margin s) (left_pinch_threshold s) (right_pinch_threshold s)
    (scroll_sensitivity s) (screen_width s) (screen_height s)
    p (scroll_history s) (left_click_latched s) (right_click_latched s)
    (current_mode s).

Definition with_scroll_history (h : deque) (s : MouseGestureController) :=
  mkController (camera_width s) (camera_height s) (smoothing_factor s)
    (margin s) (left_pinch_threshold s) (right_pinch_threshold s)
    (scroll_sensitivity s) (screen_width s) (screen_height s)
    (prev_cursor s) h (left_click_latched s) (right_click_latched s)
    (current_mode s).

Definition with_left_click_latched (b : bool) (s : MouseGestureController) :=
  mkController (camera_width s) (camera_height s) (smoothing_factor s)
    (margin s) (left_pinch_threshold s) (right_pinch_threshold s)
    (scroll_sensitivity s) (screen_width s) (screen_height s)
    (prev_cursor s) (scroll_history s) b (right_click_latched s)
    (current_mode s).

Definition with_right_click_latched (b : bool) (s : MouseGestureController) :=
  mkController (camera_width s) (camera_height s) (smoothing_factor s)
    (margin s) (left_pinch_threshold s) (right_pinch_threshold s)
    (scroll_sensitivity s) (screen_width s) (screen_height s)
    (prev_cursor s) (scroll_history s) (left_click_latched s) b
    (current_mode s).

Definition with_current_mode (m : string) (s : MouseGestureController) :=
  mkController (camera_width s) (camera_height s) (smoothing_factor s)
    (margin s) (left_pinch_threshold s) (right_pinch_threshold s)
    (scroll_sensitivity s) (screen_width s) (screen_height s)
    (prev_cursor s) (scroll_history s) (left_click_latched s)
    (right_click_latched s) m.

(** *** The method monad: the object, the trace of calls, an exception *)

Definition M (A : Type) : Type :=
  MouseGestureController -> result (A * MouseGestureController * list GuiCall).

Definition ret {A : Type} (a : A) : M A := fun s => Ok (a, s, []).

Definition bind {A B : Type} (m : M A) (f : A -> M B) : M B :=
  fun s =>
    match m s with
    | Raise e => Raise e
    | Ok (a, s1, t1) =>
        match f a s1 with
        | Raise e => Raise e
        | Ok (b, s2, t2) => Ok (b, s2, t1 ++ t2)
        end
    end.

Definition get : M MouseGestureController := fun s => Ok (s, s, []).

Definition modify (f : MouseGestureController -> MouseGestureController)
  : M unit := fun s => Ok (tt, f s, []).

Definition call (c : GuiCall) : M unit := fun s => Ok (tt, s, [c]).

Definition lift {A : Type} (r : result A) : M A :=
  fun s => match r with Ok a => Ok (a, s, []) | Raise e => Raise e end.

Notation "x <- m ;; k" := (bind m (fun x => k))
  (at level 61, m at next level, right associativity).
Notation "m ;; k" := (bind m (fun _ => k))
  (at level 61, right associativity).

(** *** __init__ (lines 28-54)

    [pyautogui.size()] is the environment's answer; it is passed in as
    [size].  The body is a run of assignments: no path raises. *)
Definition __init__
    (camera_width camera_height : Z) (smoothing_factor : R)
    (movement_margin : Z)
    (pinch_click_threshold pinch_right_click_threshold : R)
    (scroll_sensitivity : R) (size : Z * Z)
  : result MouseGestureController :=
  let '(screen_width, screen_height) := size in
  Ok (mkController camera_width camera_height smoothing_factor
        movement_margin pinch_click_threshold pinch_right_click_threshold
        scroll_sensitivity screen_width screen_height
        (SmoothPoint.mk (IZR screen_width / 2) (IZR screen_height / 2))
        (mkDeque 5 [])
        false false
        "Idle"%string).

(** *** _move_cursor (lines 108-136)

    [cursor_target] is the first part of the body, lines 115-129, up to
    [target_x] and [target_y]; [_move_cursor] calls it and goes on with
    lines 132-136. *)
Definition cursor_target (self : MouseGestureController)
    (finger_x finger_y : R) : result (R * R) :=
  let cam_x := finger_x * IZR (camera_width self) in
  let cam_y := finger_y * IZR (camera_height self) in
  let min_x := margin self in
  let max_x := (camera_width self - margin self)%Z in
  let min_y := margin self in
  let max_y := (camera_height self - margin self)%Z in
  let cam_x := clamp cam_x (IZR min_x) (IZR max_x) in
  let cam_y := clamp cam_y (IZR min_y) (IZR max_y) in
  match truediv (cam_x - IZR min_x) (IZR (max_x - min_x)) with
  | Raise e => Raise e
  | Ok qx =>
      let target_x := qx * IZR (screen_width self) in
      match truediv (cam_y - IZR min_y) (IZR (max_y - min_y)) with
      | Raise e => Raise e
      | Ok qy =>
          let target_y := qy * IZR (screen_height self) in
          Ok (target_x, target_y)
      end
  end.

Definition _move_cursor (finger_x finger_y : R) : M unit :=
  self <- get ;;
  target <- lift (cursor_target self finger_x finger_y) ;;
  let '(target_x, target_y) := target in
  let smooth_x :=
    lerp (SmoothPoint.x (prev_cursor self)) target_x (smoothing_factor self) in
  let smooth_y :=
    lerp (SmoothPoint.y (prev_cursor self)) target_y (smoothing_factor self) in
  modify (with_prev_cursor (SmoothPoint.mk smooth_x smooth_y)) ;;
  call (moveTo smooth_x smooth_y).

(** *** _handle_scroll (lines 138-154) *)
Definition _handle_scroll (index_y middle_y : R) : M unit :=
  let avg_y := (index_y + middle_y) / 2 in
  self <- get ;;
  modify (with_scroll_history (deque_append (scroll_history self) avg_y)) ;;
  self <- get ;;
  if (len (scroll_history self) <? 2)%nat then ret tt
  else
    last2 <- lift (getitem_neg (items (scroll_history self)) 2) ;;
    last1 <- lift (getitem_neg (items (scroll_history self)) 1) ;;
    let delta := last2 - last1 in
    let scroll_amount :=
      int (delta * scroll_sensitivity self * 100) in
    if (1 <? Z.abs scroll_amount)%Z then call (scroll scroll_amount)
    else ret tt.

(** *** update (lines 56-106) *)
Definition update (hand : HandData) : M unit :=
  let lm := landmarks hand in
  thumb_tip <- lift (getitem lm 4) ;;
  index_tip <- lift (getitem lm 8) ;;
  index_pip <- lift (getitem lm 6) ;;
  middle_tip <- lift (getitem lm 12) ;;
  middle_pip <- lift (getitem lm 10) ;;
  let index_extended :=
    ltb (LandmarkPoint.y index_tip) (LandmarkPoint.y index_pip) in
  let middle_extended :=
    ltb (LandmarkPoint.y middle_tip) (LandmarkPoint.y middle_pip) in
  _move_cursor (LandmarkPoint.x index_tip) (LandmarkPoint.y index_tip) ;;
  let left_pinch_dist :=
    distance_2d (LandmarkPoint.x thumb_tip) (LandmarkPoint.y thumb_tip)
                (LandmarkPoint.x index_tip) (LandmarkPoint.y index_tip) in
  let right_pinch_dist :=
    distance_2d (LandmarkPoint.x thumb_tip) (LandmarkPoint.y thumb_tip)
                (LandmarkPoint.x middle_tip) (LandmarkPoint.y middle_tip) in
  self <- get ;;
  (if index_extended && middle_extended
      && ltb (left_pinch_threshold self) left_pinch_dist
   then
     _handle_scroll (LandmarkPoint.y index_tip) (LandmarkPoint.y middle_tip) ;;
     modify (with_current_mode "Scroll"%string)
   else
     modify (fun s => with_scroll_history (deque_clear (scroll_history s)) s)) ;;
  self <- get ;;
  (if ltb left_pinch_dist (left_pinch_threshold self)
      && negb (left_click_latched self)
   then
     call (click ButtonLeft) ;;
     modify (with_left_click_latched true) ;;
     modify (with_current_mode "Left Click"%string)
   else if leb (left_pinch_threshold self) left_pinch_dist
   then modify (with_left_click_latched false)
   else ret tt) ;;
  self <- get ;;
  (if ltb right_pinch_dist (right_pinch_threshold self)
      && negb (right_click_latched self)
   then
     call (click ButtonRight) ;;
     modify (with_right_click_latched true) ;;
     modify (with_current_mode "Right Click"%string)
   else if leb (right_pinch_threshold self) right_pinch_dist
   then modify (with_right_click_latched false)
   else ret tt) ;;
  self <- get ;;
  if leb (left_pinch_threshold self) left_pinch_dist
     && leb (right_pinch_threshold self) right_pinch_dist
     && negb (index_extended && middle_extended)
  then modify (with_current_mode "Move"%string)
  else ret tt.

(** *** The capture loop of [main] (src/main.py, lines 90-102)

    [main_controller] is the controller [main] builds (lines 77-85);
    [run hands] is one [update] call per frame with a hand, in order.  It
    keeps the trace of each call apart; an exception ends the loop. *)
Definition main_controller (size : Z * Z) : result MouseGestureController :=
  __init__ 1280 720 0.25 120 0.035 0.04 35 size.

Fixpoint run (hands : list HandData) (self : MouseGestureController)
  : result (list (list GuiCall) * MouseGestureController) :=
  match hands with
  | [] => Ok ([], self)
  | hand :: rest =>
      match update hand self with
      | Raise e => Raise e
      | Ok (_, self1, calls) =>
          match run rest self1 with
          | Raise e => Raise e
          | Ok (traces, self2) => Ok (calls :: traces, self2)
          end
      end
  end.

(** The controller as a run leaves it ([self] itself if the run raises). *)
Definition after_run (hands : list HandData) (self : MouseGestureController)
  : MouseGestureController :=
  match run hands self with
  | Ok (_, self') => self'
  | Raise _ => self
  end.

(** ** Observations on traces, frames and states *)

Definition is_left_click (c : GuiCall) : bool :=
  match c with click ButtonLeft => true | _ => false end.

Definition is_right_click (c : GuiCall) : bool :=
  match c with click ButtonRight => true | _ => false end.

Definition is_scroll (c : GuiCall) : bool :=
  match c with scroll _ => true | _ => false end.

Definition count_calls (p : GuiCall -> bool) (calls : list GuiCall) : nat :=
  length (filter p calls).

(** The five joints [update] reads: thumb tip (4), index tip (8), index
    PIP (6), middle tip (12), middle PIP (10). *)
Record Joints : Type := mkJoints {
  thumb_tip : LandmarkPoint.t;
  index_tip : LandmarkPoint.t;
  index_pip : LandmarkPoint.t;
  middle_tip : LandmarkPoint.t;
  middle_pip : LandmarkPoint.t
}.

Definition has_joints (hand : HandData) (j : Joints) : Prop :=
  nth_error (landmarks hand) 4 = Some (thumb_tip j) /\
  nth_error (landmarks hand) 8 = Some (index_tip j) /\
  nth_error (landmarks hand) 6 = Some (index_pip j) /\
  nth_error (landmarks hand) 12 = Some (middle_tip j) /\
  nth_error (landmarks hand) 10 = Some (middle_pip j).

(** The values lines 68-75 compute from the joints. *)
Definition left_pinch_dist (j : Joints) : R :=
  distance_2d (LandmarkPoint.x (thumb_tip j)) (LandmarkPoint.y (thumb_tip j))
              (LandmarkPoint.x (index_tip j)) (LandmarkPoint.y (index_tip j)).

Definition right_pinch_dist (j : Joints) : R :=
  distance_2d (LandmarkPoint.x (thumb_tip j)) (LandmarkPoint.y (thumb_tip j))
              (LandmarkPoint.x (middle_tip j)) (LandmarkPoint.y (middle_tip j)).

Definition index_extended (j : Joints) : bool :=
  ltb (LandmarkPoint.y (index_tip j)) (LandmarkPoint.y (index_pip j)).

Definition middle_extended (j : Joints) : bool :=
  ltb (LandmarkPoint.y (middle_tip j)) (LandmarkPoint.y (middle_pip j)).

Definition avg_y (j : Joints) : R :=
  (LandmarkPoint.y (index_tip j) + LandmarkPoint.y (middle_tip j)) / 2.

(** The condition of line 78. *)
Definition scroll_gate (self : MouseGestureController) (j : Joints) : bool :=
  index_extended j && middle_extended j
  && ltb (left_pinch_threshold self) (left_pinch_dist j).

(** The active region has a width and a height other than zero. *)
Definition region_ok (self : MouseGestureController) : Prop :=
  (camera_width self <> 2 * margin self)%Z /\
  (camera_height self <> 2 * margin self)%Z.

(** The attributes fixed at construction. *)
Definition same_config (s s' : MouseGestureController) : Prop :=
  camera_width s' = camera_width s /\
  camera_height s' = camera_height s /\
  smoothing_factor s' = smoothing_factor s /\
  margin s' = margin s /\
  left_pinch_threshold s' = left_pinch_threshold s /\
  right_pinch_threshold s' = right_pinch_threshold s /\
  scroll_sensitivity s' = scroll_sensitivity s /\
  screen_width s' = screen_width s /\
  screen_height s' = screen_height s.

(** The configuration the specification calls valid, and a screen whose
    two sizes are not negative. *)
Definition valid_config (self : MouseGestureController) : Prop :=
  (2 * margin self < camera_width self)%Z /\
  (2 * margin self < camera_height self)%Z /\
  0 < smoothing_factor self < 1.

Definition screen_ok (self : MouseGestureController) : Prop :=
  (0 <= screen_width self)%Z /\ (0 <= screen_height self)%Z.

Definition on_screen (self : MouseGestureController) (x y : R) : Prop :=
  0 <= x <= IZR (screen_width self) /\ 0 <= y <= IZR (screen_height self).

Definition cursor_on_screen (self : MouseGestureController) : Prop :=
  on_screen self (SmoothPoint.x (prev_cursor self))
                 (SmoothPoint.y (prev_cursor self)).

Definition call_on_screen (self : MouseGestureController) (c : GuiCall)
  : Prop :=
  match c with
  | moveTo x y => on_screen self x y
  | _ => True
  end.

(** The scroll history is the deque of capacity 5 of line 49. *)
Definition history_ok (self : MouseGestureController) : Prop :=
  maxlen (scroll_history self) = 5%nat /\
  (len (scroll_history self) <= 5)%nat.

(** The scroll amount as the specification words it: with [h] the
    history, [(h[-2] - h[-1]) * sensitivity * 100] taken to an integer. *)
Definition spec_scroll_amount (h : list R) (sensitivity : R) : Z :=
  int ((nth (length h - 2) h 0 - nth (length h - 1) h 0)
       * sensitivity * 100).

(** What [_handle_scroll] hands to [pyautogui.scroll], given the history
    it has just extended. *)
Definition scroll_calls (h : list R) (sensitivity : R) : list GuiCall :=
  if (length h <? 2)%nat then []
  else if (1 <? Z.abs (spec_scroll_amount h sensitivity))%Z
       then [scroll (spec_scroll_amount h sensitivity)]
       else [].

(** The calls and the scroll history one [update] leaves, written out
    from the joints [j] of the frame and the mapped target [(tx, ty)]. *)
Definition left_click_calls (self : MouseGestureController) (j : Joints)
  : list GuiCall :=
  if ltb (left_pinch_dist j) (left_pinch_threshold self)
     && negb (left_click_latched self)
  then [click ButtonLeft] else [].

Definition right_click_calls (self : MouseGestureController) (j : Joints)
  : list GuiCall :=
  if ltb (right_pinch_dist j) (right_pinch_threshold self)
     && negb (right_click_latched self)
  then [click ButtonRight] else [].

Definition update_history (self : MouseGestureController) (j : Joints)
  : deque :=
  if scroll_gate self j
  then deque_append (scroll_history self) (avg_y j)
  else deque_clear (scroll_history self).

Definition update_scroll_calls (self : MouseGestureController) (j : Joints)
  : list GuiCall :=
  if scroll_gate self j
  then scroll_calls (items (update_history self j)) (scroll_sensitivity self)
  else [].

Definition update_cursor (self : MouseGestureController) (tx ty : R)
  : SmoothPoint.t :=
  SmoothPoint.mk
    (lerp (SmoothPoint.x (prev_cursor self)) tx (smoothing_factor self))
    (lerp (SmoothPoint.y (prev_cursor self)) ty (smoothing_factor self)).

Definition update_calls (self : MouseGestureController) (j : Joints)
    (tx ty : R) : list GuiCall :=
  moveTo (SmoothPoint.x (update_cursor self tx ty))
         (SmoothPoint.y (update_cursor self tx ty))
  :: update_scroll_calls self j
  ++ left_click_calls self j
  ++ right_click_calls self j.

(** The click events as the specification words them: over a sequence of
    pinch distances, an event fires on a sample below the threshold met
    with the latch clear and sets the latch; a sample at or above the
    threshold clears the latch. *)
Fixpoint spec_clicks (threshold : R) (latched : bool) (dists : list R)
  : list bool :=
  match dists with
  | [] => []
  | d :: rest =>
      if ltb d threshold && negb latched
      then true :: spec_clicks threshold true rest
      else if leb threshold d
           then false :: spec_clicks threshold false rest
           else false :: spec_clicks threshold latched rest
  end.

(** ** Frames to run the controller on *)

Definition origin : LandmarkPoint.t := LandmarkPoint.mk 0 0 0.

(** A frame of 21 landmarks with the five joints of [j] at their indices. *)
Definition frame_of (j : Joints) : HandData :=
  mkHandData
    [origin; origin; origin; origin; thumb_tip j; origin; index_pip j;
     origin; index_tip j; origin; middle_pip j; origin; middle_tip j;
     origin; origin; origin; origin; origin; origin; origin; origin].

(** Thumb tip and index tip [d] apart; index and middle fingers folded
    (tip below PIP), middle tip 0.4 away from the thumb. *)
Definition pinch_joints (d : R) : Joints :=
  mkJoints (LandmarkPoint.mk 0.5 0.5 0)
           (LandmarkPoint.mk (0.5 + d) 0.5 0)
           (LandmarkPoint.mk (0.5 + d) 0.4 0)
           (LandmarkPoint.mk 0.9 0.5 0)
           (LandmarkPoint.mk 0.9 0.4 0).

Definition pinch_frame (d : R) : HandData := frame_of (pinch_joints d).

(** Thumb, index and middle tips at one point. *)
Definition double_pinch_joints : Joints :=
  mkJoints (LandmarkPoint.mk 0.5 0.5 0)
           (LandmarkPoint.mk 0.5 0.5 0)
           (LandmarkPoint.mk 0.5 0.4 0)
           (LandmarkPoint.mk 0.5 0.5 0)
           (LandmarkPoint.mk 0.5 0.4 0).

(** As [pinch_joints], with index and middle fingers extended (tip above
    PIP); both tips at height 0.5. *)
Definition raised_joints (d : R) : Joints :=
  mkJoints (LandmarkPoint.mk 0.5 0.5 0)
           (LandmarkPoint.mk (0.5 + d) 0.5 0)
           (LandmarkPoint.mk (0.5 + d) 0.7 0)
           (LandmarkPoint.mk 0.9 0.5 0)
           (LandmarkPoint.mk 0.9 0.7 0).

(** A frame cut to its first 13 landmarks. *)
Definition short_frame (hand : HandData) : HandData :=
  mkHandData (firstn 13 (landmarks hand)).

(** A controller, given whole, for the concrete runs. *)
Definition controller_with (m : Z) (h : list R) (ll rl : bool)
  : MouseGestureController :=
  mkController 1280 720 0.25 m 0.035 0.04 35 1920 1080
    (SmoothPoint.mk 960 540) (mkDeque 5 h) ll rl "Move"%string.

(** As [controller_with], with the margin of [main], both latches clear
    and the scroll sensitivity given. *)
Definition controller_with_sensitivity (sensitivity : R) (h : list R)
  : MouseGestureController :=
  mkController 1280 720 0.25 120 0.035 0.04 sensitivity 1920 1080
    (SmoothPoint.mk 960 540) (mkDeque 5 h) false false "Move"%string.

(** *** update under dynamic typing (lines 56-106)

    [HandData.landmarks] is annotated [list[LandmarkPoint]] and
    [HandTracker.process] fills it so; nothing checks it.  Here a slot of
    the list holds a landmark or [None], and reading [.x] or [.y] of
    [None] raises [AttributeError].  An exception keeps what was done
    before it: the object as it then is and the calls already made.

    [gestures] is lines 77-106, the part of [update] after the two pinch
    distances; [update_dynamic] is the whole method, its reads in the
    order of lines 61-75. *)
Inductive outcome (A : Type) : Type :=
| Returned (a : A) (self : MouseGestureController) (calls : list GuiCall)
| Raised (e : exn) (self : MouseGestureController) (calls : list GuiCall).

Arguments Returned {A} a self calls.
Arguments Raised {A} e self calls.

Definition D (A : Type) : Type := MouseGestureController -> outcome A.

Definition bindD {A B : Type} (m : D A) (f : A -> D B) : D B :=
  fun s =>
    match m s with
    | Raised e s1 t1 => Raised e s1 t1
    | Returned a s1 t1 =>
        match f a s1 with
        | Raised e s2 t2 => Raised e s2 (t1 ++ t2)
        | Returned b s2 t2 => Returned b s2 (t1 ++ t2)
        end
    end.

(** A pure read: it returns or raises, and changes nothing. *)
Definition liftD {A : Type} (r : result A) : D A :=
  fun s => match r with Ok a => Returned a s [] | Raise e => Raised e s [] end.

(** A method of the typed model: it raises before it changes the object
    or makes a call ([_move_cursor] at the division of lines 128-129). *)
Definition runM {A : Type} (m : M A) : D A :=
  fun s =>
    match m s with
    | Ok (a, s1, t1) => Returned a s1 t1
    | Raise e => Raised e s []
    end.

(** What a result of the typed model is as an outcome. *)
Definition typed_outcome {A : Type} (self : MouseGestureController)
    (r : result (A * MouseGestureController * list GuiCall)) : outcome A :=
  match r with
  | Ok (a, s1, t1) => Returned a s1 t1
  | Raise e => Raised e self []
  end.

Notation "x <~ m ;; k" := (bindD m (fun x => k))
  (at level 61, m at next level, right associativity).

(** [o.x], [o.y] for a slot [o]. *)
Definition attr (field : LandmarkPoint.t -> R) (o : option LandmarkPoint.t)
  : result R :=
  match o with
  | Some p => Ok (field p)
  | None => Raise AttributeError
  end.

Definition gestures (index_extended middle_extended : bool)
    (index_tip_y middle_tip_y left_pinch_dist right_pinch_dist : R)
  : M unit :=
  self <- get ;;
  (if index_extended && middle_extended
      && ltb (left_pinch_threshold self) left_pinch_dist
   then
     _handle_scroll index_tip_y middle_tip_y ;;
     modify (with_current_mode "Scroll"%string)
   else
     modify (fun s => with_scroll_history (deque_clear (scroll_history s)) s)) ;;
  self <- get ;;
  (if ltb left_pinch_dist (left_pinch_threshold self)
      && negb (left_click_latched self)
   then
     call (click ButtonLeft) ;;
     modify (with_left_click_latched true) ;;
     modify (with_current_mode "Left Click"%string)
   else if leb (left_pinch_threshold self) left_pinch_dist
   then modify (with_left_click_latched false)
   else ret tt) ;;
  self <- get ;;
  (if ltb right_pinch_dist (right_pinch_threshold self)
      && negb (right_click_latched self)
   then
     call (click ButtonRight) ;;
     modify (with_right_click_latched true) ;;
     modify (with_current_mode "Right Click"%string)
   else if leb (right_pinch_threshold self) right_pinch_dist
   then modify (with_right_click_latched false)
   else ret tt) ;;
  self <- get ;;
  if leb (left_pinch_threshold self) left_pinch_dist
     && leb (right_pinch_threshold self) right_pinch_dist
     && negb (index_extended && middle_extended)
  then modify (with_current_mode "Move"%string)
  else ret tt.

Definition update_dynamic (lm : list (option LandmarkPoint.t)) : D unit :=
  thumb_tip <~ liftD (getitem lm 4) ;;
  index_tip <~ liftD (getitem lm 8) ;;
  index_pip <~ liftD (getitem lm 6) ;;
  middle_tip <~ liftD (getitem lm 12) ;;
  middle_pip <~ liftD (getitem lm 10) ;;
  index_tip_y <~ liftD (attr LandmarkPoint.y index_tip) ;;
  index_pip_y <~ liftD (attr LandmarkPoint.y index_pip) ;;
  let index_extended := ltb index_tip_y index_pip_y in
  middle_tip_y <~ liftD (attr LandmarkPoint.y middle_tip) ;;
  middle_pip_y <~ liftD (attr LandmarkPoint.y middle_pip) ;;
  let middle_extended := ltb middle_tip_y middle_pip_y in
  index_tip_x <~ liftD (attr LandmarkPoint.x index_tip) ;;
  _ <~ runM (_move_cursor index_tip_x index_tip_y) ;;
  thumb_tip_x <~ liftD (attr LandmarkPoint.x thumb_tip) ;;
  thumb_tip_y <~ liftD (attr LandmarkPoint.y thumb_tip) ;;
  let left_pinch_dist :=
    distance_2d thumb_tip_x thumb_tip_y index_tip_x index_tip_y in
  middle_tip_x <~ liftD (attr LandmarkPoint.x middle_tip) ;;
  let right_pinch_dist :=
    distance_2d thumb_tip_x thumb_tip_y middle_tip_x middle_tip_y in
  runM (gestures index_extended middle_extended index_tip_y middle_tip_y
          left_pinch_dist right_pinch_dist).

(** The five joints of a list of slots, none of them [None]. *)
Definition dyn_joints (lm : list (option LandmarkPoint.t)) (j : Joints)
  : Prop :=
  nth_error lm 4 = Some (Some (thumb_tip j)) /\
  nth_error lm 8 = Some (Some (index_tip j)) /\
  nth_error lm 6 = Some (Some (index_pip j)) /\
  nth_error lm 12 = Some (Some (middle_tip j)) /\
  nth_error lm 10 = Some (Some (middle_pip j)).

(** The list of slots of a typed frame, and the same with slot [i] set to
    [None]. *)
Definition slots (hand : HandData) : list (option LandmarkPoint.t) :=
  map Some (landmarks hand).

Definition null_at (i : nat) (lm : list (option LandmarkPoint.t))
  : list (option LandmarkPoint.t) :=
  firstn i lm ++ None :: skipn (S i) lm.

(** ** The code around the controller's update cycle *)

(** *** FPSCounter (src/utils.py, lines 20-40)

    [time.perf_counter()] is the environment's answer; each reading is
    passed in as [now]. *)
Module FPSCounter.

Record t : Type := mk { prev_time : R; fps : R }.

Definition __init__ (now : R) : t := mk now 0.

Definition update (now : R) (self : t) : result (R * t) :=
  let current := now in
  let delta := current - prev_time self in
  let self := mk current (fps self) in
  if ltb 0 delta
  then
    match truediv 1 delta with
    | Raise e => Raise e
    | Ok instant_fps =>
        let self :=
          mk (prev_time self) (0.85 * fps self + 0.15 * instant_fps) in
        Ok (fps self, self)
    end
  else Ok (fps self, self).

(** One [update] per clock reading, in order; the values returned. *)
Fixpoint run (readings : list R) (self : t) : result (list R * t) :=
  match readings with
  | [] => Ok ([], self)
  | now :: rest =>
      match update now self with
      | Raise e => Raise e
      | Ok (shown, self1) =>
          match run rest self1 with
          | Raise e => Raise e
          | Ok (more, self2) => Ok (shown :: more, self2)
          end
      end
  end.

(** [n] clock readings, [d] apart, after the reading [t0]. *)
Fixpoint ticks (t0 d : R) (n : nat) : list R :=
  match n with
  | O => []
  | S n' => (t0 + d) :: ticks (t0 + d) d n'
  end.

End FPSCounter.

(** *** Drawing: the calls made to [cv2] on the frame *)
Inductive CvCall : Type :=
| rectangle (pt1 pt2 : Z * Z) (color : Z * Z * Z) (thickness : Z)
| line (pt1 pt2 : Z * Z) (color : Z * Z * Z) (thickness : Z)
| circle (center : Z * Z) (radius : Z) (color : Z * Z * Z) (thickness : Z).

Definition is_line (c : CvCall) : bool :=
  match c with line _ _ _ _ => true | _ => false end.

Definition is_circle (c : CvCall) : bool :=
  match c with circle _ _ _ _ => true | _ => false end.

(** *** draw_interaction_zone (src/gesture_controller.py, lines 156-164) *)
Definition draw_interaction_zone (self : MouseGestureController)
  : list CvCall :=
  [rectangle (margin self, margin self)
             ((camera_width self - margin self)%Z,
              (camera_height self - margin self)%Z)
             (100, 255, 100)%Z 2].

(** *** HandTracker (src/hand_tracker.py)

    The hand connections are MediaPipe's table, a parameter here; a
    detection result is the list of hands found, each a list of landmarks;
    [shape] is [frame.shape[:2]], height first.  The calls are returned
    when the function returns; an exception ends the program, and what
    was drawn before it is not kept. *)
Module HandTracker.

Record Connection : Type := mkConnection { start : nat; end_ : nat }.

(** The first loop of [_draw_landmarks] (lines 97-102). *)
Fixpoint draw_connections (connections : list Connection)
    (hand_landmarks : list LandmarkPoint.t) (width height : Z)
  : result (list CvCall) :=
  match connections with
  | [] => Ok []
  | connection :: rest =>
      match getitem hand_landmarks (start connection) with
      | Raise e => Raise e
      | Ok start_pt =>
          match getitem hand_landmarks (end_ connection) with
          | Raise e => Raise e
          | Ok end_pt =>
              let x1 := int (LandmarkPoint.x start_pt * IZR width) in
              let y1 := int (LandmarkPoint.y start_pt * IZR height) in
              let x2 := int (LandmarkPoint.x end_pt * IZR width) in
              let y2 := int (LandmarkPoint.y end_pt * IZR height) in
              match draw_connections rest hand_landmarks width height with
              | Raise e => Raise e
              | Ok calls =>
                  Ok (line (x1, y1) (x2, y2) (100, 220, 100)%Z 2 :: calls)
              end
          end
      end
  end.

(** The second loop (lines 104-106). *)
Definition draw_points (hand_landmarks : list LandmarkPoint.t)
    (width height : Z) : list CvCall :=
  map (fun landmark =>
         let x := int (LandmarkPoint.x landmark * IZR width) in
         let y := int (LandmarkPoint.y landmark * IZR height) in
         circle (x, y) 4 (0, 0, 255)%Z (-1))
      hand_landmarks.

(** _draw_landmarks (lines 93-106) *)
Definition _draw_landmarks (connections : list Connection) (shape : Z * Z)
    (hand_landmarks : list LandmarkPoint.t) : result (list CvCall) :=
  let '(height, width) := shape in
  match draw_connections connections hand_landmarks width height with
  | Raise e => Raise e
  | Ok lines => Ok (lines ++ draw_points hand_landmarks width height)
  end.

(** process, from the detection result on (lines 80-91) *)
Definition process (connections : list Connection) (shape : Z * Z)
    (results_hand_landmarks : list (list LandmarkPoint.t))
  : result (list CvCall * option HandData) :=
  match results_hand_landmarks with
  | [] => Ok ([], None)
  | hand_landmarks :: _ =>
      match _draw_landmarks connections shape hand_landmarks with
      | Raise e => Raise e
      | Ok calls =>
          let landmarks :=
            map (fun lm => LandmarkPoint.mk (LandmarkPoint.x lm)
                             (LandmarkPoint.y lm) (LandmarkPoint.z lm))
                hand_landmarks in
          Ok (calls, Some (mkHandData landmarks))
      end
  end.

End HandTracker.

(** *** The body of the capture loop (src/main.py, lines 98-105)

    From the detection result of one frame: [tracker.process], then
    [controller.update] if a hand was found, then
    [controller.draw_interaction_zone]. *)
Definition loop_body (connections : list HandTracker.Connection)
    (shape : Z * Z) (detected : list (list LandmarkPoint.t))
    (self : MouseGestureController)
  : result (list CvCall * list GuiCall * MouseGestureController) :=
  match HandTracker.process connections shape detected with
  | Raise e => Raise e
  | Ok (drawn, hand_result) =>
      match
        match hand_result with
        | Some hand => update hand self
        | None => Ok (tt, self, [])
        end
      with
      | Raise e => Raise e
      | Ok (_, self1, calls) =>
          Ok (drawn ++ draw_interaction_zone self1, calls, self1)
      end
  end.

Fixpoint loop (connections : list HandTracker.Connection) (shape : Z * Z)
    (detections : list (list (list LandmarkPoint.t)))
    (self : MouseGestureController)
  : result (list (list GuiCall) * MouseGestureController) :=
  match detections with
  | [] => Ok ([], self)
  | detected :: rest =>
      match loop_body connections shape detected self with
      | Raise e => Raise e
      | Ok (_, calls, self1) =>
          match loop connections shape rest self1 with
          | Raise e => Raise e
          | Ok (traces, self2) => Ok (calls :: traces, self2)
          end
      end
  end.

(** The hands a sequence of detection results holds: the first hand of
    each result that has one. *)
Definition first_hands (detections : list (list (list LandmarkPoint.t)))
  : list HandData :=
  flat_map (fun detected =>
              match detected with
              | [] => []
              | hand_landmarks :: _ => [mkHandData hand_landmarks]
              end)
           detections.

(** *** Words for the properties of the drawing and of the loop *)

(** A pixel inside a frame of the given shape (height first). *)
Definition point_in_frame (shape : Z * Z) (p : Z * Z) : Prop :=
  (0 <= fst p <= snd shape)%Z /\ (0 <= snd p <= fst shape)%Z.

Definition cv_call_in_frame (shape : Z * Z) (c : CvCall) : Prop :=
  match c with
  | rectangle pt1 pt2 _ _ => point_in_frame shape pt1 /\ point_in_frame shape pt2
  | line pt1 pt2 _ _ => point_in_frame shape pt1 /\ point_in_frame shape pt2
  | circle center _ _ _ => point_in_frame shape center
  end.

(** A landmark with both coordinates in [[0, 1]]. *)
Definition normalized (p : LandmarkPoint.t) : Prop :=
  0 <= LandmarkPoint.x p <= 1 /\ 0 <= LandmarkPoint.y p <= 1.

(** A connection whose two ends are landmarks of a hand of [n] landmarks. *)
Definition in_range (n : nat) (c : HandTracker.Connection) : Prop :=
  (HandTracker.start c < n)%nat /\ (HandTracker.end_ c < n)%nat.

(** A detection result the loop body gets through: no hand, or a first
    hand of at least 13 landmarks that holds both ends of every
    connection. *)
Definition detection_ok (connections : list HandTracker.Connection)
    (detected : list (list LandmarkPoint.t)) : Prop :=
  match detected with
  | [] => True
  | hand_landmarks :: _ =>
      (13 <= length hand_landmarks)%nat
      /\ Forall (in_range (length hand_landmarks)) connections
  end.

(** *** Words for the properties of the update cycle *)

Definition is_moveTo (c : GuiCall) : bool :=
  match c with moveTo _ _ => true | _ => false end.

(** The last [n] items of a list. *)
Definition lastn {A : Type} (n : nat) (l : list A) : list A :=
  skipn (length l - n) l.

(** Thumb on the middle tip, 0.4 from the index tip; index and middle
    fingers extended, both tips at height 0.5. *)
Definition right_pinch_raised_joints : Joints :=
  mkJoints (LandmarkPoint.mk 0.9 0.5 0)
           (LandmarkPoint.mk 0.5 0.5 0)
           (LandmarkPoint.mk 0.5 0.7 0)
           (LandmarkPoint.mk 0.9 0.5 0)
           (LandmarkPoint.mk 0.9 0.7 0).

(** ** Python comparisons, division and truncation *)

Section PyFacts.

Lemma ltb_true_iff (a b : R) : ltb a b = true <-> a < b.
Proof. unfold ltb. destruct (Rlt_dec a b); split; intros; easy. Qed.

Lemma ltb_false_iff (a b : R) : ltb a b = false <-> b <= a.
Proof.
  unfold ltb. destruct (Rlt_dec a b); split; intros; try easy; lra.
Qed.

Lemma leb_true_iff (a b : R) : leb a b = true <-> a <= b.
Proof. unfold leb. destruct (Rle_dec a b); split; intros; easy. Qed.

Lemma leb_false_iff (a b : R) : leb a b = false <-> b < a.
Proof.
  unfold leb. destruct (Rle_dec a b); split; intros; try easy; lra.
Qed.

Lemma leb_negb_ltb (a b : R) : leb a b = negb (ltb b a).
Proof.
  destruct (ltb b a) eqn:E; cbn.
  - apply leb_false_iff, ltb_true_iff, E.
  - apply leb_true_iff, ltb_false_iff, E.
Qed.

Lemma truediv_ok (a b : R) : b <> 0 -> truediv a b = Ok (a / b).
Proof. intros H. unfold truediv. destruct (Req_dec_T b 0); easy. Qed.


Lemma truediv_inv (a b : R) (r : result R) :
  truediv a b = r ->
  (b = 0 /\ r = Raise ZeroDivisionError) \/ (b <> 0 /\ r = Ok (a / b)).
Proof.
  unfold truediv. destruct (Req_dec_T b 0); intros <-; [left|right]; easy.
Qed.

Lemma Int_part_IZR (z : Z) : Int_part (IZR z) = z.
Proof.
  unfold Int_part.
  assert (H : up (IZR z) = (z + 1)%Z).
  { symmetry. apply tech_up; rewrite plus_IZR; lra. }
  rewrite H. lia.
Qed.

Lemma int_IZR (z : Z) : int (IZR z) = z.
Proof.
  unfold int. destruct (Rle_dec 0 (IZR z)).
  - apply Int_part_IZR.
  - rewrite <- opp_IZR, Int_part_IZR. lia.
Qed.

(** [int] truncates toward zero: the result is the integer of largest
    magnitude that does not pass [r]. *)
Lemma int_nonneg (r : R) :
  0 <= r -> (0 <= int r)%Z /\ IZR (int r) <= r < IZR (int r) + 1.
Proof.
  intros H. unfold int. destruct (Rle_dec 0 r); [|lra].
  destruct (base_Int_part r) as [H1 H2].
  split; [|lra].
  apply le_IZR. 
  destruct (Z_lt_le_dec (Int_part r) 0) as [Hn|Hn]; [|now apply IZR_le].
  exfalso. assert (IZR (Int_part r) <= -1) by (apply IZR_le; lia). lra.
Qed.

Lemma int_neg (r : R) :
  r < 0 -> (int r <= 0)%Z /\ IZR (int r) - 1 < r <= IZR (int r).
Proof.
  intros H. unfold int. destruct (Rle_dec 0 r); [lra|].
  destruct (base_Int_part (- r)) as [H1 H2].
  rewrite opp_IZR. split; [|lra].
  destruct (Z_lt_le_dec (Int_part (- r)) 0) as [Hn|Hn]; [|lia].
  exfalso. assert (IZR (Int_part (- r)) <= -1) by (apply IZR_le; lia). lra.
Qed.


Lemma int_abs_gt_1 (r : R) : (1 < Z.abs (int r))%Z <-> 2 <= Rabs r.
Proof.
  destruct (Rle_dec 0 r) as [Hr|Hr].
  - destruct (int_nonneg r Hr) as [Hz [Hlo Hhi]].
    rewrite Z.abs_eq by exact Hz. rewrite Rabs_pos_eq by exact Hr. split.
    + intros H. assert (2 <= IZR (int r)) by (apply IZR_le; lia). lra.
    + intros H. apply lt_IZR. lra.
  - assert (Hn : r < 0) by lra.
    destruct (int_neg r Hn) as [Hz [Hlo Hhi]].
    rewrite Z.abs_neq by exact Hz. rewrite Rabs_left by exact Hn. split.
    + intros H. assert (IZR (int r) <= -2) by (apply IZR_le; lia). lra.
    + intros H. assert (int r < -1)%Z by (apply lt_IZR; lra). lia.
Qed.

Lemma Rabs_le_between (x y : R) : Rabs x <= y -> - y <= x <= y.
Proof. unfold Rabs. destruct (Rcase_abs x); lra. Qed.

Lemma hypot_0_r (a : R) : hypot a 0 = Rabs a.
Proof.
  unfold hypot. replace (a * a + 0 * 0) with (Rsqr a) by (unfold Rsqr; ring).
  apply sqrt_Rsqr_abs.
Qed.


Lemma clamp_bounds (v lo hi : R) : lo <= hi -> lo <= clamp v lo hi <= hi.
Proof.
  intros H. unfold clamp, Rmax, Rmin.
  destruct (Rle_dec v hi); destruct (Rle_dec lo _); lra.
Qed.


End PyFacts.

(** ** The pieces of [update] *)

Section Steps.

Lemma has_joints_frame_of (j : Joints) : has_joints (frame_of j) j.
Proof. repeat split. Qed.


Lemma length_has_joints (hand : HandData) :
  (13 <= length (landmarks hand))%nat -> exists j, has_joints hand j.
Proof.
  intros H.
  assert (G : forall i, (i < 13)%nat ->
                exists p, nth_error (landmarks hand) i = Some p).
  { intros i Hi. destruct (nth_error (landmarks hand) i) eqn:E; [eauto|].
    apply nth_error_None in E. lia. }
  destruct (G 4%nat) as [t Ht]; [lia|].
  destruct (G 8%nat) as [i Hi]; [lia|].
  destruct (G 6%nat) as [ip Hip]; [lia|].
  destruct (G 12%nat) as [m Hm]; [lia|].
  destruct (G 10%nat) as [mp Hmp]; [lia|].
  exists (mkJoints t i ip m mp). repeat split; assumption.
Qed.

Lemma has_joints_short_frame (hand : HandData) (j : Joints) :
  has_joints hand j -> has_joints (short_frame hand) j.
Proof.
  unfold has_joints, short_frame. cbn [landmarks].
  intros (H4 & H8 & H6 & H12 & H10).
  rewrite !nth_error_firstn. cbn. auto.
Qed.


Lemma not_region_ok (self : MouseGestureController) :
  ~ region_ok self <->
  (2 * margin self = camera_width self
   \/ 2 * margin self = camera_height self)%Z.
Proof. unfold region_ok. lia. Qed.

Lemma cursor_target_ok (self : MouseGestureController) (fx fy : R) :
  region_ok self -> exists tx ty, cursor_target self fx fy = Ok (tx, ty).
Proof.
  intros [Hx Hy]. unfold cursor_target.
  rewrite !truediv_ok; [eauto | |]; apply not_0_IZR; lia.
Qed.

Lemma cursor_target_raises (self : MouseGestureController) (fx fy : R) (e : exn) :
  cursor_target self fx fy = Raise e ->
  e = ZeroDivisionError /\ ~ region_ok self.
Proof.
  unfold cursor_target, region_ok.
  destruct (truediv _ (IZR (camera_width self - margin self - margin self)))
    as [qx|ex] eqn:Ex.
  - destruct (truediv _ (IZR (camera_height self - margin self - margin self)))
      as [qy|ey] eqn:Ey; [discriminate|].
    intros [= <-]. apply truediv_inv in Ey as [[Hz He]|[_ He]]; [|discriminate].
    injection He as <-. apply eq_IZR in Hz. split; [easy | lia].
  - intros [= <-]. apply truediv_inv in Ex as [[Hz He]|[_ He]]; [|discriminate].
    injection He as <-. apply eq_IZR in Hz. split; [easy | lia].
Qed.

Lemma cursor_target_region (self : MouseGestureController)
    (fx fy tx ty : R) :
  cursor_target self fx fy = Ok (tx, ty) -> region_ok self.
Proof.
  unfold cursor_target, region_ok.
  destruct (truediv _ (IZR (camera_width self - margin self - margin self)))
    as [qx|ex] eqn:Ex; [|discriminate].
  destruct (truediv _ (IZR (camera_height self - margin self - margin self)))
    as [qy|ey] eqn:Ey; [|discriminate].
  intros _.
  apply truediv_inv in Ex as [[_ He]|[Hx _]]; [discriminate|].
  apply truediv_inv in Ey as [[_ He]|[Hy _]]; [discriminate|].
  split; intros H; [apply Hx | apply Hy]; apply IZR_eq; lia.
Qed.

Lemma cursor_target_bounds (self : MouseGestureController) (fx fy tx ty : R) :
  (2 * margin self < camera_width self)%Z ->
  (2 * margin self < camera_height self)%Z ->
  screen_ok self ->
  cursor_target self fx fy = Ok (tx, ty) ->
  on_screen self tx ty.
Proof.
  intros Hw Hh [Hsw Hsh]. unfold cursor_target, on_screen.
  set (lo := IZR (margin self)).
  set (hx := IZR (camera_width self - margin self)).
  set (hy := IZR (camera_height self - margin self)).
  assert (Hdx : IZR (camera_width self - margin self - margin self) = hx - lo)
    by (unfold hx, lo; now rewrite <- minus_IZR).
  assert (Hdy : IZR (camera_height self - margin self - margin self) = hy - lo)
    by (unfold hy, lo; now rewrite <- minus_IZR).
  assert (Hx : lo < hx) by (apply IZR_lt; lia).
  assert (Hy : lo < hy) by (apply IZR_lt; lia).
  rewrite Hdx, Hdy, !truediv_ok by lra.
  intros [= <- <-].
  apply IZR_le in Hsw, Hsh.
  pose proof (clamp_bounds (fx * IZR (camera_width self)) lo hx) as Cx.
  pose proof (clamp_bounds (fy * IZR (camera_height self)) lo hy) as Cy.
  specialize (Cx ltac:(lra)). specialize (Cy ltac:(lra)).
  set (cx := clamp _ lo hx) in *. set (cy := clamp _ lo hy) in *.
  assert (Qx : 0 <= (cx - lo) / (hx - lo) <= 1).
  { split.
    - apply Rmult_le_pos; [lra|]. left. apply Rinv_0_lt_compat. lra.
    - apply Rmult_le_reg_r with (hx - lo); [lra|]. field_simplify; lra. }
  assert (Qy : 0 <= (cy - lo) / (hy - lo) <= 1).
  { split.
    - apply Rmult_le_pos; [lra|]. left. apply Rinv_0_lt_compat. lra.
    - apply Rmult_le_reg_r with (hy - lo); [lra|]. field_simplify; lra. }
  nra.
Qed.

Lemma same_config_refl (s : MouseGestureController) : same_config s s.
Proof. repeat split. Qed.

Lemma same_config_trans (s1 s2 s3 : MouseGestureController) :
  same_config s1 s2 -> same_config s2 s3 -> same_config s1 s3.
Proof. unfold same_config. intuition congruence. Qed.

Lemma getitem_neg_ok {A : Type} (l : list A) (k : nat) (d : A) :
  (1 <= k <= length l)%nat -> getitem_neg l k = Ok (nth (length l - k) l d).
Proof.
  intros H. unfold getitem_neg, getitem.
  destruct (Nat.leb_spec k (length l)); [|lia].
  rewrite (nth_error_nth' l d) by lia. reflexivity.
Qed.

(** [_handle_scroll] never raises: the two negative indices are read only
    once the history holds two items. *)
Lemma handle_scroll_spec (index_y middle_y : R) (s : MouseGestureController) :
  let h := deque_append (scroll_history s) ((index_y + middle_y) / 2) in
  _handle_scroll index_y middle_y s
  = Ok (tt, with_scroll_history h s,
        scroll_calls (items h) (scroll_sensitivity s)).
Proof.
  intros h. unfold _handle_scroll, scroll_calls.
  cbv [bind get modify]. cbn [scroll_history with_scroll_history scroll_sensitivity].
  fold h. unfold len.
  destruct (Nat.ltb_spec (length (items h)) 2) as [Hl|Hl]; [reflexivity|].
  rewrite (getitem_neg_ok (items h) 2 0), (getitem_neg_ok (items h) 1 0) by lia.
  cbv [lift]. fold (spec_scroll_amount (items h) (scroll_sensitivity s)).
  destruct (1 <? Z.abs _)%Z; reflexivity.
Qed.

(** One [update] on a frame that has its joints, in an active region that
    does not divide by zero: the new state and the calls, written out. *)
Lemma update_step (self : MouseGestureController) (hand : HandData)
    (j : Joints) (tx ty : R) :
  has_joints hand j ->
  cursor_target self (LandmarkPoint.x (index_tip j))
                     (LandmarkPoint.y (index_tip j)) = Ok (tx, ty) ->
  exists self',
    update hand self = Ok (tt, self', update_calls self j tx ty)
    /\ same_config self self'
    /\ prev_cursor self' = update_cursor self tx ty
    /\ scroll_history self' = update_history self j
    /\ left_click_latched self'
       = ltb (left_pinch_dist j) (left_pinch_threshold self)
    /\ right_click_latched self'
       = ltb (right_pinch_dist j) (right_pinch_threshold self).
Proof.
  intros (H4 & H8 & H6 & H12 & H10) Ht.
  unfold update, _move_cursor.
  cbv [bind lift getitem get modify call ret].
  rewrite H4, H8, H6, H12, H10. cbv beta iota zeta.
  rewrite Ht. cbv beta iota zeta.
  cbn [with_prev_cursor left_pinch_threshold right_pinch_threshold
       left_click_latched right_click_latched scroll_history app].
  unfold update_calls, update_scroll_calls, update_history, update_cursor,
    left_click_calls, right_click_calls.
  cbn [SmoothPoint.x SmoothPoint.y].
  unfold scroll_gate, index_extended, middle_extended,
    left_pinch_dist, right_pinch_dist, avg_y.
  set (dl := distance_2d _ _ (LandmarkPoint.x (index_tip j)) _).
  set (dr := distance_2d _ _ (LandmarkPoint.x (middle_tip j)) _).
  set (ie := ltb (LandmarkPoint.y (index_tip j)) _).
  set (me := ltb (LandmarkPoint.y (middle_tip j)) _).
  destruct (ie && me && ltb (left_pinch_threshold self) dl) eqn:G;
    cbv beta iota; [rewrite handle_scroll_spec; cbv beta iota|];
    cbn -[deque_append deque_clear scroll_calls];
    rewrite ?leb_negb_ltb;
    destruct (ltb dl (left_pinch_threshold self)) eqn:L;
    destruct (left_click_latched self) eqn:LL;
    cbn -[deque_append deque_clear scroll_calls];
    rewrite ?leb_negb_ltb;
    destruct (ltb dr (right_pinch_threshold self)) eqn:Rr;
    destruct (right_click_latched self) eqn:RL;
    cbn -[deque_append deque_clear scroll_calls];
    rewrite ?leb_negb_ltb, ?L, ?Rr;
    cbn -[deque_append deque_clear scroll_calls];
    try match goal with
        | |- context [if ?c then _ else _] => destruct c
        end;
    cbn -[deque_append deque_clear scroll_calls];
    rewrite ?app_nil_r;
    (eexists; split; [reflexivity|]);
    repeat split; cbn; rewrite ?LL, ?RL; reflexivity.
Qed.

(** The two ways [update] raises. *)
Lemma update_short (self : MouseGestureController) (hand : HandData) :
  (length (landmarks hand) < 13)%nat -> update hand self = Raise IndexError.
Proof.
  intros H. unfold update.
  assert (H12 : nth_error (landmarks hand) 12 = None)
    by (apply nth_error_None; lia).
  cbv [bind lift getitem].
  rewrite H12.
  destruct (nth_error (landmarks hand) 4); [|reflexivity].
  destruct (nth_error (landmarks hand) 8); [|reflexivity].
  destruct (nth_error (landmarks hand) 6); reflexivity.
Qed.

Lemma update_target_raises (self : MouseGestureController) (hand : HandData)
    (j : Joints) (e : exn) :
  has_joints hand j ->
  cursor_target self (LandmarkPoint.x (index_tip j))
                     (LandmarkPoint.y (index_tip j)) = Raise e ->
  update hand self = Raise e.
Proof.
  intros (H4 & H8 & H6 & H12 & H10) Ht.
  unfold update, _move_cursor.
  cbv [bind lift getitem get modify call ret].
  rewrite H4, H8, H6, H12, H10. cbv beta iota zeta.
  rewrite Ht. reflexivity.
Qed.

Lemma update_ok_target (self self' : MouseGestureController)
    (hand : HandData) (j : Joints) (calls : list GuiCall) :
  has_joints hand j ->
  update hand self = Ok (tt, self', calls) ->
  exists tx ty,
    cursor_target self (LandmarkPoint.x (index_tip j))
                       (LandmarkPoint.y (index_tip j)) = Ok (tx, ty).
Proof.
  intros Hj Hu.
  destruct (cursor_target self _ _) as [[tx ty]|e] eqn:Ht; [eauto|].
  rewrite (update_target_raises self hand j e Hj Ht) in Hu. discriminate.
Qed.

Lemma update_inv (self self' : MouseGestureController) (hand : HandData)
    (j : Joints) (calls : list GuiCall) :
  has_joints hand j ->
  update hand self = Ok (tt, self', calls) ->
  exists tx ty,
    cursor_target self (LandmarkPoint.x (index_tip j))
                       (LandmarkPoint.y (index_tip j)) = Ok (tx, ty)
    /\ calls = update_calls self j tx ty
    /\ same_config self self'
    /\ prev_cursor self' = update_cursor self tx ty
    /\ scroll_history self' = update_history self j
    /\ left_click_latched self'
       = ltb (left_pinch_dist j) (left_pinch_threshold self)
    /\ right_click_latched self'
       = ltb (right_pinch_dist j) (right_pinch_threshold self).
Proof.
  intros Hj Hu.
  destruct (update_ok_target _ _ _ _ _ Hj Hu) as (tx & ty & Ht).
  destruct (update_step self hand j tx ty Hj Ht) as (s & Hs & Rest).
  rewrite Hu in Hs. injection Hs as -> ->.
  exists tx, ty. auto.
Qed.

Lemma update_total (self : MouseGestureController) (hand : HandData)
    (j : Joints) :
  has_joints hand j -> region_ok self ->
  exists self' calls, update hand self = Ok (tt, self', calls).
Proof.
  intros Hj Hr.
  destruct (cursor_target_ok self (LandmarkPoint.x (index_tip j))
              (LandmarkPoint.y (index_tip j)) Hr) as (tx & ty & Ht).
  destruct (update_step self hand j tx ty Hj Ht) as (s & Hs & _).
  eauto.
Qed.

(** Which calls of one [update] are clicks and scrolls. *)
Lemma scroll_calls_no_click (h : list R) (sens : R) (p : GuiCall -> bool) :
  (forall z, p (scroll z) = false) -> filter p (scroll_calls h sens) = [].
Proof.
  intros Hp. unfold scroll_calls.
  destruct (length h <? 2)%nat; [reflexivity|].
  destruct (1 <? _)%Z; cbn; [rewrite Hp|]; reflexivity.
Qed.

Lemma filter_left_click_update_calls self j tx ty :
  filter is_left_click (update_calls self j tx ty) = left_click_calls self j.
Proof.
  unfold update_calls, update_scroll_calls. cbn [filter is_left_click].
  rewrite !filter_app.
  replace (filter is_left_click (if scroll_gate self j then _ else [])) with
    (@nil GuiCall)
    by (destruct (scroll_gate self j);
        [now rewrite scroll_calls_no_click | reflexivity]).
  unfold left_click_calls, right_click_calls.
  destruct (ltb (left_pinch_dist j) _ && _);
    destruct (ltb (right_pinch_dist j) _ && _); reflexivity.
Qed.

Lemma filter_right_click_update_calls self j tx ty :
  filter is_right_click (update_calls self j tx ty) = right_click_calls self j.
Proof.
  unfold update_calls, update_scroll_calls. cbn [filter is_right_click].
  rewrite !filter_app.
  replace (filter is_right_click (if scroll_gate self j then _ else [])) with
    (@nil GuiCall)
    by (destruct (scroll_gate self j);
        [now rewrite scroll_calls_no_click | reflexivity]).
  unfold left_click_calls, right_click_calls.
  destruct (ltb (left_pinch_dist j) _ && _);
    destruct (ltb (right_pinch_dist j) _ && _); reflexivity.
Qed.

Lemma filter_scroll_update_calls self j tx ty :
  filter is_scroll (update_calls self j tx ty) = update_scroll_calls self j.
Proof.
  unfold update_calls. cbn [filter is_scroll].
  rewrite !filter_app.
  replace (filter is_scroll (left_click_calls self j)) with (@nil GuiCall)
    by (unfold left_click_calls; now destruct (_ && _)).
  replace (filter is_scroll (right_click_calls self j)) with (@nil GuiCall)
    by (unfold right_click_calls; now destruct (_ && _)).
  rewrite !app_nil_r.
  unfold update_scroll_calls, scroll_calls.
  destruct (scroll_gate self j); [|reflexivity].
  destruct (length _ <? 2)%nat; [reflexivity|].
  destruct (1 <? _)%Z; reflexivity.
Qed.

Lemma existsb_scroll_update_calls self j tx ty :
  existsb is_scroll (update_calls self j tx ty)
  = existsb is_scroll (update_scroll_calls self j).
Proof.
  unfold update_calls. cbn [existsb is_scroll orb].
  rewrite !existsb_app.
  replace (existsb is_scroll (left_click_calls self j)) with false
    by (unfold left_click_calls; now destruct (_ && _)).
  replace (existsb is_scroll (right_click_calls self j)) with false
    by (unfold right_click_calls; now destruct (_ && _)).
  now rewrite !orb_false_r.
Qed.

Lemma existsb_filter {A : Type} (p : A -> bool) (l : list A) :
  existsb p l = negb (length (filter p l) =? 0)%nat.
Proof.
  induction l as [|a l IH]; [reflexivity|].
  cbn. destruct (p a); cbn; [reflexivity | exact IH].
Qed.

End Steps.

(** ** Runs of [update] *)

Section Runs.

Lemma region_ok_same_config (s s' : MouseGestureController) :
  same_config s s' -> region_ok s -> region_ok s'.
Proof.
  unfold same_config, region_ok. intros (-> & -> & _ & -> & _) H. exact H.
Qed.

Lemma run_cons_ok (hand : HandData) (rest : list HandData)
    (self self1 self2 : MouseGestureController)
    (calls : list GuiCall) (traces : list (list GuiCall)) :
  update hand self = Ok (tt, self1, calls) ->
  run rest self1 = Ok (traces, self2) ->
  run (hand :: rest) self = Ok (calls :: traces, self2).
Proof. intros Hu Hr. cbn [run]. rewrite Hu, Hr. reflexivity. Qed.

Lemma run_cons_inv (hand : HandData) (rest : list HandData)
    (self self2 : MouseGestureController) (all : list (list GuiCall)) :
  run (hand :: rest) self = Ok (all, self2) ->
  exists self1 calls traces,
    update hand self = Ok (tt, self1, calls) /\
    run rest self1 = Ok (traces, self2) /\
    all = calls :: traces.
Proof.
  cbn [run]. destruct (update hand self) as [[[[] self1] calls]|e] eqn:Hu;
    [|discriminate].
  destruct (run rest self1) as [[traces s2]|e] eqn:Hr; [|discriminate].
  intros [= <- <-]. exists self1, calls, traces. auto.
Qed.

(** Over a run, the left clicks are the rising edges of the pinch. *)
Lemma run_left_clicks (hands : list HandData) (js : list Joints) :
  Forall2 has_joints hands js ->
  forall self, region_ok self ->
  exists traces self',
    run hands self = Ok (traces, self') /\
    map (count_calls is_left_click) traces
    = map Nat.b2n (spec_clicks (left_pinch_threshold self)
                     (left_click_latched self) (map left_pinch_dist js)).
Proof.
  induction 1 as [|hand j hands js Hj _ IH]; intros self Hr.
  - exists [], self. split; reflexivity.
  - destruct (update_total self hand j Hj Hr) as (self1 & calls & Hu).
    destruct (update_inv _ _ _ _ _ Hj Hu)
      as (tx & ty & _ & -> & Hc & _ & _ & Hl & _).
    destruct (IH self1 (region_ok_same_config _ _ Hc Hr))
      as (traces & self2 & Hrun & Hmap).
    exists (update_calls self j tx ty :: traces), self2.
    split; [exact (run_cons_ok _ _ _ _ _ _ _ Hu Hrun)|].
    cbn [map spec_clicks]. rewrite Hmap, Hl.
    destruct Hc as (_ & _ & _ & _ & -> & _).
    unfold count_calls. rewrite filter_left_click_update_calls.
    unfold left_click_calls. rewrite leb_negb_ltb.
    destruct (ltb (left_pinch_dist j) (left_pinch_threshold self));
      destruct (left_click_latched self); reflexivity.
Qed.

Lemma left_pinch_dist_pinch (d : R) :
  0 <= d -> left_pinch_dist (pinch_joints d) = d.
Proof.
  intros H. unfold left_pinch_dist, pinch_joints, distance_2d. cbn.
  replace (0.5 + d - 0.5) with d by lra.
  replace (0.5 - 0.5) with 0 by lra.
  rewrite hypot_0_r. now apply Rabs_pos_eq.
Qed.


End Runs.

(** Decide the comparisons between numerals that stand in the goal. *)
Ltac decide_cmp :=
  repeat match goal with
    | |- context [ltb ?a ?b] =>
        first [ rewrite (proj2 (ltb_true_iff a b)) by lra
              | rewrite (proj2 (ltb_false_iff a b)) by lra ]
    | |- context [leb ?a ?b] =>
        first [ rewrite (proj2 (leb_true_iff a b)) by lra
              | rewrite (proj2 (leb_false_iff a b)) by lra ]
    end.

(** ** The claims *)

(** C1. Click edge trigger.  On a frame that has its joints, one [update]
    fires a left click only if the thumb-index distance is below the left
    threshold and the left latch is clear, and never more than one; with
    the latch set and the distance below the threshold it fires none and
    the latch stays set; the latch is clear after the call exactly when the
    distance is at or above the threshold.  Over every sequence of frames
    the clicks are the ones [spec_clicks] lists.  For the distances
    0.05, 0.02, 0.02, 0.02, 0.05, 0.02 and the threshold 0.035, starting
    with the latch clear, the left clicks per frame are 0, 1, 0, 0, 0, 1:
    two events, on the 2nd and the 6th sample. *)
Theorem left_click_edge_trigger :
  (forall self hand j, has_joints hand j -> region_ok self ->
     exists self' calls,
       update hand self = Ok (tt, self', calls)
       /\ (existsb is_left_click calls = true ->
           left_pinch_dist j < left_pinch_threshold self
           /\ left_click_latched self = false)
       /\ (count_calls is_left_click calls <= 1)%nat
       /\ (left_click_latched self = true ->
           left_pinch_dist j < left_pinch_threshold self ->
           existsb is_left_click calls = false
           /\ left_click_latched self' = true)
       /\ (left_click_latched self' = false
           <-> left_pinch_threshold self <= left_pinch_dist j))
  /\ (forall self hands js,
        Forall2 has_joints hands js -> region_ok self ->
        exists traces self',
          run hands self = Ok (traces, self')
          /\ map (count_calls is_left_click) traces
             = map Nat.b2n (spec_clicks (left_pinch_threshold self)
                              (left_click_latched self)
                              (map left_pinch_dist js)))
  /\ (forall self,
        region_ok self ->
        left_pinch_threshold self = 0.035 ->
        left_click_latched self = false ->
        exists traces self',
          run (map pinch_frame [0.05; 0.02; 0.02; 0.02; 0.05; 0.02]) self
          = Ok (traces, self')
          /\ map (count_calls is_left_click) traces
             = [0; 1; 0; 0; 0; 1]%nat).
Proof.
  split; [|split].
  - intros self hand j Hj Hr.
    destruct (update_total self hand j Hj Hr) as (self' & calls & Hu).
    exists self', calls. split; [exact Hu|].
    destruct (update_inv _ _ _ _ _ Hj Hu)
      as (tx & ty & _ & -> & _ & _ & _ & Hl & _).
    rewrite existsb_filter. unfold count_calls.
    rewrite filter_left_click_update_calls, Hl. unfold left_click_calls.
    destruct (ltb (left_pinch_dist j) (left_pinch_threshold self)) eqn:L;
      destruct (left_click_latched self) eqn:LL; cbn;
      (apply ltb_true_iff in L || apply ltb_false_iff in L);
      repeat split; intros; try easy; try lia; try lra.
  - intros self hands js Hf Hr. exact (run_left_clicks hands js Hf self Hr).
  - intros self Hr Ht Hl.
    destruct (run_left_clicks
                (map pinch_frame [0.05; 0.02; 0.02; 0.02; 0.05; 0.02])
                (map pinch_joints [0.05; 0.02; 0.02; 0.02; 0.05; 0.02]))
      with (self := self) as (traces & self' & Hrun & Hmap).
    + repeat constructor.
    + exact Hr.
    + exists traces, self'. split; [exact Hrun|].
      rewrite Hmap, Ht, Hl. cbn [map].
      rewrite !left_pinch_dist_pinch by lra.
      cbn [spec_clicks]. decide_cmp. reflexivity.
Qed.

Lemma left_click_edge_trigger_witness :
  (exists self' calls,
     update (pinch_frame 0.02) (controller_with 120 [] true false)
     = Ok (tt, self', calls)
     /\ existsb is_left_click calls = false
     /\ left_click_latched self' = true)
  /\ (exists traces self',
        run (map pinch_frame [0.05; 0.02; 0.02; 0.02; 0.05; 0.02])
            (controller_with 120 [] false false)
        = Ok (traces, self')
        /\ map (count_calls is_left_click) traces = [0; 1; 0; 0; 0; 1]%nat).
Proof.
  split.
  - destruct (proj1 left_click_edge_trigger
                (controller_with 120 [] true false) (pinch_frame 0.02)
                (pinch_joints 0.02))
      as (self' & calls & Hu & _ & _ & Hheld & _).
    + apply has_joints_frame_of.
    + split; cbn; lia.
    + exists self', calls. split; [exact Hu|]. apply Hheld.
      * reflexivity.
      * rewrite left_pinch_dist_pinch by lra. cbn. lra.
  - apply (proj2 (proj2 left_click_edge_trigger)).
    + split; cbn; lia.
    + reflexivity.
    + reflexivity.
Defined.

Section Errors.

Lemma update_ok_joints (self self' : MouseGestureController)
    (hand : HandData) (calls : list GuiCall) :
  update hand self = Ok (tt, self', calls) -> exists j, has_joints hand j.
Proof.
  intros Hu. apply length_has_joints.
  destruct (Nat.lt_ge_cases (length (landmarks hand)) 13) as [Hs|Hs];
    [|exact Hs].
  rewrite (update_short self hand Hs) in Hu. discriminate.
Qed.

(** [update] raises in two ways and no other: [IndexError] on a frame of
    fewer than 13 landmarks, [ZeroDivisionError] when the active region
    has no width or no height. *)
Lemma update_raises_iff (self : MouseGestureController) (hand : HandData)
    (e : exn) :
  update hand self = Raise e <->
  (e = IndexError /\ (length (landmarks hand) < 13)%nat)
  \/ (e = ZeroDivisionError /\ (13 <= length (landmarks hand))%nat
      /\ ~ region_ok self).
Proof.
  destruct (Nat.lt_ge_cases (length (landmarks hand)) 13) as [Hs|Hs].
  - rewrite (update_short self hand Hs). split.
    + intros [= <-]. left. auto.
    + intros [[-> _]|(_ & Hl & _)]; [reflexivity | lia].
  - destruct (length_has_joints hand Hs) as [j Hj].
    destruct (cursor_target self (LandmarkPoint.x (index_tip j))
                (LandmarkPoint.y (index_tip j))) as [[tx ty]|e'] eqn:Ht.
    + destruct (update_step self hand j tx ty Hj Ht) as (s & Hu & _).
      rewrite Hu. split; [discriminate|].
      intros [[_ Hl]|(_ & _ & Hn)]; [lia|].
      destruct Hn. exact (cursor_target_region _ _ _ _ _ Ht).
    + rewrite (update_target_raises self hand j e' Hj Ht).
      apply cursor_target_raises in Ht as [-> Hn]. split.
      * intros [= <-]. right. auto.
      * intros [[_ Hl]|(-> & _)]; [lia | reflexivity].
Qed.

End Errors.

Section Frames.

(** [update] reads the five joints and nothing else of the frame. *)
Lemma update_joints_only (self : MouseGestureController)
    (hand hand' : HandData) (j : Joints) :
  has_joints hand j -> has_joints hand' j ->
  update hand self = update hand' self.
Proof.
  intros (H4 & H8 & H6 & H12 & H10) (G4 & G8 & G6 & G12 & G10).
  unfold update. cbv [bind lift getitem].
  rewrite H4, H8, H6, H12, H10, G4, G8, G6, G12, G10. reflexivity.
Qed.

End Frames.

(** C2 as stated fails.  With a camera of 200 by 200 and a margin of 100
    the active region has no width, yet construction returns a controller,
    and the first [update] raises [ZeroDivisionError] at runtime; with the
    thresholds 0 and -1 construction returns a controller as well. *)
Lemma construction_accepts_collapsed_region :
  (exists c,
     __init__ 200 200 0.25 100 0.035 0.04 30 (1920, 1080)%Z = Ok c
     /\ (2 * margin c >= camera_width c)%Z
     /\ update (pinch_frame 0.05) c = Raise ZeroDivisionError)
  /\ (exists c,
        __init__ 1280 720 0.25 120 0 (-1) 35 (1920, 1080)%Z = Ok c
        /\ left_pinch_threshold c <= 0
        /\ right_pinch_threshold c <= 0).
Proof.
  split.
  - eexists. split; [reflexivity|]. split; [cbn; lia|].
    apply update_raises_iff. right.
    split; [reflexivity|]. split; [cbn; lia|].
    unfold region_ok. cbn. lia.
  - eexists. split; [reflexivity|]. cbn. lra.
Qed.

(** C2, amended.  Construction checks nothing and never raises: every
    margin and every threshold is taken as given.  On a frame of at least
    13 landmarks [update] raises [ZeroDivisionError] exactly when
    [2 * margin] equals the camera width or the camera height; for every
    other margin, an active region of negative size included, it returns. *)
Theorem construction_checks_nothing :
  (forall cw ch f m tl tr sens size,
     exists c,
       __init__ cw ch f m tl tr sens size = Ok c
       /\ camera_width c = cw /\ camera_height c = ch /\ margin c = m
       /\ left_pinch_threshold c = tl /\ right_pinch_threshold c = tr)
  /\ (forall self hand,
        (13 <= length (landmarks hand))%nat ->
        (update hand self = Raise ZeroDivisionError
         <-> (2 * margin self = camera_width self
              \/ 2 * margin self = camera_height self)%Z)
        /\ ((2 * margin self <> camera_width self)%Z ->
            (2 * margin self <> camera_height self)%Z ->
            exists self' calls, update hand self = Ok (tt, self', calls))).
Proof.
  split.
  - intros cw ch f m tl tr sens [sw sh]. eexists.
    split; [reflexivity|]. repeat split.
  - intros self hand Hl. split.
    + rewrite update_raises_iff, not_region_ok. split.
      * intros [[[=] _]|(_ & _ & H)]. exact H.
      * intros H. right. auto.
    + intros Hx Hy. destruct (length_has_joints hand Hl) as [j Hj].
      apply (update_total self hand j Hj). split; lia.
Qed.

Lemma construction_checks_nothing_witness :
  (update (pinch_frame 0.05) (controller_with 640 [] false false)
   = Raise ZeroDivisionError)
  /\ (exists self' calls,
        update (pinch_frame 0.05) (controller_with 700 [] false false)
        = Ok (tt, self', calls)).
Proof.
  split.
  - apply (proj2 construction_checks_nothing
             (controller_with 640 [] false false) (pinch_frame 0.05)).
    + cbn. lia.
    + left. reflexivity.
  - apply (proj2 construction_checks_nothing
             (controller_with 700 [] false false) (pinch_frame 0.05)).
    + cbn. lia.
    + cbn. lia.
    + cbn. lia.
Defined.


Section Invariants.

Lemma run_invariant (P : MouseGestureController -> Prop)
    (Q : list GuiCall -> Prop) :
  (forall s hand s' calls,
     P s -> update hand s = Ok (tt, s', calls) -> P s' /\ Q calls) ->
  forall hands s traces s',
    P s -> run hands s = Ok (traces, s') -> P s' /\ Forall Q traces.
Proof.
  intros Hstep. induction hands as [|hand rest IH]; intros s traces s' HP Hrun.
  - cbn in Hrun. injection Hrun as <- <-. auto.
  - apply run_cons_inv in Hrun as (s1 & calls & tr & Hu & Hr & ->).
    destruct (Hstep _ _ _ _ HP Hu) as [HP1 HQ].
    destruct (IH _ _ _ HP1 Hr) as [HP' HQ'].
    auto.
Qed.

Lemma frames_have_joints (hands : list HandData) :
  Forall (fun h => (13 <= length (landmarks h))%nat) hands ->
  exists js, Forall2 has_joints hands js.
Proof.
  induction 1 as [|hand rest Hl _ [js IH]].
  - exists []. constructor.
  - destruct (length_has_joints hand Hl) as [j Hj].
    exists (j :: js). now constructor.
Qed.

Lemma run_total (hands : list HandData) (self : MouseGestureController) :
  region_ok self ->
  Forall (fun h => (13 <= length (landmarks h))%nat) hands ->
  exists traces self', run hands self = Ok (traces, self').
Proof.
  intros Hr Hl. destruct (frames_have_joints hands Hl) as [js Hjs].
  destruct (run_left_clicks hands js Hjs self Hr) as (tr & s' & Hrun & _).
  eauto.
Qed.

Lemma lerp_between (a b t lo hi : R) :
  0 < t < 1 -> lo <= a <= hi -> lo <= b <= hi -> lo <= lerp a b t <= hi.
Proof. unfold lerp. intros Ht Ha Hb. nra. Qed.

Lemma valid_config_region (self : MouseGestureController) :
  valid_config self -> region_ok self.
Proof. unfold valid_config, region_ok. lia. Qed.

Lemma valid_config_same (s s' : MouseGestureController) :
  same_config s s' -> valid_config s -> valid_config s'.
Proof.
  unfold same_config, valid_config.
  intros (-> & -> & -> & -> & _) H. exact H.
Qed.

Lemma screen_ok_same (s s' : MouseGestureController) :
  same_config s s' -> screen_ok s -> screen_ok s'.
Proof.
  unfold same_config, screen_ok.
  intros (_ & _ & _ & _ & _ & _ & _ & -> & ->) H. exact H.
Qed.

Lemma on_screen_same (s s' : MouseGestureController) (x y : R) :
  same_config s s' -> on_screen s x y -> on_screen s' x y.
Proof.
  unfold same_config, on_screen.
  intros (_ & _ & _ & _ & _ & _ & _ & -> & ->) H. exact H.
Qed.

Lemma update_calls_on_screen (self : MouseGestureController) (j : Joints)
    (tx ty : R) :
  on_screen self (SmoothPoint.x (update_cursor self tx ty))
                 (SmoothPoint.y (update_cursor self tx ty)) ->
  Forall (call_on_screen self) (update_calls self j tx ty).
Proof.
  intros H. unfold update_calls. constructor; [exact H|].
  rewrite !Forall_app. repeat split.
  - unfold update_scroll_calls, scroll_calls.
    destruct (scroll_gate self j); [|constructor].
    destruct (length _ <? 2)%nat; [constructor|].
    destruct (1 <? _)%Z; repeat constructor.
  - unfold left_click_calls. destruct (_ && _); repeat constructor.
  - unfold right_click_calls. destruct (_ && _); repeat constructor.
Qed.

(** One [update] keeps the cursor on the screen. *)
Lemma update_on_screen (self self' : MouseGestureController)
    (hand : HandData) (calls : list GuiCall) :
  valid_config self -> screen_ok self -> cursor_on_screen self ->
  update hand self = Ok (tt, self', calls) ->
  same_config self self' /\ cursor_on_screen self'
  /\ Forall (call_on_screen self) calls.
Proof.
  intros Hv Hs Hc Hu.
  destruct (update_ok_joints _ _ _ _ Hu) as [j Hj].
  destruct (update_inv _ _ _ _ _ Hj Hu)
    as (tx & ty & Ht & -> & Hsame & Hp & _).
  destruct Hv as (Hw & Hh & Hf).
  destruct (cursor_target_bounds _ _ _ _ _ Hw Hh Hs Ht) as [Hx Hy].
  destruct Hc as [Cx Cy].
  assert (Hon : on_screen self (SmoothPoint.x (update_cursor self tx ty))
                               (SmoothPoint.y (update_cursor self tx ty))).
  { unfold update_cursor. cbn [SmoothPoint.x SmoothPoint.y].
    split; apply lerp_between; assumption. }
  split; [exact Hsame|]. split.
  - unfold cursor_on_screen. rewrite Hp.
    apply (on_screen_same self self' _ _ Hsame Hon).
  - apply update_calls_on_screen, Hon.
Qed.

End Invariants.

(** C4. Mapping boundedness.  Under a valid configuration (twice the
    margin below both camera sizes, smoothing factor strictly between 0 and
    1) and a screen whose sizes are not negative: for every finger
    position, inside [0,1] or not, the cursor-mapping step returns a target
    within [0, screen_width] x [0, screen_height]; if the cursor is on the
    screen, it is still on the screen after every run of updates, and so is
    every position handed to [moveTo]; the run returns on every sequence of
    frames of at least 13 landmarks.  The cursor [__init__] sets is on the
    screen. *)
Theorem cursor_stays_on_screen :
  (forall self,
     valid_config self -> screen_ok self ->
     (forall fx fy,
        exists tx ty,
          cursor_target self fx fy = Ok (tx, ty) /\ on_screen self tx ty)
     /\ (cursor_on_screen self ->
         forall hands traces self',
           run hands self = Ok (traces, self') ->
           cursor_on_screen self'
           /\ Forall (Forall (call_on_screen self)) traces)
     /\ (forall hands,
           Forall (fun h => (13 <= length (landmarks h))%nat) hands ->
           exists traces self', run hands self = Ok (traces, self')))
  /\ (forall cw ch f m tl tr sens sw sh c,
        (0 <= sw)%Z -> (0 <= sh)%Z ->
        __init__ cw ch f m tl tr sens (sw, sh) = Ok c ->
        screen_ok c /\ cursor_on_screen c).
Proof.
  split.
  - intros self Hv Hs. split; [|split].
    + intros fx fy.
      destruct (cursor_target_ok self fx fy (valid_config_region _ Hv))
        as (tx & ty & Ht).
      exists tx, ty. split; [exact Ht|].
      destruct Hv as (Hw & Hh & _).
      exact (cursor_target_bounds _ _ _ _ _ Hw Hh Hs Ht).
    + intros Hc hands traces self' Hrun.
      assert (Hstep : forall s hand s' calls,
                 same_config self s /\ cursor_on_screen s ->
                 update hand s = Ok (tt, s', calls) ->
                 (same_config self s' /\ cursor_on_screen s')
                 /\ Forall (call_on_screen self) calls).
      { intros s hand s' calls [Hsame Hcs] Hu.
        destruct (update_on_screen s s' hand calls
                    (valid_config_same _ _ Hsame Hv)
                    (screen_ok_same _ _ Hsame Hs) Hcs Hu)
          as (Hss & Hcs' & Hcalls).
        split; [split|].
        - exact (same_config_trans _ _ _ Hsame Hss).
        - exact Hcs'.
        - revert Hcalls. apply Forall_impl. intros [x y| |]; cbn; auto.
          unfold on_screen.
          destruct Hsame as (_ & _ & _ & _ & _ & _ & _ & -> & ->). auto. }
      destruct (run_invariant _ _ Hstep hands self traces self'
                  (conj (same_config_refl self) Hc) Hrun) as [[_ Hc'] HQ].
      auto.
    + intros hands Hl. apply run_total; [|exact Hl].
      exact (valid_config_region _ Hv).
  - intros cw ch f m tl tr sens sw sh c Hsw Hsh [= <-].
    split; [split; assumption|].
    unfold cursor_on_screen, on_screen. cbn.
    apply IZR_le in Hsw, Hsh. lra.
Qed.

Lemma cursor_stays_on_screen_witness :
  (exists tx ty,
     cursor_target (controller_with 120 [] false false) 1.5 (-0.2)
     = Ok (tx, ty)
     /\ on_screen (controller_with 120 [] false false) tx ty)
  /\ (exists c,
        main_controller (1920, 1080)%Z = Ok c
        /\ screen_ok c /\ cursor_on_screen c).
Proof.
  split.
  - apply (proj1 cursor_stays_on_screen (controller_with 120 [] false false)).
    + unfold valid_config. cbn. repeat split; try lia; lra.
    + split; cbn; lia.
  - eexists. split; [reflexivity|].
    apply (proj2 cursor_stays_on_screen
             1280%Z 720%Z 0.25 120%Z 0.035 0.04 35 1920%Z 1080%Z).
    + lia.
    + lia.
    + reflexivity.
Defined.

Section Scroll.

Lemma scroll_gate_true_iff (self : MouseGestureController) (j : Joints) :
  scroll_gate self j = true <->
  index_extended j = true /\ middle_extended j = true
  /\ left_pinch_threshold self < left_pinch_dist j.
Proof.
  unfold scroll_gate. rewrite !andb_true_iff, ltb_true_iff. tauto.
Qed.

Lemma existsb_scroll_calls (h : list R) (sens : R) :
  existsb is_scroll (scroll_calls h sens)
  = negb (length h <? 2)%nat && (1 <? Z.abs (spec_scroll_amount h sens))%Z.
Proof.
  unfold scroll_calls. destruct (length h <? 2)%nat; [reflexivity|].
  destruct (1 <? _)%Z; reflexivity.
Qed.

Lemma deque_append_last (d : deque) (v : R) :
  exists older, items (deque_append d v) = older ++ [v].
Proof.
  unfold deque_append. destruct (_ =? _)%nat; cbn; eauto.
Qed.

Lemma deque_append_length (d : deque) (v : R) :
  (length (items d) <= maxlen d)%nat -> (1 <= maxlen d)%nat ->
  maxlen (deque_append d v) = maxlen d
  /\ (length (items (deque_append d v)) <= maxlen d)%nat.
Proof.
  intros Hl Hm. unfold deque_append.
  destruct (Nat.eqb_spec (length (items d)) (maxlen d)) as [E|E]; cbn.
  - split; [reflexivity|]. rewrite length_app. cbn.
    destruct (items d); cbn in *; lia.
  - split; [reflexivity|]. rewrite length_app. cbn. lia.
Qed.

Lemma update_history_ok (self : MouseGestureController) (j : Joints) :
  history_ok self ->
  maxlen (update_history self j) = 5%nat
  /\ (len (update_history self j) <= 5)%nat.
Proof.
  intros [Hm Hl]. unfold update_history, len in *.
  destruct (scroll_gate self j).
  - destruct (deque_append_length (scroll_history self) (avg_y j)); lia.
  - cbn. split; [exact Hm | lia].
Qed.

Lemma update_keeps_history_ok (self self' : MouseGestureController)
    (hand : HandData) (calls : list GuiCall) :
  history_ok self -> update hand self = Ok (tt, self', calls) ->
  history_ok self'.
Proof.
  intros Hh Hu.
  destruct (update_ok_joints _ _ _ _ Hu) as [j Hj].
  destruct (update_inv _ _ _ _ _ Hj Hu) as (tx & ty & _ & _ & _ & _ & Hs & _).
  unfold history_ok. rewrite Hs. exact (update_history_ok self j Hh).
Qed.

(** With two items or more after an [append], the item before the last is
    the last item of the history as it was. *)
Lemma deque_append_last_two (d : deque) (v : R) :
  let h := items (deque_append d v) in
  nth (length h - 1) h 0 = v
  /\ ((2 <= length h)%nat -> nth (length h - 2) h 0 = last (items d) 0).
Proof.
  assert (Hlast : forall (l : list R) (x : R),
             nth (length (l ++ [x]) - 1) (l ++ [x]) 0 = x).
  { intros l x. rewrite length_app. cbn.
    replace (length l + 1 - 1)%nat with (length l) by lia.
    rewrite app_nth2 by lia. now rewrite Nat.sub_diag. }
  assert (Hprev : forall (l : list R) (x : R),
             l <> [] ->
             nth (length (l ++ [x]) - 2) (l ++ [x]) 0 = last l 0).
  { intros l x Hne. rewrite length_app. cbn.
    destruct (exists_last Hne) as (l' & a & ->).
    rewrite last_last, length_app. cbn.
    replace (length l' + 1 + 1 - 2)%nat with (length l') by lia.
    rewrite <- app_assoc. rewrite app_nth2 by lia.
    now rewrite Nat.sub_diag. }
  unfold deque_append.
  destruct (Nat.eqb_spec (length (items d)) (maxlen d)) as [E|E];
    cbn [items]; (split; [apply Hlast|]).
  - destruct (items d) as [|a [|b l]]; cbn [tl].
    + cbn. lia.
    + cbn. lia.
    + intros _. rewrite Hprev by discriminate. reflexivity.
  - intros H2. destruct (items d) as [|a l].
    + cbn in H2. lia.
    + apply Hprev. discriminate.
Qed.

End Scroll.

(** C5. Scroll gate.  On every frame that has its joints, in an active
    region that does not divide by zero, [update] returns and: a scroll
    call is made only if index and middle fingers are both extended and
    the left pinch distance is above the left threshold; with the distance
    below the threshold no scroll call is made, whatever the fingers; when
    the condition is false the scroll history is empty after the call. *)
Theorem scroll_gate_exclusive :
  forall self hand j,
    has_joints hand j -> region_ok self ->
    exists self' calls,
      update hand self = Ok (tt, self', calls)
      /\ (existsb is_scroll calls = true ->
          index_extended j = true /\ middle_extended j = true
          /\ left_pinch_threshold self < left_pinch_dist j)
      /\ (left_pinch_dist j < left_pinch_threshold self ->
          existsb is_scroll calls = false)
      /\ (~ (index_extended j = true /\ middle_extended j = true
             /\ left_pinch_threshold self < left_pinch_dist j) ->
          items (scroll_history self') = []
          /\ existsb is_scroll calls = false).
Proof.
  intros self hand j Hj Hr.
  destruct (update_total self hand j Hj Hr) as (self' & calls & Hu).
  exists self', calls. split; [exact Hu|].
  destruct (update_inv _ _ _ _ _ Hj Hu)
    as (tx & ty & _ & -> & _ & _ & Hs & _).
  assert (Hcalls : existsb is_scroll (update_calls self j tx ty) = true ->
                   scroll_gate self j = true).
  { rewrite existsb_filter, filter_scroll_update_calls.
    unfold update_scroll_calls. destruct (scroll_gate self j); easy. }
  assert (Hoff : scroll_gate self j = false ->
                 items (scroll_history self') = []
                 /\ existsb is_scroll (update_calls self j tx ty) = false).
  { intros G. split.
    - rewrite Hs. unfold update_history. rewrite G. reflexivity.
    - destruct (existsb is_scroll _) eqn:E; [|reflexivity].
      rewrite (Hcalls eq_refl) in G. discriminate. }
  split; [|split].
  - intros E. apply scroll_gate_true_iff, Hcalls, E.
  - intros Hlt. apply Hoff.
    destruct (scroll_gate self j) eqn:G; [|reflexivity].
    apply scroll_gate_true_iff in G. lra.
  - intros Hn. apply Hoff.
    destruct (scroll_gate self j) eqn:G; [|reflexivity].
    apply scroll_gate_true_iff in G. contradiction.
Qed.

Section ConcreteFrames.

Lemma left_pinch_dist_raised (d : R) :
  0 <= d -> left_pinch_dist (raised_joints d) = d.
Proof.
  intros H. unfold left_pinch_dist, raised_joints, distance_2d. cbn.
  replace (0.5 + d - 0.5) with d by lra.
  replace (0.5 - 0.5) with 0 by lra.
  rewrite hypot_0_r. now apply Rabs_pos_eq.
Qed.

Lemma raised_joints_extended (d : R) :
  index_extended (raised_joints d) = true
  /\ middle_extended (raised_joints d) = true.
Proof.
  unfold index_extended, middle_extended, raised_joints. cbn.
  split; apply ltb_true_iff; lra.
Qed.

Lemma scroll_gate_raised (self : MouseGestureController) (d : R) :
  0 <= d -> left_pinch_threshold self < d ->
  scroll_gate self (raised_joints d) = true.
Proof.
  intros H0 Hd. apply scroll_gate_true_iff.
  destruct (raised_joints_extended d) as [Hi Hm].
  rewrite left_pinch_dist_raised by exact H0. auto.
Qed.

End ConcreteFrames.

Lemma scroll_gate_exclusive_witness :
  exists self' calls,
    update (frame_of (raised_joints 0.01)) (controller_with 120 [0.3] false false)
    = Ok (tt, self', calls)
    /\ existsb is_scroll calls = false
    /\ items (scroll_history self') = [].
Proof.
  destruct (scroll_gate_exclusive (controller_with 120 [0.3] false false)
              (frame_of (raised_joints 0.01)) (raised_joints 0.01))
    as (self' & calls & Hu & _ & Hlow & Hoff).
  - apply has_joints_frame_of.
  - split; cbn; lia.
  - exists self', calls. split; [exact Hu|]. split.
    + apply Hlow. rewrite left_pinch_dist_raised by lra. cbn. lra.
    + apply Hoff. rewrite left_pinch_dist_raised by lra. cbn. lra.
Defined.

(** C6. Noise suppression.  On a frame where the scroll condition holds,
    [update] returns, and the scroll history afterwards is the history as
    it was, less its oldest item if it held five, with the average of the
    two fingertip heights added at the end: every earlier sample that is
    kept stays in its place and the new one comes last.  The history stays
    a deque of capacity 5 with at most 5 items.  No scroll call is made
    when the history holds fewer than two items or when the scroll amount
    has absolute value at most 1.  The bound on the history holds at
    construction and after every run. *)
Theorem scroll_noise_suppressed :
  (forall self hand j,
     has_joints hand j -> region_ok self -> history_ok self ->
     scroll_gate self j = true ->
     exists self' calls,
       update hand self = Ok (tt, self', calls)
       /\ items (scroll_history self')
          = (if (length (items (scroll_history self)) <? 5)%nat
             then items (scroll_history self)
             else tl (items (scroll_history self)))
            ++ [avg_y j]
       /\ length (items (scroll_history self'))
          = Nat.min 5 (S (length (items (scroll_history self))))
       /\ history_ok self'
       /\ ((len (scroll_history self') < 2)%nat ->
           existsb is_scroll calls = false)
       /\ ((Z.abs (spec_scroll_amount (items (scroll_history self'))
                     (scroll_sensitivity self)) <= 1)%Z ->
           existsb is_scroll calls = false))
  /\ (forall self hands traces self',
        history_ok self -> run hands self = Ok (traces, self') ->
        history_ok self')
  /\ (forall cw ch f m tl tr sens size c,
        __init__ cw ch f m tl tr sens size = Ok c -> history_ok c).
Proof.
  split; [|split].
  - intros self hand j Hj Hr Hh G.
    destruct (update_total self hand j Hj Hr) as (self' & calls & Hu).
    exists self', calls. split; [exact Hu|].
    pose proof (update_keeps_history_ok _ _ _ _ Hh Hu) as Hh'.
    destruct (update_inv _ _ _ _ _ Hj Hu)
      as (tx & ty & _ & -> & _ & _ & Hs & _).
    assert (Hcalls : existsb is_scroll (update_calls self j tx ty)
                     = negb (len (scroll_history self') <? 2)%nat
                       && (1 <? Z.abs (spec_scroll_amount
                                         (items (scroll_history self'))
                                         (scroll_sensitivity self)))%Z).
    { rewrite existsb_scroll_update_calls. unfold update_scroll_calls, len.
      rewrite G, existsb_scroll_calls, <- Hs. reflexivity. }
    assert (Hitems : items (scroll_history self')
                     = (if (length (items (scroll_history self)) <? 5)%nat
                        then items (scroll_history self)
                        else tl (items (scroll_history self)))
                       ++ [avg_y j]).
    { rewrite Hs. unfold update_history. rewrite G.
      destruct Hh as [Hm Hl]. unfold len in Hl. unfold deque_append.
      rewrite Hm.
      destruct (Nat.eqb_spec (length (items (scroll_history self))) 5);
        destruct (Nat.ltb_spec (length (items (scroll_history self))) 5);
        try lia; reflexivity. }
    split; [exact Hitems|]. split; [|split; [exact Hh'|split]].
    + rewrite Hitems, length_app. cbn [length].
      destruct Hh as [_ Hl]. unfold len in Hl.
      destruct (Nat.ltb_spec (length (items (scroll_history self))) 5);
        [lia|].
      destruct (items (scroll_history self)); cbn [length tl] in *; lia.
    + intros Hlt. rewrite Hcalls.
      destruct (Nat.ltb_spec (len (scroll_history self')) 2); [reflexivity|lia].
    + intros Hle. rewrite Hcalls.
      destruct (Z.ltb_spec 1 (Z.abs (spec_scroll_amount
                                       (items (scroll_history self'))
                                       (scroll_sensitivity self))));
        [lia | apply andb_false_r].
  - intros self hands traces self' Hh Hrun.
    destruct (run_invariant history_ok (fun _ => True)) with
      (hands := hands) (s := self) (traces := traces) (s' := self');
      auto.
    intros s hand s' calls Hs Hu. split; [|exact I].
    exact (update_keeps_history_ok _ _ _ _ Hs Hu).
  - intros cw ch f m tl tr sens [sw sh] c [= <-].
    split; cbn; lia.
Qed.

Lemma scroll_noise_suppressed_witness :
  avg_y (raised_joints 0.3) = 0.5
  /\ (exists self' calls,
        update (frame_of (raised_joints 0.3))
               (controller_with 120 [0.5002] false false)
        = Ok (tt, self', calls)
        /\ items (scroll_history self') = [0.5002; avg_y (raised_joints 0.3)]
        /\ existsb is_scroll calls = false)
  /\ (exists self' calls,
        update (frame_of (raised_joints 0.3))
               (controller_with 120 [0.1; 0.2; 0.3; 0.4; 0.5002] false false)
        = Ok (tt, self', calls)
        /\ items (scroll_history self')
           = [0.2; 0.3; 0.4; 0.5002; avg_y (raised_joints 0.3)]
        /\ existsb is_scroll calls = false).
Proof.
  assert (Havg : avg_y (raised_joints 0.3) = 0.5)
    by (unfold avg_y, raised_joints; cbn; lra).
  assert (Hquiet : forall h,
             (Z.abs (spec_scroll_amount
                       (h ++ [0.5002; avg_y (raised_joints 0.3)])%R 35%R)
              <= 1)%Z).
  { intros h.
    destruct (Z.ltb_spec 1 (Z.abs (spec_scroll_amount
                (h ++ [0.5002; avg_y (raised_joints 0.3)]) 35))) as [H|H];
      [|exact H].
    apply int_abs_gt_1 in H. exfalso. revert H.
    rewrite length_app. cbn [length].
    replace (length h + 2 - 2)%nat with (length h) by lia.
    replace (length h + 2 - 1)%nat with (S (length h)) by lia.
    rewrite !app_nth2 by lia.
    replace (length h - length h)%nat with 0%nat by lia.
    replace (S (length h) - length h)%nat with 1%nat by lia.
    cbn [nth]. rewrite Havg.
    replace ((0.5002 - 0.5) * 35 * 100) with 0.7 by lra.
    rewrite Rabs_pos_eq; lra. }
  split; [exact Havg|]. split.
  - destruct (proj1 scroll_noise_suppressed
                (controller_with 120 [0.5002] false false)
                (frame_of (raised_joints 0.3)) (raised_joints 0.3))
      as (self' & calls & Hu & Hi & _ & _ & _ & Hq).
    + apply has_joints_frame_of.
    + split; cbn; lia.
    + split; cbn; lia.
    + apply scroll_gate_raised; cbn; lra.
    + exists self', calls. split; [exact Hu|]. split; [exact Hi|].
      apply Hq. rewrite Hi. exact (Hquiet []).
  - destruct (proj1 scroll_noise_suppressed
                (controller_with 120 [0.1; 0.2; 0.3; 0.4; 0.5002] false false)
                (frame_of (raised_joints 0.3)) (raised_joints 0.3))
      as (self' & calls & Hu & Hi & _ & _ & _ & Hq).
    + apply has_joints_frame_of.
    + split; cbn; lia.
    + split; cbn; lia.
    + apply scroll_gate_raised; cbn; lra.
    + exists self', calls. split; [exact Hu|]. split; [exact Hi|].
      apply Hq. rewrite Hi. exact (Hquiet [0.2; 0.3; 0.4]).
Defined.

(** C7 as stated fails for a small sensitivity.  With the history [0.50],
    the new average 0.40 and the positive sensitivity 0.05 the amount is
    [int 0.5 = 0]: no [scroll] call is made. *)
Lemma small_sensitivity_scrolls_nothing :
  0 < scroll_sensitivity (controller_with_sensitivity 0.05 [0.50])
  /\ exists self',
       _handle_scroll 0.40 0.40 (controller_with_sensitivity 0.05 [0.50])
       = Ok (tt, self', [])
       /\ items (scroll_history self') = [0.50; 0.40].
Proof.
  split; [cbn; lra|].
  eexists. split.
  - rewrite handle_scroll_spec. unfold scroll_calls.
    cbn [controller_with_sensitivity scroll_history scroll_sensitivity
         deque_append items maxlen length Nat.eqb app Nat.ltb Nat.leb].
    destruct (Z.ltb_spec 1 (Z.abs (spec_scroll_amount
                                     [0.50; (0.40 + 0.40) / 2] 0.05)))
      as [H|H]; [|reflexivity].
    apply int_abs_gt_1 in H. exfalso. revert H.
    cbn [length Nat.sub nth].
    replace ((0.50 - (0.40 + 0.40) / 2) * 0.05 * 100) with 0.5 by lra.
    rewrite Rabs_pos_eq; lra.
  - cbn. f_equal. f_equal. lra.
Qed.

(** C7, amended.  [_handle_scroll] always returns.  With [h] the history
    it leaves, the last item of [h] is the new average; once [h] holds two
    items, the item before the last is the last item of the old history,
    the delta is [h[-2] - h[-1]], the amount is
    [int (delta * sensitivity * 100)], and that amount is handed to
    [scroll] exactly when its absolute value is above 1.  For the history
    [0.50, 0.40], each sample taken within 1e-9 of the value written (as
    the doubles are), the delta is positive; for every sensitivity of at
    least 0.21, every positive integer included, one [scroll] call is
    made, of a positive amount, the product truncated toward zero; for a
    positive sensitivity of at most 0.19 no call is made. *)
Theorem scroll_amount_sign :
  (forall self index_y middle_y,
     let h := items (deque_append (scroll_history self)
                                  ((index_y + middle_y) / 2)) in
     let delta := nth (length h - 2) h 0 - nth (length h - 1) h 0 in
     let amount := int (delta * scroll_sensitivity self * 100) in
     exists self',
       _handle_scroll index_y middle_y self
       = Ok (tt, self',
             if (length h <? 2)%nat then []
             else if (1 <? Z.abs amount)%Z then [scroll amount] else [])
       /\ items (scroll_history self') = h
       /\ nth (length h - 1) h 0 = (index_y + middle_y) / 2
       /\ ((2 <= length h)%nat ->
           nth (length h - 2) h 0 = last (items (scroll_history self)) 0))
  /\ (forall self index_y middle_y p,
        items (scroll_history self) = [p] ->
        maxlen (scroll_history self) = 5%nat ->
        Rabs (p - 0.50) <= 0.000000001 ->
        Rabs ((index_y + middle_y) / 2 - 0.40) <= 0.000000001 ->
        let average := (index_y + middle_y) / 2 in
        let r := (p - average) * scroll_sensitivity self * 100 in
        0 < p - average
        /\ (0.21 <= scroll_sensitivity self ->
            exists self',
              _handle_scroll index_y middle_y self
              = Ok (tt, self', [scroll (int r)])
              /\ items (scroll_history self') = [p; average]
              /\ (0 < int r)%Z
              /\ IZR (int r) <= r < IZR (int r) + 1)
        /\ (forall z : Z,
              (0 < z)%Z -> scroll_sensitivity self = IZR z ->
              exists self',
                _handle_scroll index_y middle_y self
                = Ok (tt, self', [scroll (int r)])
                /\ (0 < int r)%Z)
        /\ (0 < scroll_sensitivity self <= 0.19 ->
            exists self',
              _handle_scroll index_y middle_y self = Ok (tt, self', [])
              /\ items (scroll_history self') = [p; average])).
Proof.
  split.
  - intros self iy my h delta amount.
    exists (with_scroll_history
              (deque_append (scroll_history self) ((iy + my) / 2)) self).
    split; [|split; [reflexivity|]].
    + rewrite handle_scroll_spec. reflexivity.
    + apply deque_append_last_two.
  - intros self iy my p Hi Hm Hp Ha average r.
    apply Rabs_le_between in Hp, Ha. fold average in Ha.
    assert (Hh : items (deque_append (scroll_history self) average)
                 = [p; average])
      by (unfold deque_append; rewrite Hi, Hm; reflexivity).
    assert (Hs : _handle_scroll iy my self
                 = Ok (tt, with_scroll_history
                             (deque_append (scroll_history self) average) self,
                       if (1 <? Z.abs (int r))%Z then [scroll (int r)]
                       else [])).
    { rewrite handle_scroll_spec. fold average. rewrite Hh. reflexivity. }
    assert (Hbig : 0.21 <= scroll_sensitivity self ->
                   exists self',
                     _handle_scroll iy my self
                     = Ok (tt, self', [scroll (int r)])
                     /\ items (scroll_history self') = [p; average]
                     /\ (0 < int r)%Z
                     /\ IZR (int r) <= r < IZR (int r) + 1).
    { intros Hsens.
      assert (Hr : 2 <= r) by (unfold r; nra).
      destruct (int_nonneg r) as (_ & Hlo & Hhi); [lra|].
      exists (with_scroll_history
                (deque_append (scroll_history self) average) self).
      split; [|split; [exact Hh|split]].
      - rewrite Hs.
        rewrite (proj2 (Z.ltb_lt 1 _))
          by (apply int_abs_gt_1; rewrite Rabs_pos_eq; lra).
        reflexivity.
      - apply lt_IZR. lra.
      - lra. }
    split; [lra|]. split; [exact Hbig|]. split.
    + intros z Hz Hsz.
      assert (1 <= IZR z) by (apply IZR_le; lia).
      destruct Hbig as (self' & Hu & _ & Hpos & _); [lra|].
      exists self'. auto.
    + intros [H0 Hsmall].
      assert (Hr : 0 <= r < 2) by (unfold r; nra).
      exists (with_scroll_history
                (deque_append (scroll_history self) average) self).
      split; [|exact Hh]. rewrite Hs.
      destruct (Z.ltb_spec 1 (Z.abs (int r))) as [H|H]; [|reflexivity].
      apply int_abs_gt_1 in H. rewrite Rabs_pos_eq in H; lra.
Qed.

Lemma scroll_amount_sign_witness :
  exists self',
    _handle_scroll 0.40 0.40 (controller_with 120 [0.50] false false)
    = Ok (tt, self', [scroll (int ((0.50 - (0.40 + 0.40) / 2) * 35 * 100))])
    /\ (0 < int ((0.50 - (0.40 + 0.40) / 2) * 35 * 100))%Z.
Proof.
  destruct (proj2 scroll_amount_sign
              (controller_with 120 [0.50] false false) 0.40 0.40 0.50)
    as (_ & Hbig & _).
  - reflexivity.
  - reflexivity.
  - rewrite Rabs_pos_eq; lra.
  - rewrite Rabs_pos_eq; lra.
  - destruct Hbig as (self' & Hs & _ & Hpos & _); [cbn; lra|].
    exists self'. split; [exact Hs | exact Hpos].
Defined.

Section Smoothing.

Lemma cursor_target_same (s s' : MouseGestureController) (fx fy : R) :
  same_config s s' -> cursor_target s' fx fy = cursor_target s fx fy.
Proof.
  unfold same_config, cursor_target.
  intros (-> & -> & _ & -> & _ & _ & _ & -> & ->). reflexivity.
Qed.

(** One frame [hand] with joints [j], and the target [(tx, ty)] its index
    tip is mapped to. *)
Variables (hand : HandData) (j : Joints) (tx ty : R).
Hypothesis Hj : has_joints hand j.

Let maps_to (self : MouseGestureController) : Prop :=
  cursor_target self (LandmarkPoint.x (index_tip j))
                     (LandmarkPoint.y (index_tip j)) = Ok (tx, ty).

(** The same frame [n] times over: the run returns, and on each axis the
    distance left to the target is the first one times [(1 - factor) ^ n]. *)
Lemma repeat_error (n : nat) :
  forall self,
    maps_to self ->
    exists traces self',
      run (repeat hand n) self = Ok (traces, self')
      /\ same_config self self'
      /\ SmoothPoint.x (prev_cursor self') - tx
         = (1 - smoothing_factor self) ^ n
           * (SmoothPoint.x (prev_cursor self) - tx)
      /\ SmoothPoint.y (prev_cursor self') - ty
         = (1 - smoothing_factor self) ^ n
           * (SmoothPoint.y (prev_cursor self) - ty).
Proof.
  induction n as [|n IH]; intros self Ht.
  - exists [], self. cbn [repeat run pow].
    split; [reflexivity|]. split; [apply same_config_refl|]. lra.
  - destruct (update_step self hand j tx ty Hj Ht)
      as (s1 & Hu & Hsame & Hp & _).
    assert (Ht1 : maps_to s1)
      by (unfold maps_to; rewrite (cursor_target_same self s1 _ _ Hsame);
          exact Ht).
    destruct (IH s1 Ht1) as (traces & s' & Hrun & Hsame' & Hx & Hy).
    exists (update_calls self j tx ty :: traces), s'.
    split; [exact (run_cons_ok _ _ _ _ _ _ _ Hu Hrun)|].
    split; [exact (same_config_trans _ _ _ Hsame Hsame')|].
    rewrite Hx, Hy, Hp.
    destruct Hsame as (_ & _ & -> & _).
    unfold update_cursor, lerp. cbn [SmoothPoint.x SmoothPoint.y pow].
    split; ring.
Qed.

Lemma after_run_repeat (n : nat) (self : MouseGestureController) :
  maps_to self ->
  (exists traces,
     run (repeat hand n) self = Ok (traces, after_run (repeat hand n) self))
  /\ SmoothPoint.x (prev_cursor (after_run (repeat hand n) self)) - tx
     = (1 - smoothing_factor self) ^ n
       * (SmoothPoint.x (prev_cursor self) - tx)
  /\ SmoothPoint.y (prev_cursor (after_run (repeat hand n) self)) - ty
     = (1 - smoothing_factor self) ^ n
       * (SmoothPoint.y (prev_cursor self) - ty).
Proof.
  intros Ht.
  destruct (repeat_error n self Ht) as (traces & s' & Hrun & _ & Hx & Hy).
  unfold after_run. rewrite Hrun. eauto.
Qed.

Lemma pow_error_small (q a b eps : R) :
  0 < q < 1 -> 0 < eps ->
  exists N : nat,
    forall n, (N <= n)%nat ->
      Rabs (q ^ n * a) < eps /\ Rabs (q ^ n * b) < eps.
Proof.
  intros Hq He.
  set (M := Rabs a + Rabs b + 1).
  assert (HM : 0 < M)
    by (unfold M; pose proof (Rabs_pos a); pose proof (Rabs_pos b); lra).
  assert (Hy : 0 < eps / M) by (apply Rdiv_lt_0_compat; assumption).
  destruct (pow_lt_1_zero q) with (y := eps / M) as [N HN].
  - rewrite Rabs_pos_eq; lra.
  - exact Hy.
  - exists N. intros n Hn. specialize (HN n Hn).
    assert (Hq0 : 0 <= Rabs (q ^ n)) by apply Rabs_pos.
    assert (Hb : Rabs (q ^ n) * M < eps).
    { apply Rmult_lt_compat_r with (r := M) in HN; [|exact HM].
      replace (eps / M * M) with eps in HN by (field; lra). exact HN. }
    pose proof (Rabs_pos a). pose proof (Rabs_pos b).
    rewrite !Rabs_mult. unfold M in Hb. split; nra.
Qed.

End Smoothing.

(** C8. Smoothing convergence.  One frame that has its joints, fed [n]
    times over to a controller whose active region does not divide by zero
    and whose smoothing factor is strictly between 0 and 1: every run
    returns; with (tx, ty) the mapped target of the index tip, the error
    of the cursor on each axis is multiplied by [1 - factor] at each
    frame, hence by [(1 - factor) ^ n] after [n]; it never grows and never
    changes sign; with the factor 0.25 the multiplier is 0.75; and for
    every [eps > 0] both errors are below [eps] from some frame on. *)
Theorem smoothing_converges :
  forall self hand j,
    has_joints hand j -> region_ok self ->
    0 < smoothing_factor self < 1 ->
    exists tx ty,
      cursor_target self (LandmarkPoint.x (index_tip j))
                         (LandmarkPoint.y (index_tip j)) = Ok (tx, ty)
      /\ let cursor n := prev_cursor (after_run (repeat hand n) self) in
         let ex n := SmoothPoint.x (cursor n) - tx in
         let ey n := SmoothPoint.y (cursor n) - ty in
         (forall n, exists traces,
             run (repeat hand n) self
             = Ok (traces, after_run (repeat hand n) self))
         /\ cursor 0%nat = prev_cursor self
         /\ (forall n,
               ex (S n) = (1 - smoothing_factor self) * ex n
               /\ ey (S n) = (1 - smoothing_factor self) * ey n)
         /\ (forall n,
               ex n = (1 - smoothing_factor self) ^ n * ex 0%nat
               /\ ey n = (1 - smoothing_factor self) ^ n * ey 0%nat)
         /\ (forall n,
               Rabs (ex (S n)) <= Rabs (ex n) /\ 0 <= ex (S n) * ex n
               /\ Rabs (ey (S n)) <= Rabs (ey n) /\ 0 <= ey (S n) * ey n)
         /\ (smoothing_factor self = 0.25 ->
             forall n, ex (S n) = 0.75 * ex n /\ ey (S n) = 0.75 * ey n)
         /\ (forall eps, 0 < eps ->
               exists N : nat, forall n, (N <= n)%nat ->
                 Rabs (ex n) < eps /\ Rabs (ey n) < eps).
Proof.
  intros self hand j Hj Hr Hf.
  destruct (cursor_target_ok self (LandmarkPoint.x (index_tip j))
              (LandmarkPoint.y (index_tip j)) Hr) as (tx & ty & Ht).
  exists tx, ty. split; [exact Ht|].
  intros cursor ex ey.
  assert (Hrun : forall n, exists traces,
             run (repeat hand n) self
             = Ok (traces, after_run (repeat hand n) self))
    by (intros n; apply (after_run_repeat hand j tx ty Hj n self Ht)).
  assert (Hpow : forall n,
             ex n = (1 - smoothing_factor self) ^ n
                    * (SmoothPoint.x (prev_cursor self) - tx)
             /\ ey n = (1 - smoothing_factor self) ^ n
                       * (SmoothPoint.y (prev_cursor self) - ty))
    by (intros n; apply (after_run_repeat hand j tx ty Hj n self Ht)).
  assert (H0 : cursor 0%nat = prev_cursor self) by reflexivity.
  assert (Hstep : forall n,
             ex (S n) = (1 - smoothing_factor self) * ex n
             /\ ey (S n) = (1 - smoothing_factor self) * ey n).
  { intros n. destruct (Hpow n) as [-> ->], (Hpow (S n)) as [-> ->].
    cbn [pow]. split; ring. }
  split; [exact Hrun|]. split; [exact H0|]. split; [exact Hstep|].
  split; [|split; [|split]].
  - intros n. destruct (Hpow n) as [-> ->]. unfold ex, ey. rewrite H0.
    cbn [pow]. split; ring.
  - intros n. destruct (Hstep n) as [-> ->].
    rewrite !Rabs_mult, (Rabs_pos_eq (1 - smoothing_factor self)) by lra.
    pose proof (Rabs_pos (ex n)). pose proof (Rabs_pos (ey n)).
    repeat split; nra.
  - intros H25 n. destruct (Hstep n) as [-> ->]. rewrite H25. split; lra.
  - intros eps Heps.
    destruct (pow_error_small (1 - smoothing_factor self)
                (SmoothPoint.x (prev_cursor self) - tx)
                (SmoothPoint.y (prev_cursor self) - ty) eps)
      as [N HN]; [lra | exact Heps |].
    exists N. intros n Hn. destruct (Hpow n) as [-> ->]. exact (HN n Hn).
Qed.

Lemma smoothing_converges_witness :
  exists tx ty,
    cursor_target (controller_with 120 [] false false)
      (LandmarkPoint.x (index_tip (pinch_joints 0.05)))
      (LandmarkPoint.y (index_tip (pinch_joints 0.05))) = Ok (tx, ty)
    /\ forall eps, 0 < eps ->
         exists N : nat, forall n, (N <= n)%nat ->
           Rabs (SmoothPoint.x
                   (prev_cursor
                      (after_run (repeat (pinch_frame 0.05) n)
                         (controller_with 120 [] false false))) - tx) < eps
           /\ Rabs (SmoothPoint.y
                      (prev_cursor
                         (after_run (repeat (pinch_frame 0.05) n)
                            (controller_with 120 [] false false))) - ty) < eps.
Proof.
  destruct (smoothing_converges (controller_with 120 [] false false)
              (pinch_frame 0.05) (pinch_joints 0.05))
    as (tx & ty & Ht & _ & _ & _ & _ & _ & _ & Hconv).
  - apply has_joints_frame_of.
  - split; cbn; lia.
  - cbn. lra.
  - exists tx, ty. split; [exact Ht | exact Hconv].
Defined.

Section Clicks.

Lemma count_left_click_update_calls self j tx ty :
  count_calls is_left_click (update_calls self j tx ty)
  = Nat.b2n (ltb (left_pinch_dist j) (left_pinch_threshold self)
             && negb (left_click_latched self)).
Proof.
  unfold count_calls. rewrite filter_left_click_update_calls.
  unfold left_click_calls. now destruct (_ && _).
Qed.

Lemma count_right_click_update_calls self j tx ty :
  count_calls is_right_click (update_calls self j tx ty)
  = Nat.b2n (ltb (right_pinch_dist j) (right_pinch_threshold self)
             && negb (right_click_latched self)).
Proof.
  unfold count_calls. rewrite filter_right_click_update_calls.
  unfold right_click_calls. now destruct (_ && _).
Qed.

Lemma double_pinch_dists :
  left_pinch_dist double_pinch_joints = 0
  /\ right_pinch_dist double_pinch_joints = 0.
Proof.
  unfold left_pinch_dist, right_pinch_dist, double_pinch_joints, distance_2d.
  cbn. replace (0.5 - 0.5) with 0 by lra.
  rewrite hypot_0_r, Rabs_R0. auto.
Qed.

End Clicks.

(** C9. Initial state.  [__init__] returns a controller whose cursor is the
    centre of the screen, whose scroll history is empty, whose two latches
    are clear and whose mode is "Idle".  So on the first [update], on a
    frame that has its joints and with an active region that does not
    divide by zero, a left (right) pinch distance below its threshold
    fires exactly one left (right) click. *)
Theorem initial_state_fires_at_once :
  forall cw ch f m tl tr sens sw sh,
  exists c,
    __init__ cw ch f m tl tr sens (sw, sh) = Ok c
    /\ prev_cursor c = SmoothPoint.mk (IZR sw / 2) (IZR sh / 2)
    /\ items (scroll_history c) = []
    /\ left_click_latched c = false
    /\ right_click_latched c = false
    /\ current_mode c = "Idle"%string
    /\ forall hand j,
         has_joints hand j -> (cw <> 2 * m)%Z -> (ch <> 2 * m)%Z ->
         exists self' calls,
           update hand c = Ok (tt, self', calls)
           /\ (left_pinch_dist j < tl ->
               count_calls is_left_click calls = 1%nat)
           /\ (right_pinch_dist j < tr ->
               count_calls is_right_click calls = 1%nat).
Proof.
  intros cw ch f m tl tr sens sw sh. eexists.
  split; [reflexivity|]. repeat (split; [reflexivity|]).
  intros hand j Hj Hw Hh.
  match goal with |- exists s' calls, update hand ?c = _ /\ _ => set (c0 := c) end.
  assert (Hr : region_ok c0) by (split; assumption).
  destruct (update_total c0 hand j Hj Hr) as (self' & calls & Hu).
  exists self', calls. split; [exact Hu|].
  destruct (update_inv _ _ _ _ _ Hj Hu) as (tx & ty & _ & -> & _).
  rewrite count_left_click_update_calls, count_right_click_update_calls.
  cbn [c0 left_pinch_threshold right_pinch_threshold
       left_click_latched right_click_latched negb].
  rewrite !andb_true_r.
  split; intros H; apply ltb_true_iff in H; rewrite H; reflexivity.
Qed.

Lemma initial_state_fires_at_once_witness :
  exists c,
    main_controller (1920, 1080)%Z = Ok c
    /\ exists self' calls,
         update (pinch_frame 0.02) c = Ok (tt, self', calls)
         /\ count_calls is_left_click calls = 1%nat.
Proof.
  destruct (initial_state_fires_at_once
              1280%Z 720%Z 0.25 120%Z 0.035 0.04 35 1920%Z 1080%Z)
    as (c & Hc & _ & _ & _ & _ & _ & Hfire).
  exists c. split; [exact Hc|].
  destruct (Hfire (pinch_frame 0.02) (pinch_joints 0.02))
    as (self' & calls & Hu & Hleft & _).
  - apply has_joints_frame_of.
  - lia.
  - lia.
  - exists self', calls. split; [exact Hu|].
    apply Hleft. rewrite left_pinch_dist_pinch by lra. lra.
Defined.

(** C10. Both clicks in one frame.  With thumb, index and middle tips at
    one point and both latches clear, one [update] makes one left click and
    one right click.  The two latches do not meet: on every frame that has
    its joints, a left click is made exactly when the left distance is
    below the left threshold with the left latch clear, a right click
    exactly when the right distance is below the right threshold with the
    right latch clear, and each latch is set afterwards exactly when its
    own distance is below its own threshold. *)
Theorem both_clicks_in_one_frame :
  (exists self' calls,
     left_click_latched (controller_with 120 [] false false) = false
     /\ right_click_latched (controller_with 120 [] false false) = false
     /\ left_pinch_dist double_pinch_joints < 0.035
     /\ right_pinch_dist double_pinch_joints < 0.04
     /\ update (frame_of double_pinch_joints)
               (controller_with 120 [] false false)
        = Ok (tt, self', calls)
     /\ count_calls is_left_click calls = 1%nat
     /\ count_calls is_right_click calls = 1%nat)
  /\ (forall self hand j,
        has_joints hand j -> region_ok self ->
        exists self' calls,
          update hand self = Ok (tt, self', calls)
          /\ (existsb is_left_click calls = true
              <-> left_pinch_dist j < left_pinch_threshold self
                  /\ left_click_latched self = false)
          /\ (existsb is_right_click calls = true
              <-> right_pinch_dist j < right_pinch_threshold self
                  /\ right_click_latched self = false)
          /\ (left_click_latched self' = true
              <-> left_pinch_dist j < left_pinch_threshold self)
          /\ (right_click_latched self' = true
              <-> right_pinch_dist j < right_pinch_threshold self)).
Proof.
  split.
  - set (c := controller_with 120 [] false false).
    assert (Hj : has_joints (frame_of double_pinch_joints) double_pinch_joints)
      by apply has_joints_frame_of.
    assert (Hr : region_ok c) by (split; cbn; lia).
    destruct (update_total c _ _ Hj Hr) as (self' & calls & Hu).
    exists self', calls.
    destruct double_pinch_dists as [Hl Hrt].
    split; [reflexivity|]. split; [reflexivity|].
    split; [rewrite Hl; lra|]. split; [rewrite Hrt; lra|].
    split; [exact Hu|].
    destruct (update_inv _ _ _ _ _ Hj Hu) as (tx & ty & _ & -> & _).
    rewrite count_left_click_update_calls, count_right_click_update_calls.
    rewrite Hl, Hrt. cbn [c controller_with left_pinch_threshold
      right_pinch_threshold left_click_latched right_click_latched].
    decide_cmp. split; reflexivity.
  - intros self hand j Hj Hr.
    destruct (update_total self hand j Hj Hr) as (self' & calls & Hu).
    exists self', calls. split; [exact Hu|].
    destruct (update_inv _ _ _ _ _ Hj Hu)
      as (tx & ty & _ & -> & _ & _ & _ & Hl & Hrt).
    rewrite !existsb_filter, filter_left_click_update_calls,
      filter_right_click_update_calls, Hl, Hrt.
    unfold left_click_calls, right_click_calls.
    rewrite <- !ltb_true_iff.
    destruct (ltb (left_pinch_dist j) (left_pinch_threshold self));
      destruct (left_click_latched self);
      destruct (ltb (right_pinch_dist j) (right_pinch_threshold self));
      destruct (right_click_latched self); cbn; intuition congruence.
Qed.

Lemma both_clicks_in_one_frame_witness :
  exists self' calls,
    update (frame_of double_pinch_joints) (controller_with 120 [] true false)
    = Ok (tt, self', calls)
    /\ (existsb is_right_click calls = true
        <-> right_pinch_dist double_pinch_joints
            < right_pinch_threshold (controller_with 120 [] true false)
            /\ right_click_latched (controller_with 120 [] true false) = false).
Proof.
  destruct (proj2 both_clicks_in_one_frame
              (controller_with 120 [] true false)
              (frame_of double_pinch_joints) double_pinch_joints)
    as (self' & calls & Hu & _ & Hright & _).
  - apply has_joints_frame_of.
  - split; cbn; lia.
  - exists self', calls. split; [exact Hu | exact Hright].
Defined.

(** ** Geometry utilities (src/utils.py, lines 5-17) *)

(** Case analysis on the innermost comparison of [Rmin] and [Rmax]. *)
Ltac case_Rle :=
  match goal with
  | |- context [Rle_dec ?a ?b] =>
      lazymatch a with context [Rle_dec _ _] => fail | _ => idtac end;
      lazymatch b with context [Rle_dec _ _] => fail | _ => idtac end;
      destruct (Rle_dec a b)
  end.

(** X1. Clamping twice is clamping once, whatever the bounds, inverted
    bounds included. *)
Theorem clamp_idempotent :
  forall v lo hi, clamp (clamp v lo hi) lo hi = clamp v lo hi.
Proof.
  intros v lo hi. unfold clamp, Rmax, Rmin.
  repeat case_Rle; lra.
Qed.

(** X2. With [lo <= hi], [clamp] returns a value of [[lo, hi]]; it returns
    its argument exactly when the argument is in the range, [lo] for an
    argument at or below [lo], [hi] for one at or above [hi]; and it keeps
    the order of its arguments. *)
Theorem clamp_range :
  forall v w lo hi,
    lo <= hi ->
    lo <= clamp v lo hi <= hi
    /\ (clamp v lo hi = v <-> lo <= v <= hi)
    /\ (v <= lo -> clamp v lo hi = lo)
    /\ (hi <= v -> clamp v lo hi = hi)
    /\ (v <= w -> clamp v lo hi <= clamp w lo hi).
Proof.
  intros v w lo hi H. unfold clamp, Rmax, Rmin.
  repeat case_Rle; repeat split; intros; lra.
Qed.

Lemma clamp_range_witness :
  0 <= clamp 1.5 0 1 <= 1 /\ clamp 1.5 0 1 = 1.
Proof.
  destruct (clamp_range 1.5 2 0 1) as (Hb & _ & _ & Hhi & _); [lra|].
  split; [exact Hb | apply Hhi; lra].
Defined.

(** X3. With inverted bounds, [hi < lo], [clamp] returns [lo] for every
    argument. *)
Theorem clamp_inverted_bounds :
  forall v lo hi, hi < lo -> clamp v lo hi = lo.
Proof.
  intros v lo hi H. unfold clamp, Rmax, Rmin.
  repeat case_Rle; lra.
Qed.

Lemma clamp_inverted_bounds_witness : clamp 300 400 200 = 400.
Proof. apply clamp_inverted_bounds. lra. Defined.

(** X4. For a factor in [[0, 1]] [lerp] returns a value between its two
    end points; it returns the start at 0 and the end at 1, and from a
    value to itself it stays there. *)
Theorem lerp_between_ends :
  forall a b t,
    lerp a b 0 = a /\ lerp a b 1 = b /\ lerp a a t = a
    /\ (0 <= t <= 1 -> Rmin a b <= lerp a b t <= Rmax a b).
Proof.
  intros a b t. unfold lerp. repeat split; try ring.
  - unfold Rmin. destruct (Rle_dec a b); nra.
  - unfold Rmax. destruct (Rle_dec a b); nra.
Qed.

Lemma lerp_between_ends_witness :
  Rmin 960 0 <= lerp 960 0 0.25 <= Rmax 960 0.
Proof. apply (lerp_between_ends 960 0 0.25). lra. Defined.

Section Distance.

Lemma hypot_sqr (a b : R) : hypot a b * hypot a b = a * a + b * b.
Proof. unfold hypot. apply sqrt_sqrt. nra. Qed.

Lemma hypot_pos (a b : R) : 0 <= hypot a b.
Proof. unfold hypot. apply sqrt_pos. Qed.

Lemma hypot_triangle (a b c d : R) :
  hypot (a + c) (b + d) <= hypot a b + hypot c d.
Proof.
  pose proof (hypot_sqr a b) as Hp. pose proof (hypot_sqr c d) as Hq.
  pose proof (hypot_pos a b) as Pp. pose proof (hypot_pos c d) as Pq.
  set (p := hypot a b) in *. set (q := hypot c d) in *.
  assert (CS : (a * c + b * d) * (a * c + b * d) <= (p * q) * (p * q)).
  { replace (p * q * (p * q)) with ((p * p) * (q * q)) by ring.
    rewrite Hp, Hq. pose proof (Rle_0_sqr (a * d - b * c)) as Hs.
    unfold Rsqr in Hs. nra. }
  assert (Hpq : 0 <= p * q) by (apply Rmult_le_pos; assumption).
  assert (Hin : a * c + b * d <= p * q).
  { set (s := a * c + b * d) in *. set (m := p * q) in *.
    destruct (Rle_dec s m) as [Hle|Hgt]; [exact Hle|].
    exfalso. assert (0 < (s - m) * (s + m))
      by (apply Rmult_lt_0_compat; lra).
    lra. }
  unfold hypot at 1.
  rewrite <- (sqrt_square (p + q)) by lra.
  apply sqrt_le_1_alt. nra.
Qed.

End Distance.

(** X5. [distance_2d] is never negative, is the same in both directions,
    and is zero exactly for two equal points. *)
Theorem distance_2d_metric :
  forall x1 y1 x2 y2,
    0 <= distance_2d x1 y1 x2 y2
    /\ distance_2d x1 y1 x2 y2 = distance_2d x2 y2 x1 y1
    /\ (distance_2d x1 y1 x2 y2 = 0 <-> x1 = x2 /\ y1 = y2).
Proof.
  intros x1 y1 x2 y2. unfold distance_2d. split; [apply hypot_pos|]. split.
  - unfold hypot. f_equal. ring.
  - split.
    + intros H. pose proof (hypot_sqr (x2 - x1) (y2 - y1)) as Hs.
      rewrite H in Hs.
      destruct (Rplus_sqr_eq_0 (x2 - x1) (y2 - y1)) as [Hx Hy];
        [unfold Rsqr; lra | split; lra].
    + intros [-> ->]. unfold hypot.
      replace ((x2 - x2) * (x2 - x2) + (y2 - y2) * (y2 - y2)) with 0 by ring.
      apply sqrt_0.
Qed.

Lemma distance_2d_metric_witness : distance_2d 0.5 0.5 0.5 0.5 = 0.
Proof.
  apply (proj2 (proj2 (proj2 (distance_2d_metric 0.5 0.5 0.5 0.5)))).
  split; reflexivity.
Defined.

(** X6. [distance_2d] obeys the triangle inequality: a point is no
    farther from another than the way through a third. *)
Theorem distance_2d_triangle :
  forall x1 y1 x2 y2 x3 y3,
    distance_2d x1 y1 x3 y3
    <= distance_2d x1 y1 x2 y2 + distance_2d x2 y2 x3 y3.
Proof.
  intros x1 y1 x2 y2 x3 y3. unfold distance_2d.
  replace (x3 - x1) with ((x2 - x1) + (x3 - x2)) by ring.
  replace (y3 - y1) with ((y2 - y1) + (y3 - y2)) by ring.
  apply hypot_triangle.
Qed.

(** ** FPSCounter (src/utils.py, lines 20-40) *)

Section Fps.

Lemma fps_update_spec (now : R) (self : FPSCounter.t) :
  exists self',
    FPSCounter.update now self = Ok (FPSCounter.fps self', self')
    /\ FPSCounter.prev_time self' = now
    /\ (now <= FPSCounter.prev_time self ->
        FPSCounter.fps self' = FPSCounter.fps self)
    /\ (FPSCounter.prev_time self < now ->
        FPSCounter.fps self'
        = 0.85 * FPSCounter.fps self
          + 0.15 * (1 / (now - FPSCounter.prev_time self))).
Proof.
  unfold FPSCounter.update.
  destruct (ltb 0 (now - FPSCounter.prev_time self)) eqn:E.
  - apply ltb_true_iff in E. rewrite truediv_ok by lra.
    eexists. split; [reflexivity|]. cbn. repeat split; intros; lra.
  - apply ltb_false_iff in E.
    eexists. split; [reflexivity|]. cbn. repeat split; intros; lra.
Qed.

Lemma fps_run_cons (now : R) (rest : list R) (self self1 self2 : FPSCounter.t)
    (shown : R) (more : list R) :
  FPSCounter.update now self = Ok (shown, self1) ->
  FPSCounter.run rest self1 = Ok (more, self2) ->
  FPSCounter.run (now :: rest) self = Ok (shown :: more, self2).
Proof. intros Hu Hr. cbn [FPSCounter.run]. rewrite Hu, Hr. reflexivity. Qed.

Lemma fps_step_nonneg (now : R) (self self' : FPSCounter.t) (shown : R) :
  0 <= FPSCounter.fps self ->
  FPSCounter.update now self = Ok (shown, self') ->
  shown = FPSCounter.fps self' /\ 0 <= FPSCounter.fps self'.
Proof.
  intros H0 Hu.
  destruct (fps_update_spec now self) as (s & Hs & _ & Hle & Hlt).
  rewrite Hu in Hs. injection Hs as -> ->. split; [reflexivity|].
  destruct (Rle_dec now (FPSCounter.prev_time self)) as [Hc|Hc].
  - rewrite (Hle Hc). exact H0.
  - rewrite Hlt by lra.
    assert (0 < 1 / (now - FPSCounter.prev_time self))
      by (apply Rdiv_lt_0_compat; lra).
    lra.
Qed.

Lemma fps_run_nonneg (readings : list R) :
  forall self,
    0 <= FPSCounter.fps self ->
    exists shown self',
      FPSCounter.run readings self = Ok (shown, self')
      /\ length shown = length readings
      /\ Forall (fun f => 0 <= f) shown
      /\ 0 <= FPSCounter.fps self'.
Proof.
  induction readings as [|now rest IH]; intros self H0.
  - exists [], self. repeat split; auto.
  - destruct (fps_update_spec now self) as (s1 & Hu & _).
    destruct (fps_step_nonneg _ _ _ _ H0 Hu) as [_ H1].
    destruct (IH s1 H1) as (more & s2 & Hrun & Hlen & Hall & H2).
    exists (FPSCounter.fps s1 :: more), s2.
    split; [exact (fps_run_cons _ _ _ _ _ _ _ Hu Hrun)|].
    cbn [length]. repeat split; auto.
Qed.

Lemma fps_ticks (d : R) (n : nat) :
  0 < d ->
  forall self,
    exists shown self',
      FPSCounter.run (FPSCounter.ticks (FPSCounter.prev_time self) d n) self
      = Ok (shown, self')
      /\ length shown = n
      /\ FPSCounter.prev_time self' = FPSCounter.prev_time self + INR n * d
      /\ 1 / d - FPSCounter.fps self'
         = 0.85 ^ n * (1 / d - FPSCounter.fps self).
Proof.
  intros Hd. induction n as [|n IH]; intros self.
  - exists [], self. cbn. repeat split; lra.
  - cbn [FPSCounter.ticks].
    destruct (fps_update_spec (FPSCounter.prev_time self + d) self)
      as (s1 & Hu & Hp & _ & Hlt).
    specialize (Hlt ltac:(lra)).
    destruct (IH s1) as (more & s2 & Hrun & Hlen & Hp2 & Hf).
    rewrite Hp in Hrun.
    exists (FPSCounter.fps s1 :: more), s2.
    split; [exact (fps_run_cons _ _ _ _ _ _ _ Hu Hrun)|].
    split; [cbn; lia|]. split.
    + rewrite Hp2, Hp, S_INR. ring.
    + rewrite Hf, Hlt. cbn [pow].
      replace (FPSCounter.prev_time self + d - FPSCounter.prev_time self)
        with d by ring.
      generalize (0.85 ^ n). intros q.
      replace 0.85 with (17 / 20) by lra. replace 0.15 with (3 / 20) by lra.
      field. lra.
Qed.

End Fps.

(** X7. [FPSCounter.update] never raises: the division is guarded.  It
    always records the new clock reading; when the clock has not moved
    forward the rate is left as it was, otherwise the new rate is 0.85 of
    the old one plus 0.15 of the reciprocal of the time elapsed; the value
    returned is the rate it stores. *)
Theorem fps_update_guarded :
  forall now self,
    exists self',
      FPSCounter.update now self = Ok (FPSCounter.fps self', self')
      /\ FPSCounter.prev_time self' = now
      /\ (now <= FPSCounter.prev_time self ->
          FPSCounter.fps self' = FPSCounter.fps self)
      /\ (FPSCounter.prev_time self < now ->
          FPSCounter.fps self'
          = 0.85 * FPSCounter.fps self
            + 0.15 * (1 / (now - FPSCounter.prev_time self))).
Proof. exact fps_update_spec. Qed.

Lemma fps_update_guarded_witness :
  exists self',
    FPSCounter.update 10 (FPSCounter.mk 10 30)
    = Ok (FPSCounter.fps self', self')
    /\ FPSCounter.fps self' = 30.
Proof.
  destruct (fps_update_guarded 10 (FPSCounter.mk 10 30))
    as (self' & Hu & _ & Hsame & _).
  exists self'. split; [exact Hu|]. apply Hsame. cbn. lra.
Defined.

(** X8. From construction on, over every sequence of clock readings, in
    order or not, the counter returns one rate per reading and no rate is
    negative.  If moreover the rate is at most [B] and the clock moves by
    nothing or by at least [1 / B], the rate stays at most [B]. *)
Theorem fps_stays_in_range :
  (forall now0 readings,
     exists shown self',
       FPSCounter.run readings (FPSCounter.__init__ now0) = Ok (shown, self')
       /\ length shown = length readings
       /\ Forall (fun f => 0 <= f) shown)
  /\ (forall B now self,
        0 < B ->
        FPSCounter.fps self <= B ->
        (now <= FPSCounter.prev_time self
         \/ 1 / B <= now - FPSCounter.prev_time self) ->
        exists self',
          FPSCounter.update now self = Ok (FPSCounter.fps self', self')
          /\ FPSCounter.fps self' <= B).
Proof.
  split.
  - intros now0 readings.
    destruct (fps_run_nonneg readings (FPSCounter.__init__ now0))
      as (shown & s & Hrun & Hlen & Hall & _); [cbn; lra|].
    exists shown, s. auto.
  - intros B now self HB Hf Hgap.
    destruct (fps_update_spec now self) as (s & Hu & _ & Hle & Hlt).
    exists s. split; [exact Hu|].
    destruct Hgap as [Hc|Hc]; [rewrite (Hle Hc); exact Hf|].
    assert (HiB : 0 < 1 / B) by (apply Rdiv_lt_0_compat; lra).
    rewrite Hlt by lra.
    set (delta := now - FPSCounter.prev_time self) in *.
    assert (Hd : 1 / delta <= B).
    { apply Rmult_le_reg_r with delta; [lra|].
      replace (1 / delta * delta) with 1 by (field; lra).
      replace 1 with (B * (1 / B)) at 1 by (field; lra).
      apply Rmult_le_compat_l; lra. }
    lra.
Qed.

Lemma fps_stays_in_range_witness :
  exists self',
    FPSCounter.update 10.05 (FPSCounter.mk 10 30)
    = Ok (FPSCounter.fps self', self')
    /\ FPSCounter.fps self' <= 60.
Proof.
  apply (proj2 fps_stays_in_range 60 10.05 (FPSCounter.mk 10 30)).
  - lra.
  - cbn. lra.
  - right. cbn. lra.
Defined.

(** X9. With clock readings a constant [d > 0] apart the counter closes
    in on the true rate [1 / d]: after [n] readings the gap between
    [1 / d] and the rate is the first gap times [0.85 ^ n], so a counter
    just constructed shows [(1 - 0.85 ^ n) / d], below the true rate; and
    the gap is below every [eps > 0] from some reading on. *)
Theorem fps_constant_rate :
  forall d now0,
    0 < d ->
    (forall n,
       exists shown self',
         FPSCounter.run (FPSCounter.ticks now0 d n) (FPSCounter.__init__ now0)
         = Ok (shown, self')
         /\ length shown = n
         /\ FPSCounter.fps self' = (1 - 0.85 ^ n) / d
         /\ FPSCounter.fps self' < 1 / d)
    /\ (forall eps,
          0 < eps ->
          exists N : nat, forall n, (N <= n)%nat ->
            exists shown self',
              FPSCounter.run (FPSCounter.ticks now0 d n)
                (FPSCounter.__init__ now0) = Ok (shown, self')
              /\ Rabs (1 / d - FPSCounter.fps self') < eps).
Proof.
  intros d now0 Hd.
  assert (Hgap : forall n,
             exists shown self',
               FPSCounter.run (FPSCounter.ticks now0 d n)
                 (FPSCounter.__init__ now0) = Ok (shown, self')
               /\ length shown = n
               /\ 1 / d - FPSCounter.fps self' = 0.85 ^ n * (1 / d)).
  { intros n.
    destruct (fps_ticks d n Hd (FPSCounter.__init__ now0))
      as (shown & s & Hrun & Hlen & _ & Hf).
    exists shown, s. cbn in Hrun, Hf. split; [exact Hrun|].
    split; [exact Hlen|]. rewrite Hf. ring. }
  split.
  - intros n. destruct (Hgap n) as (shown & s & Hrun & Hlen & Hf).
    exists shown, s. split; [exact Hrun|]. split; [exact Hlen|].
    assert (Hp : 0 < 0.85 ^ n) by (apply pow_lt; lra).
    assert (Hi : 0 < 1 / d) by (apply Rdiv_lt_0_compat; lra).
    split.
    + replace ((1 - 0.85 ^ n) / d) with (1 / d - 0.85 ^ n * (1 / d))
        by (field; lra).
      lra.
    + assert (0 < 0.85 ^ n * (1 / d)) by (apply Rmult_lt_0_compat; lra).
      lra.
  - intros eps Heps.
    destruct (pow_error_small 0.85 (1 / d) 0 eps) as [N HN]; [lra | lra |].
    exists N. intros n Hn. destruct (Hgap n) as (shown & s & Hrun & _ & Hf).
    exists shown, s. split; [exact Hrun|]. rewrite Hf.
    exact (proj1 (HN n Hn)).
Qed.

Lemma fps_constant_rate_witness :
  exists shown self',
    FPSCounter.run (FPSCounter.ticks 0 0.04 3) (FPSCounter.__init__ 0)
    = Ok (shown, self')
    /\ length shown = 3%nat
    /\ FPSCounter.fps self' = (1 - 0.85 ^ 3) / 0.04
    /\ FPSCounter.fps self' < 1 / 0.04.
Proof. apply (proj1 (fps_constant_rate 0.04 0 ltac:(lra)) 3%nat). Defined.

(** ** The update cycle, further (src/gesture_controller.py) *)

Section Mode.

(** The mode label one [update] leaves: the last assignment made wins. *)
Lemma update_mode_step (self : MouseGestureController) (hand : HandData)
    (j : Joints) (tx ty : R) :
  has_joints hand j ->
  cursor_target self (LandmarkPoint.x (index_tip j))
                     (LandmarkPoint.y (index_tip j)) = Ok (tx, ty) ->
  exists self',
    update hand self = Ok (tt, self', update_calls self j tx ty)
    /\ current_mode self'
       = if leb (left_pinch_threshold self) (left_pinch_dist j)
            && leb (right_pinch_threshold self) (right_pinch_dist j)
            && negb (index_extended j && middle_extended j)
         then "Move"%string
         else if ltb (right_pinch_dist j) (right_pinch_threshold self)
                 && negb (right_click_latched self)
         then "Right Click"%string
         else if ltb (left_pinch_dist j) (left_pinch_threshold self)
                 && negb (left_click_latched self)
         then "Left Click"%string
         else if scroll_gate self j then "Scroll"%string
         else current_mode self.
Proof.
  intros (H4 & H8 & H6 & H12 & H10) Ht.
  unfold update, _move_cursor.
  cbv [bind lift getitem get modify call ret].
  rewrite H4, H8, H6, H12, H10. cbv beta iota zeta.
  rewrite Ht. cbv beta iota zeta.
  cbn [with_prev_cursor left_pinch_threshold right_pinch_threshold
       left_click_latched right_click_latched scroll_history app].
  unfold update_calls, update_scroll_calls, update_history, update_cursor,
    left_click_calls, right_click_calls.
  cbn [SmoothPoint.x SmoothPoint.y].
  unfold scroll_gate, index_extended, middle_extended,
    left_pinch_dist, right_pinch_dist, avg_y.
  set (dl := distance_2d _ _ (LandmarkPoint.x (index_tip j)) _).
  set (dr := distance_2d _ _ (LandmarkPoint.x (middle_tip j)) _).
  set (ie := ltb (LandmarkPoint.y (index_tip j)) _).
  set (me := ltb (LandmarkPoint.y (middle_tip j)) _).
  rewrite !leb_negb_ltb.
  destruct ie, me, (ltb (left_pinch_threshold self) dl);
    cbv beta iota; cbn [andb negb];
    rewrite ?handle_scroll_spec; cbv beta iota;
    cbn -[deque_append deque_clear scroll_calls];
    rewrite ?leb_negb_ltb;
    destruct (ltb dl (left_pinch_threshold self)) eqn:L;
    destruct (left_click_latched self) eqn:LL;
    cbn -[deque_append deque_clear scroll_calls];
    rewrite ?leb_negb_ltb;
    destruct (ltb dr (right_pinch_threshold self)) eqn:Rr;
    destruct (right_click_latched self) eqn:RL;
    cbn -[deque_append deque_clear scroll_calls];
    rewrite ?leb_negb_ltb, ?L, ?Rr;
    cbn -[deque_append deque_clear scroll_calls];
    rewrite ?app_nil_r;
    (eexists; split; [reflexivity|]); reflexivity.
Qed.

Lemma update_mode_inv (self self' : MouseGestureController)
    (hand : HandData) (j : Joints) (calls : list GuiCall) :
  has_joints hand j ->
  update hand self = Ok (tt, self', calls) ->
  current_mode self'
  = if leb (left_pinch_threshold self) (left_pinch_dist j)
       && leb (right_pinch_threshold self) (right_pinch_dist j)
       && negb (index_extended j && middle_extended j)
    then "Move"%string
    else if ltb (right_pinch_dist j) (right_pinch_threshold self)
            && negb (right_click_latched self)
    then "Right Click"%string
    else if ltb (left_pinch_dist j) (left_pinch_threshold self)
            && negb (left_click_latched self)
    then "Left Click"%string
    else if scroll_gate self j then "Scroll"%string
    else current_mode self.
Proof.
  intros Hj Hu.
  destruct (update_ok_target _ _ _ _ _ Hj Hu) as (tx & ty & Ht).
  destruct (update_mode_step self hand j tx ty Hj Ht) as (s & Hs & Hm).
  rewrite Hu in Hs. injection Hs as -> _. exact Hm.
Qed.

End Mode.

(** X10. The order of the calls.  On a frame that has its joints, with an
    active region that does not divide by zero, [update] returns, leaves
    the configuration as it was, and makes its calls in one order: first
    one [moveTo], to the cursor it stores, then at most one [scroll], then
    at most one left click, then at most one right click.  The cursor
    moves on every frame, whatever else the frame triggers. *)
Theorem update_call_order :
  forall self hand j,
    has_joints hand j -> region_ok self ->
    exists self' x y scrolls lefts rights,
      update hand self
      = Ok (tt, self', moveTo x y :: scrolls ++ lefts ++ rights)
      /\ prev_cursor self' = SmoothPoint.mk x y
      /\ same_config self self'
      /\ (scrolls = [] \/ exists amount, scrolls = [scroll amount])
      /\ (lefts = [] \/ lefts = [click ButtonLeft])
      /\ (rights = [] \/ rights = [click ButtonRight]).
Proof.
  intros self hand j Hj Hr.
  destruct (cursor_target_ok self (LandmarkPoint.x (index_tip j))
              (LandmarkPoint.y (index_tip j)) Hr) as (tx & ty & Ht).
  destruct (update_step self hand j tx ty Hj Ht)
    as (self' & Hu & Hsame & Hp & _).
  exists self', (SmoothPoint.x (update_cursor self tx ty)),
    (SmoothPoint.y (update_cursor self tx ty)),
    (update_scroll_calls self j), (left_click_calls self j),
    (right_click_calls self j).
  split; [exact Hu|]. split; [exact Hp|]. split; [exact Hsame|].
  split; [|split].
  - unfold update_scroll_calls, scroll_calls.
    destruct (scroll_gate self j); [|now left].
    destruct (length _ <? 2)%nat; [now left|].
    destruct (1 <? _)%Z; [right; eauto | now left].
  - unfold left_click_calls. destruct (_ && _); auto.
  - unfold right_click_calls. destruct (_ && _); auto.
Qed.

Lemma update_call_order_witness :
  exists self' x y scrolls lefts rights,
    update (frame_of double_pinch_joints) (controller_with 120 [] false false)
    = Ok (tt, self', moveTo x y :: scrolls ++ lefts ++ rights)
    /\ prev_cursor self' = SmoothPoint.mk x y.
Proof.
  destruct (update_call_order (controller_with 120 [] false false)
              (frame_of double_pinch_joints) double_pinch_joints)
    as (self' & x & y & scrolls & lefts & rights & Hu & Hp & _).
  - apply has_joints_frame_of.
  - split; cbn; lia.
  - exists self', x, y, scrolls, lefts, rights. split; [exact Hu | exact Hp].
Defined.

(** X11. The mode label after one [update].  It is "Move" when neither
    pinch is within its threshold and index and middle fingers are not
    both extended; otherwise "Right Click" when a right click fires;
    otherwise "Left Click" when a left click fires; otherwise "Scroll"
    when the scroll condition holds; otherwise the label is left as it
    was (a pinch that is held, or two extended fingers with the thumb at
    or inside the left threshold). *)
Theorem mode_after_update :
  forall self hand j,
    has_joints hand j -> region_ok self ->
    exists self' calls,
      update hand self = Ok (tt, self', calls)
      /\ current_mode self'
         = if leb (left_pinch_threshold self) (left_pinch_dist j)
              && leb (right_pinch_threshold self) (right_pinch_dist j)
              && negb (index_extended j && middle_extended j)
           then "Move"%string
           else if ltb (right_pinch_dist j) (right_pinch_threshold self)
                   && negb (right_click_latched self)
           then "Right Click"%string
           else if ltb (left_pinch_dist j) (left_pinch_threshold self)
                   && negb (left_click_latched self)
           then "Left Click"%string
           else if scroll_gate self j then "Scroll"%string
           else current_mode self.
Proof.
  intros self hand j Hj Hr.
  destruct (update_total self hand j Hj Hr) as (self' & calls & Hu).
  exists self', calls. split; [exact Hu|].
  exact (update_mode_inv _ _ _ _ _ Hj Hu).
Qed.

Lemma mode_after_update_witness :
  exists self' calls,
    update (frame_of double_pinch_joints) (controller_with 120 [] false false)
    = Ok (tt, self', calls)
    /\ current_mode self' = "Right Click"%string.
Proof.
  destruct (mode_after_update (controller_with 120 [] false false)
              (frame_of double_pinch_joints) double_pinch_joints)
    as (self' & calls & Hu & Hm).
  - apply has_joints_frame_of.
  - split; cbn; lia.
  - exists self', calls. split; [exact Hu|]. rewrite Hm.
    destruct double_pinch_dists as [-> ->].
    cbn [controller_with left_pinch_threshold right_pinch_threshold
         left_click_latched right_click_latched].
    decide_cmp. reflexivity.
Defined.

(** X12. The mode label over a run.  [__init__] sets it to "Idle"; a run
    that starts with one of the five labels "Idle", "Move", "Scroll",
    "Left Click", "Right Click" ends with one of them; and no [update]
    ever sets "Idle": a run that ends with "Idle" began with it. *)
Theorem mode_labels :
  (forall cw ch f m tl tr sens size c,
     __init__ cw ch f m tl tr sens size = Ok c ->
     current_mode c = "Idle"%string)
  /\ (forall self hands traces self',
        run hands self = Ok (traces, self') ->
        (In (current_mode self)
            ["Idle"; "Move"; "Scroll"; "Left Click"; "Right Click"]%string ->
         In (current_mode self')
            ["Idle"; "Move"; "Scroll"; "Left Click"; "Right Click"]%string)
        /\ (current_mode self' = "Idle"%string ->
            current_mode self = "Idle"%string)).
Proof.
  split.
  - intros cw ch f m tl tr sens [sw sh] c [= <-]. reflexivity.
  - intros self hands. revert self.
    induction hands as [|hand rest IH]; intros self traces self' Hrun.
    + cbn in Hrun. injection Hrun as <- <-. auto.
    + apply run_cons_inv in Hrun as (s1 & calls & tr & Hu & Hr & ->).
      destruct (IH _ _ _ Hr) as [Hin Hidle].
      destruct (update_ok_joints _ _ _ _ Hu) as [j Hj].
      pose proof (update_mode_inv _ _ _ _ _ Hj Hu) as Hm.
      split.
      * intros H0. apply Hin. rewrite Hm.
        repeat match goal with
               | |- context [if ?c then _ else _] => destruct c
               end; cbn; auto 10.
      * intros H0. specialize (Hidle H0). rewrite Hm in Hidle.
        repeat match type of Hidle with
               | context [if ?c then _ else _] => destruct c
               end; try discriminate. exact Hidle.
Qed.

Lemma mode_labels_witness :
  exists traces self',
    run [pinch_frame 0.02; pinch_frame 0.05]
        (controller_with 120 [] false false) = Ok (traces, self')
    /\ In (current_mode self')
          ["Idle"; "Move"; "Scroll"; "Left Click"; "Right Click"]%string.
Proof.
  destruct (run_total [pinch_frame 0.02; pinch_frame 0.05]
              (controller_with 120 [] false false))
    as (traces & self' & Hrun).
  - split; cbn; lia.
  - repeat constructor; cbn; lia.
  - exists traces, self'. split; [exact Hrun|].
    apply (proj1 (proj2 mode_labels _ _ _ _ Hrun)). cbn. auto.
Defined.

Section RightClicks.

Lemma right_pinch_dist_pinch_04 (d : R) :
  right_pinch_dist (pinch_joints d) = 0.4.
Proof.
  unfold right_pinch_dist, pinch_joints, distance_2d. cbn.
  replace (0.9 - 0.5) with 0.4 by lra.
  replace (0.5 - 0.5) with 0 by lra.
  rewrite hypot_0_r. apply Rabs_pos_eq. lra.
Qed.

Lemma run_right_clicks (hands : list HandData) (js : list Joints) :
  Forall2 has_joints hands js ->
  forall self, region_ok self ->
  exists traces self',
    run hands self = Ok (traces, self') /\
    map (count_calls is_right_click) traces
    = map Nat.b2n (spec_clicks (right_pinch_threshold self)
                     (right_click_latched self) (map right_pinch_dist js)).
Proof.
  induction 1 as [|hand j hands js Hj _ IH]; intros self Hr.
  - exists [], self. split; reflexivity.
  - destruct (update_total self hand j Hj Hr) as (self1 & calls & Hu).
    destruct (update_inv _ _ _ _ _ Hj Hu)
      as (tx & ty & _ & -> & Hc & _ & _ & _ & Hrt).
    destruct (IH self1 (region_ok_same_config _ _ Hc Hr))
      as (traces & self2 & Hrun & Hmap).
    exists (update_calls self j tx ty :: traces), self2.
    split; [exact (run_cons_ok _ _ _ _ _ _ _ Hu Hrun)|].
    cbn [map spec_clicks]. rewrite Hmap, Hrt.
    destruct Hc as (_ & _ & _ & _ & _ & -> & _).
    rewrite count_right_click_update_calls, leb_negb_ltb.
    destruct (ltb (right_pinch_dist j) (right_pinch_threshold self));
      destruct (right_click_latched self); reflexivity.
Qed.

End RightClicks.

(** X13. The right click is edge-triggered as the left one is, on the
    thumb-middle distance, with its own threshold and its own latch: over
    every sequence of frames that have their joints, the right clicks per
    frame are the ones [spec_clicks] lists, one on each frame whose
    distance is below the threshold while the latch is clear, none while
    the pinch is held. *)
Theorem right_click_edge_trigger :
  forall self hands js,
    Forall2 has_joints hands js -> region_ok self ->
    exists traces self',
      run hands self = Ok (traces, self')
      /\ map (count_calls is_right_click) traces
         = map Nat.b2n (spec_clicks (right_pinch_threshold self)
                          (right_click_latched self)
                          (map right_pinch_dist js)).
Proof.
  intros self hands js Hf Hr. exact (run_right_clicks hands js Hf self Hr).
Qed.

Lemma right_click_edge_trigger_witness :
  exists traces self',
    run (map frame_of [double_pinch_joints; double_pinch_joints;
                       pinch_joints 0.05; double_pinch_joints])
        (controller_with 120 [] false false) = Ok (traces, self')
    /\ map (count_calls is_right_click) traces = [1; 0; 0; 1]%nat.
Proof.
  destruct (right_click_edge_trigger (controller_with 120 [] false false)
              (map frame_of [double_pinch_joints; double_pinch_joints;
                             pinch_joints 0.05; double_pinch_joints])
              [double_pinch_joints; double_pinch_joints;
               pinch_joints 0.05; double_pinch_joints])
    as (traces & self' & Hrun & Hmap).
  - repeat constructor.
  - split; cbn; lia.
  - exists traces, self'. split; [exact Hrun|]. rewrite Hmap.
    cbn [map controller_with right_pinch_threshold right_click_latched].
    rewrite (proj2 double_pinch_dists), right_pinch_dist_pinch_04.
    cbn [spec_clicks]. decide_cmp. reflexivity.
Defined.

Section ScrollMore.

(** The amount computed on a history that has just been extended: the
    difference between the sample that was last and the new one. *)
Lemma spec_scroll_amount_append (d : deque) (older : list R) (p v : R)
    (sens : R) :
  maxlen d = 5%nat -> (length (items d) <= 5)%nat ->
  items d = older ++ [p] ->
  (2 <= length (items (deque_append d v)))%nat
  /\ spec_scroll_amount (items (deque_append d v)) sens
     = int ((p - v) * sens * 100).
Proof.
  intros Hm Hl Hi.
  assert (H2 : (2 <= length (items (deque_append d v)))%nat).
  { unfold deque_append.
    destruct (Nat.eqb_spec (length (items d)) (maxlen d)) as [E|E]; cbn.
    - rewrite length_app. cbn. destruct (items d); cbn in *; lia.
    - rewrite length_app, Hi, length_app. cbn. lia. }
  split; [exact H2|].
  destruct (deque_append_last_two d v) as [H1 Hp].
  unfold spec_scroll_amount. rewrite H1, (Hp H2), Hi, last_last.
  reflexivity.
Qed.

Lemma scroll_calls_dead_zone (h : list R) (sens : R) :
  (2 <= length h)%nat ->
  scroll_calls h sens
  = if (1 <? Z.abs (spec_scroll_amount h sens))%Z
    then [scroll (spec_scroll_amount h sens)] else [].
Proof.
  intros H. unfold scroll_calls.
  destruct (Nat.ltb_spec (length h) 2); [lia | reflexivity].
Qed.

End ScrollMore.

(** X14. A scroll and a left click never come from the same [update]: on
    every frame that has its joints, if the calls hold a [scroll] they
    hold no left click, and if they hold a left click they hold no
    [scroll]. *)
Theorem scroll_excludes_left_click :
  forall self hand j,
    has_joints hand j -> region_ok self ->
    exists self' calls,
      update hand self = Ok (tt, self', calls)
      /\ (existsb is_scroll calls = true ->
          existsb is_left_click calls = false)
      /\ (existsb is_left_click calls = true ->
          existsb is_scroll calls = false).
Proof.
  intros self hand j Hj Hr.
  destruct (update_total self hand j Hj Hr) as (self' & calls & Hu).
  exists self', calls. split; [exact Hu|].
  destruct (update_inv _ _ _ _ _ Hj Hu) as (tx & ty & _ & -> & _).
  rewrite existsb_scroll_update_calls.
  rewrite (existsb_filter is_left_click), filter_left_click_update_calls.
  unfold update_scroll_calls, left_click_calls.
  destruct (scroll_gate self j) eqn:G.
  - apply scroll_gate_true_iff in G as (_ & _ & G).
    rewrite (proj2 (ltb_false_iff _ _)) by lra. cbn.
    split; intros; [reflexivity | discriminate].
  - cbn. split; intros; [discriminate | reflexivity].
Qed.

Lemma scroll_excludes_left_click_witness :
  exists self' calls,
    update (frame_of (raised_joints 0.01))
           (controller_with 120 [0.3] false false) = Ok (tt, self', calls)
    /\ (existsb is_left_click calls = true ->
        existsb is_scroll calls = false).
Proof.
  destruct (scroll_excludes_left_click (controller_with 120 [0.3] false false)
              (frame_of (raised_joints 0.01)) (raised_joints 0.01))
    as (self' & calls & Hu & _ & Hl).
  - apply has_joints_frame_of.
  - split; cbn; lia.
  - exists self', calls. split; [exact Hu | exact Hl].
Defined.

(** X15. A scroll and a right click do come from the same [update]: the
    scroll condition looks at the left pinch only.  On a frame where the
    scroll condition holds, the thumb-middle distance is below the right
    threshold with the right latch clear, and the fingertip average has
    moved from the last sample [p] so that
    [|(p - average) * sensitivity * 100| >= 2], the calls hold a [scroll]
    and a right click, and the mode label ends as "Right Click". *)
Theorem scroll_with_right_click :
  forall self hand j older p,
    has_joints hand j -> region_ok self -> history_ok self ->
    items (scroll_history self) = older ++ [p] ->
    scroll_gate self j = true ->
    right_pinch_dist j < right_pinch_threshold self ->
    right_click_latched self = false ->
    2 <= Rabs ((p - avg_y j) * scroll_sensitivity self * 100) ->
    exists self' calls,
      update hand self = Ok (tt, self', calls)
      /\ existsb is_scroll calls = true
      /\ existsb is_right_click calls = true
      /\ current_mode self' = "Right Click"%string.
Proof.
  intros self hand j older p Hj Hr [Hm Hl] Hi G Hd Hlatch Hmove.
  destruct (update_total self hand j Hj Hr) as (self' & calls & Hu).
  exists self', calls. split; [exact Hu|].
  pose proof (update_mode_inv _ _ _ _ _ Hj Hu) as Hmode.
  destruct (update_inv _ _ _ _ _ Hj Hu) as (tx & ty & _ & -> & _).
  apply ltb_true_iff in Hd.
  split; [|split].
  - rewrite existsb_scroll_update_calls. unfold update_scroll_calls.
    unfold update_history. rewrite G.
    destruct (spec_scroll_amount_append (scroll_history self) older p
                (avg_y j) (scroll_sensitivity self) Hm Hl Hi) as [H2 Ha].
    rewrite scroll_calls_dead_zone by exact H2. rewrite Ha.
    rewrite (proj2 (Z.ltb_lt _ _)) by (apply int_abs_gt_1; exact Hmove).
    reflexivity.
  - rewrite (existsb_filter is_right_click), filter_right_click_update_calls.
    unfold right_click_calls. rewrite Hd, Hlatch. reflexivity.
  - rewrite Hmode, Hd, Hlatch.
    apply scroll_gate_true_iff in G as (-> & -> & _).
    rewrite (leb_negb_ltb (right_pinch_threshold self)), Hd.
    cbn. now rewrite andb_false_r.
Qed.

Lemma scroll_with_right_click_witness :
  exists self' calls,
    update (frame_of right_pinch_raised_joints)
           (controller_with 120 [0.6] false false) = Ok (tt, self', calls)
    /\ existsb is_scroll calls = true
    /\ existsb is_right_click calls = true.
Proof.
  assert (Hdl : left_pinch_dist right_pinch_raised_joints = 0.4).
  { unfold left_pinch_dist, right_pinch_raised_joints, distance_2d. cbn.
    replace (0.5 - 0.5) with 0 by lra.
    rewrite hypot_0_r. unfold Rabs. destruct (Rcase_abs _); lra. }
  assert (Hdr : right_pinch_dist right_pinch_raised_joints = 0).
  { unfold right_pinch_dist, right_pinch_raised_joints, distance_2d. cbn.
    replace (0.9 - 0.9) with 0 by lra. replace (0.5 - 0.5) with 0 by lra.
    rewrite hypot_0_r. apply Rabs_R0. }
  destruct (scroll_with_right_click (controller_with 120 [0.6] false false)
              (frame_of right_pinch_raised_joints) right_pinch_raised_joints
              [] 0.6)
    as (self' & calls & Hu & Hs & Hc & _).
  - apply has_joints_frame_of.
  - split; cbn; lia.
  - split; cbn; lia.
  - reflexivity.
  - apply scroll_gate_true_iff. rewrite Hdl.
    unfold index_extended, middle_extended, right_pinch_raised_joints. cbn.
    split; [|split]; [apply ltb_true_iff; lra | apply ltb_true_iff; lra | lra].
  - rewrite Hdr. cbn. lra.
  - reflexivity.
  - unfold avg_y, right_pinch_raised_joints. cbn.
    replace ((0.6 - (0.5 + 0.5) / 2) * 35 * 100) with 350 by lra.
    rewrite Rabs_pos_eq; lra.
  - exists self', calls. auto.
Defined.

(** X16. A scroll needs two scroll-active frames in a row.  Over two
    frames that have their joints, if the scroll condition fails on the
    first, neither [update] makes a [scroll] call, wherever the fingers
    are on the second. *)
Theorem scroll_needs_two_active_frames :
  forall self hand1 j1 hand2 j2,
    has_joints hand1 j1 -> has_joints hand2 j2 -> region_ok self ->
    scroll_gate self j1 = false ->
    exists calls1 calls2 self',
      run [hand1; hand2] self = Ok ([calls1; calls2], self')
      /\ existsb is_scroll calls1 = false
      /\ existsb is_scroll calls2 = false.
Proof.
  intros self hand1 j1 hand2 j2 Hj1 Hj2 Hr G.
  destruct (update_total self hand1 j1 Hj1 Hr) as (s1 & c1 & Hu1).
  destruct (update_inv _ _ _ _ _ Hj1 Hu1)
    as (tx1 & ty1 & _ & E1 & Hc & _ & Hh & _).
  destruct (update_total s1 hand2 j2 Hj2 (region_ok_same_config _ _ Hc Hr))
    as (s2 & c2 & Hu2).
  destruct (update_inv _ _ _ _ _ Hj2 Hu2) as (tx2 & ty2 & _ & E2 & _).
  exists c1, c2, s2. split.
  - apply (run_cons_ok _ _ _ _ _ _ _ Hu1).
    apply (run_cons_ok _ _ _ _ _ _ _ Hu2). reflexivity.
  - subst c1 c2. rewrite !existsb_scroll_update_calls.
    unfold update_scroll_calls, update_history.
    rewrite G, Hh. unfold update_history. rewrite G.
    split; [reflexivity|].
    destruct (scroll_gate s1 j2); [|reflexivity].
    unfold deque_clear, deque_append. cbn [items maxlen length].
    destruct (0 =? _)%nat; reflexivity.
Qed.

Lemma scroll_needs_two_active_frames_witness :
  exists calls1 calls2 self',
    run [pinch_frame 0.05; frame_of (raised_joints 0.3)]
        (controller_with 120 [0.9] false false)
    = Ok ([calls1; calls2], self')
    /\ existsb is_scroll calls1 = false
    /\ existsb is_scroll calls2 = false.
Proof.
  apply (scroll_needs_two_active_frames
           (controller_with 120 [0.9] false false)
           (pinch_frame 0.05) (pinch_joints 0.05)
           (frame_of (raised_joints 0.3)) (raised_joints 0.3)).
  - apply has_joints_frame_of.
  - apply has_joints_frame_of.
  - split; cbn; lia.
  - unfold scroll_gate, index_extended, pinch_joints. cbn.
    rewrite (proj2 (ltb_false_iff 0.5 0.4)) by lra. reflexivity.
Defined.

(** X17. The dead zone of the scroll.  With [p] the last sample of a
    scroll history of capacity 5 and [r = (p - average) * sensitivity *
    100] for the new average, [_handle_scroll] makes a [scroll] call
    exactly when [|r| >= 2]; the amount is [r] truncated toward zero, at
    least 2 for [r >= 2] and at most -2 for [r <= -2], so it has the sign
    of [r]. *)
Theorem scroll_dead_zone :
  forall self index_y middle_y older p,
    history_ok self ->
    items (scroll_history self) = older ++ [p] ->
    let r := (p - (index_y + middle_y) / 2)
             * scroll_sensitivity self * 100 in
    exists self',
      _handle_scroll index_y middle_y self
      = Ok (tt, self', if ltb (Rabs r) 2 then [] else [scroll (int r)])
      /\ (2 <= r -> (2 <= int r)%Z)
      /\ (r <= -2 -> (int r <= -2)%Z).
Proof.
  intros self iy my older p [Hm Hl] Hi r.
  exists (with_scroll_history
            (deque_append (scroll_history self) ((iy + my) / 2)) self).
  destruct (spec_scroll_amount_append (scroll_history self) older p
              ((iy + my) / 2) (scroll_sensitivity self) Hm Hl Hi)
    as [H2 Ha].
  fold r in Ha. split; [|split].
  - rewrite handle_scroll_spec, scroll_calls_dead_zone by exact H2.
    rewrite Ha.
    destruct (ltb (Rabs r) 2) eqn:E.
    + apply ltb_true_iff in E.
      destruct (Z.ltb_spec 1 (Z.abs (int r))) as [H|H]; [|reflexivity].
      apply int_abs_gt_1 in H. lra.
    + apply ltb_false_iff in E. apply int_abs_gt_1 in E.
      rewrite (proj2 (Z.ltb_lt _ _) E). reflexivity.
  - intros Hr. destruct (int_nonneg r) as (_ & _ & Hhi); [lra|].
    assert (1 < int r)%Z by (apply lt_IZR; lra). lia.
  - intros Hr. destruct (int_neg r) as (_ & Hlo & _); [lra|].
    assert (int r < -1)%Z by (apply lt_IZR; lra). lia.
Qed.

Lemma scroll_dead_zone_witness :
  exists self',
    _handle_scroll 0.5001 0.5001 (controller_with 120 [0.50] false false)
    = Ok (tt, self',
          if ltb (Rabs ((0.50 - (0.5001 + 0.5001) / 2) * 35 * 100)) 2
          then [] else
            [scroll (int ((0.50 - (0.5001 + 0.5001) / 2) * 35 * 100))]).
Proof.
  destruct (scroll_dead_zone (controller_with 120 [0.50] false false)
              0.5001 0.5001 [] 0.50) as (self' & Hs & _).
  - split; cbn; lia.
  - reflexivity.
  - exists self'. exact Hs.
Defined.

Section Window.

Lemma lastn_all {A : Type} (n : nat) (l : list A) :
  (length l <= n)%nat -> lastn n l = l.
Proof.
  intros H. unfold lastn. replace (length l - n)%nat with 0%nat by lia.
  reflexivity.
Qed.

Lemma lastn_length {A : Type} (n : nat) (l : list A) :
  length (lastn n l) = Nat.min n (length l).
Proof. unfold lastn. rewrite length_skipn. lia. Qed.

Lemma lastn_app_lastn {A : Type} (n : nat) (l vs : list A) :
  lastn n (lastn n l ++ vs) = lastn n (l ++ vs).
Proof.
  destruct (Nat.le_gt_cases (length l) n) as [H|H].
  - now rewrite (lastn_all n l H).
  - unfold lastn at 1 3. rewrite !length_app, lastn_length.
    replace (Nat.min n (length l)) with n by lia.
    replace (length l + length vs - n)%nat
      with ((n + length vs - n) + (length l - n))%nat by lia.
    rewrite <- skipn_skipn. f_equal.
    unfold lastn. rewrite skipn_app.
    replace (length l - n - length l)%nat with 0%nat by lia.
    reflexivity.
Qed.

Lemma deque_append_lastn (d : deque) (v : R) :
  (1 <= maxlen d)%nat -> (length (items d) <= maxlen d)%nat ->
  items (deque_append d v) = lastn (maxlen d) (items d ++ [v]).
Proof.
  intros Hm Hl. unfold deque_append, lastn. rewrite length_app. cbn [length].
  destruct (Nat.eqb_spec (length (items d)) (maxlen d)) as [E|E];
    cbn [items].
  - replace (length (items d) + 1 - maxlen d)%nat with 1%nat by lia.
    destruct (items d); [cbn in E; lia | reflexivity].
  - replace (length (items d) + 1 - maxlen d)%nat with 0%nat by lia.
    reflexivity.
Qed.

Lemma deque_fold_lastn (vs : list R) :
  forall d,
    (1 <= maxlen d)%nat -> (length (items d) <= maxlen d)%nat ->
    maxlen (fold_left deque_append vs d) = maxlen d
    /\ items (fold_left deque_append vs d)
       = lastn (maxlen d) (items d ++ vs).
Proof.
  induction vs as [|v vs IH]; intros d Hm Hl.
  - cbn. rewrite app_nil_r, lastn_all by exact Hl. auto.
  - cbn [fold_left].
    destruct (deque_append_length d v Hl Hm) as [Hm1 Hl1].
    destruct (IH (deque_append d v)) as [Hm2 Hi2]; [lia | lia |].
    split; [lia|].
    rewrite Hi2, Hm1, (deque_append_lastn d v Hm Hl), lastn_app_lastn.
    now rewrite <- app_assoc.
Qed.

Lemma scroll_gate_same (s s' : MouseGestureController) (j : Joints) :
  same_config s s' -> scroll_gate s' j = scroll_gate s j.
Proof.
  unfold same_config, scroll_gate.
  intros (_ & _ & _ & _ & -> & _). reflexivity.
Qed.

Lemma run_scroll_history (hands : list HandData) (js : list Joints) :
  Forall2 has_joints hands js ->
  forall self,
    region_ok self ->
    Forall (fun j => scroll_gate self j = true) js ->
    exists traces self',
      run hands self = Ok (traces, self')
      /\ scroll_history self'
         = fold_left deque_append (map avg_y js) (scroll_history self).
Proof.
  induction 1 as [|hand j hands js Hj _ IH]; intros self Hr Hg.
  - exists [], self. split; reflexivity.
  - inversion Hg as [|? ? G Hg']; subst.
    destruct (update_total self hand j Hj Hr) as (s1 & calls & Hu).
    destruct (update_inv _ _ _ _ _ Hj Hu)
      as (tx & ty & _ & _ & Hc & _ & Hh & _).
    destruct (IH s1 (region_ok_same_config _ _ Hc Hr))
      as (traces & s2 & Hrun & Hh2).
    + revert Hg'. apply Forall_impl. intros j'.
      now rewrite (scroll_gate_same self s1 j' Hc).
    + exists (calls :: traces), s2.
      split; [exact (run_cons_ok _ _ _ _ _ _ _ Hu Hrun)|].
      rewrite Hh2, Hh. unfold update_history. rewrite G. reflexivity.
Qed.

End Window.

(** X18. The scroll history is a sliding window.  Over a run of frames
    on each of which the scroll condition holds, started with a history of
    capacity 5, the history afterwards holds, oldest first, the last five
    items of the old history followed by the fingertip averages of the
    frames; after five such frames or more, the last five averages. *)
Theorem scroll_history_window :
  forall self hands js,
    Forall2 has_joints hands js -> region_ok self -> history_ok self ->
    Forall (fun j => scroll_gate self j = true) js ->
    exists traces self',
      run hands self = Ok (traces, self')
      /\ items (scroll_history self')
         = lastn 5 (items (scroll_history self) ++ map avg_y js)
      /\ ((5 <= length js)%nat ->
          items (scroll_history self') = lastn 5 (map avg_y js)).
Proof.
  intros self hands js Hf Hr [Hm Hl] Hg.
  destruct (run_scroll_history hands js Hf self Hr Hg)
    as (traces & self' & Hrun & Hh).
  exists traces, self'. split; [exact Hrun|].
  unfold len in Hl.
  destruct (deque_fold_lastn (map avg_y js) (scroll_history self))
    as [_ Hi]; [lia | lia |].
  rewrite Hm in Hi. rewrite Hh, Hi. split; [reflexivity|].
  intros H5. unfold lastn. rewrite length_app, length_map.
  rewrite skipn_app.
  replace (length (items (scroll_history self)) + length js - 5
           - length (items (scroll_history self)))%nat
    with (length js - 5)%nat by lia.
  rewrite skipn_all2 by lia. reflexivity.
Qed.

Lemma scroll_history_window_witness :
  exists traces self',
    run (map frame_of [raised_joints 0.3; raised_joints 0.2])
        (controller_with 120 [0.1; 0.2; 0.3; 0.4] false false)
    = Ok (traces, self')
    /\ items (scroll_history self')
       = [0.2; 0.3; 0.4; avg_y (raised_joints 0.3);
          avg_y (raised_joints 0.2)].
Proof.
  destruct (scroll_history_window
              (controller_with 120 [0.1; 0.2; 0.3; 0.4] false false)
              (map frame_of [raised_joints 0.3; raised_joints 0.2])
              [raised_joints 0.3; raised_joints 0.2])
    as (traces & self' & Hrun & Hi & _).
  - repeat constructor.
  - split; cbn; lia.
  - split; cbn; lia.
  - repeat constructor; apply scroll_gate_raised; cbn; lra.
  - exists traces, self'. split; [exact Hrun | exact Hi].
Defined.

(** ** Cursor mapping and the interaction zone *)

(** X19. An inverted active region pins the cursor.  When twice the
    margin is above both camera sizes, no exception is raised and the
    mapped target is (0, 0) for every finger position; each [update] on a
    frame that has its joints then multiplies both cursor coordinates by
    [1 - smoothing_factor], pulling the pointer to the top-left corner
    whatever the hand does. *)
Theorem inverted_region_pins_cursor :
  forall self,
    (camera_width self < 2 * margin self)%Z ->
    (camera_height self < 2 * margin self)%Z ->
    (forall fx fy, cursor_target self fx fy = Ok (0, 0))
    /\ (forall hand j,
          has_joints hand j ->
          exists self' calls,
            update hand self = Ok (tt, self', calls)
            /\ SmoothPoint.x (prev_cursor self')
               = (1 - smoothing_factor self) * SmoothPoint.x (prev_cursor self)
            /\ SmoothPoint.y (prev_cursor self')
               = (1 - smoothing_factor self)
                 * SmoothPoint.y (prev_cursor self)).
Proof.
  intros self Hw Hh.
  assert (Ht : forall fx fy, cursor_target self fx fy = Ok (0, 0)).
  { intros fx fy. unfold cursor_target.
    rewrite !clamp_inverted_bounds by (apply IZR_lt; lia).
    rewrite !truediv_ok by (apply not_0_IZR; lia).
    f_equal. f_equal; unfold Rdiv; ring. }
  split; [exact Ht|].
  intros hand j Hj.
  destruct (update_step self hand j 0 0 Hj (Ht _ _))
    as (self' & Hu & _ & Hp & _).
  exists self', (update_calls self j 0 0). split; [exact Hu|].
  rewrite Hp. unfold update_cursor, lerp. cbn. split; ring.
Qed.

Lemma inverted_region_pins_cursor_witness :
  cursor_target (controller_with 700 [] false false) 0.5 0.5 = Ok (0, 0).
Proof.
  apply (proj1 (inverted_region_pins_cursor
                  (controller_with 700 [] false false)
                  ltac:(cbn; lia) ltac:(cbn; lia))).
Defined.

Section Mapping.

Lemma cursor_target_formula (self : MouseGestureController) (fx fy : R) :
  region_ok self ->
  cursor_target self fx fy
  = Ok ((clamp (fx * IZR (camera_width self)) (IZR (margin self))
           (IZR (camera_width self - margin self)) - IZR (margin self))
        / IZR (camera_width self - margin self - margin self)
        * IZR (screen_width self),
        (clamp (fy * IZR (camera_height self)) (IZR (margin self))
           (IZR (camera_height self - margin self)) - IZR (margin self))
        / IZR (camera_height self - margin self - margin self)
        * IZR (screen_height self)).
Proof.
  intros [Hx Hy]. unfold cursor_target.
  rewrite !truediv_ok by (apply not_0_IZR; lia). reflexivity.
Qed.

(** One axis of the mapping, for an active region of positive size. *)
Lemma axis_piecewise (f c m s : R) :
  2 * m < c ->
  let t := (clamp (f * c) m (c - m) - m) / (c - m - m) * s in
  (f * c <= m -> t = 0)
  /\ (c - m <= f * c -> t = s)
  /\ (m <= f * c <= c - m -> t = (f * c - m) / (c - 2 * m) * s).
Proof.
  intros H t. subst t.
  destruct (clamp_range (f * c) (f * c) m (c - m)) as (_ & Hid & Hlo & Hhi & _);
    [lra|].
  repeat split.
  - intros Hle. rewrite (Hlo Hle). unfold Rdiv. ring.
  - intros Hge. rewrite (Hhi Hge). field. lra.
  - intros Hin. rewrite (proj2 Hid Hin).
    replace (c - m - m) with (c - 2 * m) by ring. reflexivity.
Qed.

Lemma axis_monotone (f f' c m s : R) :
  2 * m < c -> 0 <= c -> 0 <= s -> f <= f' ->
  (clamp (f * c) m (c - m) - m) / (c - m - m) * s
  <= (clamp (f' * c) m (c - m) - m) / (c - m - m) * s.
Proof.
  intros H Hc Hs Hf.
  destruct (clamp_range (f * c) (f' * c) m (c - m)) as (_ & _ & _ & _ & Hmono);
    [lra|].
  specialize (Hmono ltac:(nra)).
  apply Rmult_le_compat_r; [exact Hs|].
  apply Rmult_le_compat_r; [left; apply Rinv_0_lt_compat; lra | lra].
Qed.

End Mapping.

(** X20. The shape of the mapping.  With twice the margin below both
    camera sizes, on each axis the target is 0 for a finger at or before
    the near edge of the active region, the screen size for a finger at
    or past the far edge, and in between the linear rescale
    [(finger * camera - margin) / (camera - 2 * margin) * screen]; with
    camera and screen sizes not negative, the target never decreases when
    the finger coordinate increases. *)
Theorem cursor_target_piecewise :
  forall self fx fy,
    (2 * margin self < camera_width self)%Z ->
    (2 * margin self < camera_height self)%Z ->
    exists tx ty,
      cursor_target self fx fy = Ok (tx, ty)
      /\ (fx * IZR (camera_width self) <= IZR (margin self) -> tx = 0)
      /\ (IZR (camera_width self) - IZR (margin self)
          <= fx * IZR (camera_width self) ->
          tx = IZR (screen_width self))
      /\ (IZR (margin self) <= fx * IZR (camera_width self)
          <= IZR (camera_width self) - IZR (margin self) ->
          tx = (fx * IZR (camera_width self) - IZR (margin self))
               / (IZR (camera_width self) - 2 * IZR (margin self))
               * IZR (screen_width self))
      /\ (fy * IZR (camera_height self) <= IZR (margin self) -> ty = 0)
      /\ (IZR (camera_height self) - IZR (margin self)
          <= fy * IZR (camera_height self) ->
          ty = IZR (screen_height self))
      /\ (IZR (margin self) <= fy * IZR (camera_height self)
          <= IZR (camera_height self) - IZR (margin self) ->
          ty = (fy * IZR (camera_height self) - IZR (margin self))
               / (IZR (camera_height self) - 2 * IZR (margin self))
               * IZR (screen_height self))
      /\ ((0 <= camera_width self)%Z -> (0 <= camera_height self)%Z ->
          screen_ok self ->
          forall fx' fy' tx' ty',
            fx <= fx' -> fy <= fy' ->
            cursor_target self fx' fy' = Ok (tx', ty') ->
            tx <= tx' /\ ty <= ty').
Proof.
  intros self fx fy Hw Hh.
  assert (Hr : region_ok self) by (split; lia).
  eexists. eexists. split; [apply (cursor_target_formula self fx fy Hr)|].
  rewrite !minus_IZR.
  assert (Hw' : 2 * IZR (margin self) < IZR (camera_width self))
    by (rewrite <- mult_IZR; apply IZR_lt; lia).
  assert (Hh' : 2 * IZR (margin self) < IZR (camera_height self))
    by (rewrite <- mult_IZR; apply IZR_lt; lia).
  destruct (axis_piecewise fx (IZR (camera_width self)) (IZR (margin self))
              (IZR (screen_width self)) Hw') as (X1 & X2 & X3).
  destruct (axis_piecewise fy (IZR (camera_height self)) (IZR (margin self))
              (IZR (screen_height self)) Hh') as (Y1 & Y2 & Y3).
  repeat (split; [assumption|]).
  intros Hcw Hch [Hsw Hsh] fx' fy' tx' ty' Hfx Hfy Ht'.
  rewrite (cursor_target_formula self fx' fy' Hr), !minus_IZR in Ht'.
  injection Ht' as <- <-.
  apply IZR_le in Hcw, Hch, Hsw, Hsh.
  split; apply axis_monotone; assumption.
Qed.

Lemma cursor_target_piecewise_witness :
  exists tx ty,
    cursor_target (controller_with 120 [] false false) 0.5 0.05
    = Ok (tx, ty)
    /\ tx = (0.5 * 1280 - 120) / (1280 - 2 * 120) * 1920
    /\ ty = 0.
Proof.
  destruct (cursor_target_piecewise (controller_with 120 [] false false)
              0.5 0.05)
    as (tx & ty & Ht & _ & _ & Hx & Hy & _).
  - cbn. lia.
  - cbn. lia.
  - exists tx, ty. split; [exact Ht|]. split.
    + apply Hx. cbn. lra.
    + apply Hy. cbn. lra.
Defined.

(** X21. The rectangle [draw_interaction_zone] draws is the active region
    of the mapping.  It is one rectangle, from (margin, margin) to
    (camera_width - margin, camera_height - margin); with camera sizes
    above zero and twice the margin below both, a finger on its first
    corner is mapped to the screen corner (0, 0) and a finger on its
    second corner to (screen_width, screen_height). *)
Theorem interaction_zone_is_active_region :
  forall self,
    exists x1 y1 x2 y2,
      draw_interaction_zone self
      = [rectangle (x1, y1) (x2, y2) (100, 255, 100)%Z 2]
      /\ (x1, y1) = (margin self, margin self)
      /\ (x2, y2) = ((camera_width self - margin self)%Z,
                     (camera_height self - margin self)%Z)
      /\ ((0 < camera_width self)%Z -> (0 < camera_height self)%Z ->
          (2 * margin self < camera_width self)%Z ->
          (2 * margin self < camera_height self)%Z ->
          cursor_target self (IZR x1 / IZR (camera_width self))
                             (IZR y1 / IZR (camera_height self))
          = Ok (0, 0)
          /\ cursor_target self (IZR x2 / IZR (camera_width self))
                                (IZR y2 / IZR (camera_height self))
             = Ok (IZR (screen_width self), IZR (screen_height self))).
Proof.
  intros self.
  exists (margin self), (margin self), (camera_width self - margin self)%Z,
    (camera_height self - margin self)%Z.
  repeat (split; [reflexivity|]).
  intros Hcw Hch Hw Hh.
  apply IZR_lt in Hcw, Hch.
  assert (Hw' : 2 * IZR (margin self) < IZR (camera_width self))
    by (rewrite <- mult_IZR; apply IZR_lt; lia).
  assert (Hh' : 2 * IZR (margin self) < IZR (camera_height self))
    by (rewrite <- mult_IZR; apply IZR_lt; lia).
  assert (Hr : region_ok self) by (split; lia).
  split; rewrite (cursor_target_formula self _ _ Hr), !minus_IZR.
  - destruct (axis_piecewise (IZR (margin self) / IZR (camera_width self))
                (IZR (camera_width self)) (IZR (margin self))
                (IZR (screen_width self)) Hw') as (X1 & _).
    destruct (axis_piecewise (IZR (margin self) / IZR (camera_height self))
                (IZR (camera_height self)) (IZR (margin self))
                (IZR (screen_height self)) Hh') as (Y1 & _).
    rewrite X1, Y1; [reflexivity | |];
      (right; field; lra).
  - destruct (axis_piecewise
                ((IZR (camera_width self) - IZR (margin self))
                 / IZR (camera_width self))
                (IZR (camera_width self)) (IZR (margin self))
                (IZR (screen_width self)) Hw') as (_ & X2 & _).
    destruct (axis_piecewise
                ((IZR (camera_height self) - IZR (margin self))
                 / IZR (camera_height self))
                (IZR (camera_height self)) (IZR (margin self))
                (IZR (screen_height self)) Hh') as (_ & Y2 & _).
    rewrite X2, Y2; [reflexivity | |];
      (right; field; lra).
Qed.

Lemma interaction_zone_is_active_region_witness :
  cursor_target (controller_with 120 [] false false)
    (IZR 120 / IZR 1280) (IZR 120 / IZR 720) = Ok (0, 0)
  /\ cursor_target (controller_with 120 [] false false)
       (IZR (1280 - 120) / IZR 1280) (IZR (720 - 120) / IZR 720)
     = Ok (1920, 1080).
Proof.
  destruct (interaction_zone_is_active_region
              (controller_with 120 [] false false))
    as (x1 & y1 & x2 & y2 & _ & [= -> ->] & [= -> ->] & H).
  apply H; cbn; lia.
Defined.

(** ** Drawing and detection (src/hand_tracker.py, lines 80-106) *)

Section Drawing.

Lemma int_in_pixels (r : R) (n : Z) :
  0 <= r <= IZR n -> (0 <= int r <= n)%Z.
Proof.
  intros [H0 Hn]. destruct (int_nonneg r H0) as (Hz & Hlo & _).
  split; [exact Hz|]. apply le_IZR. lra.
Qed.

Lemma pixel_in_frame (p : LandmarkPoint.t) (width height : Z) :
  (0 <= width)%Z -> (0 <= height)%Z -> normalized p ->
  point_in_frame (height, width)
    (int (LandmarkPoint.x p * IZR width),
     int (LandmarkPoint.y p * IZR height)).
Proof.
  intros Hw Hh [Hx Hy]. apply IZR_le in Hw, Hh.
  split; cbn [fst snd]; apply int_in_pixels; nra.
Qed.

Lemma draw_connections_ok (hand_landmarks : list LandmarkPoint.t)
    (width height : Z) (conns : list HandTracker.Connection) :
  Forall (in_range (length hand_landmarks)) conns ->
  exists lines,
    HandTracker.draw_connections conns hand_landmarks width height = Ok lines
    /\ length lines = length conns
    /\ forallb is_line lines = true
    /\ ((0 <= width)%Z -> (0 <= height)%Z ->
        Forall normalized hand_landmarks ->
        Forall (cv_call_in_frame (height, width)) lines).
Proof.
  induction 1 as [|c conns [Hs He] _ (lines & Hd & Hl & Hk & Hin)].
  - exists []. repeat split; auto.
  - cbn [HandTracker.draw_connections]. unfold getitem.
    destruct (nth_error hand_landmarks (HandTracker.start c)) as [p|] eqn:Ep;
      [|apply nth_error_None in Ep; lia].
    destruct (nth_error hand_landmarks (HandTracker.end_ c)) as [q|] eqn:Eq;
      [|apply nth_error_None in Eq; lia].
    rewrite Hd. eexists. split; [reflexivity|].
    split; [cbn; lia|]. split; [exact Hk|].
    intros Hw Hh Hn. constructor; [|auto].
    apply nth_error_In in Ep, Eq.
    rewrite Forall_forall in Hn.
    split; apply pixel_in_frame; auto.
Qed.

Lemma draw_connections_raises (hand_landmarks : list LandmarkPoint.t)
    (width height : Z) (conns : list HandTracker.Connection) :
  ~ Forall (in_range (length hand_landmarks)) conns ->
  HandTracker.draw_connections conns hand_landmarks width height
  = Raise IndexError.
Proof.
  induction conns as [|c conns IH]; intros Hn.
  - destruct Hn. constructor.
  - cbn [HandTracker.draw_connections]. unfold getitem.
    destruct (nth_error hand_landmarks (HandTracker.start c)) as [p|] eqn:Ep;
      [|reflexivity].
    destruct (nth_error hand_landmarks (HandTracker.end_ c)) as [q|] eqn:Eq;
      [|reflexivity].
    rewrite IH; [reflexivity|].
    intros Hf. apply Hn. constructor; [|exact Hf]. split.
    + apply nth_error_Some. congruence.
    + apply nth_error_Some. congruence.
Qed.

Lemma in_range_all_dec (n : nat) (conns : list HandTracker.Connection) :
  Forall (in_range n) conns \/ ~ Forall (in_range n) conns.
Proof.
  induction conns as [|c conns [IH|IH]].
  - left. constructor.
  - destruct (lt_dec (HandTracker.start c) n) as [Hs|Hs];
      destruct (lt_dec (HandTracker.end_ c) n) as [He|He];
      try (right; intros Hf; inversion Hf as [|? ? [? ?] ?]; lia).
    left. constructor; [split|]; assumption.
  - right. intros Hf. inversion Hf. contradiction.
Qed.

Lemma draw_points_spec (hand_landmarks : list LandmarkPoint.t)
    (width height : Z) :
  length (HandTracker.draw_points hand_landmarks width height)
  = length hand_landmarks
  /\ forallb is_circle (HandTracker.draw_points hand_landmarks width height)
     = true
  /\ ((0 <= width)%Z -> (0 <= height)%Z ->
      Forall normalized hand_landmarks ->
      Forall (cv_call_in_frame (height, width))
             (HandTracker.draw_points hand_landmarks width height)).
Proof.
  unfold HandTracker.draw_points. split; [apply length_map|]. split.
  - induction hand_landmarks; [reflexivity | exact IHhand_landmarks].
  - intros Hw Hh Hn. apply Forall_map. revert Hn. apply Forall_impl.
    intros p Hp. apply pixel_in_frame; assumption.
Qed.

Lemma draw_landmarks_raises_inv (connections : list HandTracker.Connection)
    (shape : Z * Z) (hand_landmarks : list LandmarkPoint.t) (e : exn) :
  HandTracker._draw_landmarks connections shape hand_landmarks = Raise e ->
  e = IndexError /\ ~ Forall (in_range (length hand_landmarks)) connections.
Proof.
  destruct shape as [height width]. unfold HandTracker._draw_landmarks.
  destruct (in_range_all_dec (length hand_landmarks) connections) as [Hf|Hn].
  - destruct (draw_connections_ok hand_landmarks width height connections Hf)
      as (lines & -> & _). discriminate.
  - rewrite (draw_connections_raises _ _ _ _ Hn). intros [= <-]. auto.
Qed.

Lemma copy_landmarks (l : list LandmarkPoint.t) :
  map (fun lm => LandmarkPoint.mk (LandmarkPoint.x lm) (LandmarkPoint.y lm)
                   (LandmarkPoint.z lm)) l = l.
Proof.
  induction l as [|[x y z] l IH]; [reflexivity|]. cbn. now rewrite IH.
Qed.

End Drawing.

(** X22. [_draw_landmarks] and the connection table.  If both ends of
    every connection are indices of the hand's landmarks, the call returns
    one [line] per connection followed by one [circle] per landmark.  If
    some connection has an end outside the landmarks, a hand with no
    landmark at all included, the call raises [IndexError]. *)
Theorem draw_landmarks_shape :
  forall connections shape hand_landmarks,
    (Forall (in_range (length hand_landmarks)) connections ->
     exists lines circles,
       HandTracker._draw_landmarks connections shape hand_landmarks
       = Ok (lines ++ circles)
       /\ length lines = length connections
       /\ forallb is_line lines = true
       /\ length circles = length hand_landmarks
       /\ forallb is_circle circles = true)
    /\ (~ Forall (in_range (length hand_landmarks)) connections ->
        HandTracker._draw_landmarks connections shape hand_landmarks
        = Raise IndexError).
Proof.
  intros connections [height width] hand_landmarks. split.
  - intros Hf.
    destruct (draw_connections_ok hand_landmarks width height connections Hf)
      as (lines & Hd & Hl & Hk & _).
    destruct (draw_points_spec hand_landmarks width height) as (Pl & Pk & _).
    exists lines, (HandTracker.draw_points hand_landmarks width height).
    unfold HandTracker._draw_landmarks. rewrite Hd. auto.
  - intros Hn. unfold HandTracker._draw_landmarks.
    now rewrite draw_connections_raises.
Qed.

Lemma draw_landmarks_shape_witness :
  (exists lines circles,
     HandTracker._draw_landmarks
       [HandTracker.mkConnection 0 1; HandTracker.mkConnection 1 2]
       (720, 1280)%Z (landmarks (short_frame (pinch_frame 0.05)))
     = Ok (lines ++ circles)
     /\ length lines = 2%nat /\ length circles = 13%nat)
  /\ HandTracker._draw_landmarks [HandTracker.mkConnection 0 1]
       (720, 1280)%Z [] = Raise IndexError.
Proof.
  split.
  - destruct (proj1 (draw_landmarks_shape
                       [HandTracker.mkConnection 0 1;
                        HandTracker.mkConnection 1 2]
                       (720, 1280)%Z
                       (landmarks (short_frame (pinch_frame 0.05)))))
      as (lines & circles & Hd & Hl & _ & Hc & _).
    + repeat constructor; cbn; lia.
    + exists lines, circles. auto.
  - apply (proj2 (draw_landmarks_shape [HandTracker.mkConnection 0 1]
                    (720, 1280)%Z [])).
    intros Hf. inversion Hf as [|? ? [Hs _] _]. cbn in Hs. lia.
Defined.

(** X23. What is drawn stays inside the frame.  For a frame whose sizes
    are not negative and a hand whose landmarks all have both coordinates
    in [[0, 1]], with connections in range, every end of every line and
    every centre of every circle [_draw_landmarks] draws is a pixel
    between (0, 0) and (width, height). *)
Theorem drawn_landmarks_in_frame :
  forall connections height width hand_landmarks,
    (0 <= width)%Z -> (0 <= height)%Z ->
    Forall normalized hand_landmarks ->
    Forall (in_range (length hand_landmarks)) connections ->
    exists calls,
      HandTracker._draw_landmarks connections (height, width) hand_landmarks
      = Ok calls
      /\ Forall (cv_call_in_frame (height, width)) calls.
Proof.
  intros connections height width hand_landmarks Hw Hh Hn Hf.
  destruct (draw_connections_ok hand_landmarks width height connections Hf)
    as (lines & Hd & _ & _ & Hin).
  destruct (draw_points_spec hand_landmarks width height) as (_ & _ & Pin).
  exists (lines ++ HandTracker.draw_points hand_landmarks width height).
  unfold HandTracker._draw_landmarks. rewrite Hd. split; [reflexivity|].
  apply Forall_app. auto.
Qed.

Lemma drawn_landmarks_in_frame_witness :
  exists calls,
    HandTracker._draw_landmarks [HandTracker.mkConnection 0 4]
      (720, 1280)%Z (landmarks (pinch_frame 0.05)) = Ok calls
    /\ Forall (cv_call_in_frame (720, 1280)%Z) calls.
Proof.
  apply drawn_landmarks_in_frame.
  - lia.
  - lia.
  - unfold pinch_frame, frame_of, pinch_joints, origin. cbn [landmarks].
    repeat (apply Forall_cons; [unfold normalized; cbn; lra|]).
    apply Forall_nil.
  - apply Forall_cons; [split; cbn; lia | apply Forall_nil].
Defined.

(** X24. [process] and the hands detected.  With no hand detected it
    draws nothing and returns no hand.  With hands detected it looks at
    the first one only: the outcome is the same whatever the other hands
    are; when it returns, what it draws is what [_draw_landmarks] draws
    for the first hand, and the hand it returns holds that hand's
    landmarks, as many, in the same order, with the same coordinates; when
    it raises, it raises [IndexError] for a connection out of range. *)
Theorem process_first_hand :
  forall connections shape,
    HandTracker.process connections shape [] = Ok ([], None)
    /\ (forall hand_landmarks others,
          HandTracker.process connections shape (hand_landmarks :: others)
          = HandTracker.process connections shape [hand_landmarks])
    /\ (forall hand_landmarks others calls hand_result,
          HandTracker.process connections shape (hand_landmarks :: others)
          = Ok (calls, hand_result) ->
          hand_result = Some (mkHandData hand_landmarks)
          /\ HandTracker._draw_landmarks connections shape hand_landmarks
             = Ok calls)
    /\ (forall hand_landmarks others e,
          HandTracker.process connections shape (hand_landmarks :: others)
          = Raise e ->
          e = IndexError
          /\ ~ Forall (in_range (length hand_landmarks)) connections).
Proof.
  intros connections shape. split; [reflexivity|]. split; [reflexivity|].
  split.
  - intros h others calls hand_result. unfold HandTracker.process.
    destruct (HandTracker._draw_landmarks connections shape h) as [c|e];
      [|discriminate].
    rewrite copy_landmarks. intros [= <- <-]. auto.
  - intros h others e. unfold HandTracker.process.
    destruct (HandTracker._draw_landmarks connections shape h) as [c|e'] eqn:E;
      [discriminate|].
    intros [= <-]. exact (draw_landmarks_raises_inv _ _ _ _ E).
Qed.

Lemma process_first_hand_witness :
  HandTracker.process [HandTracker.mkConnection 0 30] (720, 1280)%Z
    [landmarks (pinch_frame 0.05); []] = Raise IndexError.
Proof.
  destruct (HandTracker.process [HandTracker.mkConnection 0 30]
              (720, 1280)%Z [landmarks (pinch_frame 0.05); []])
    as [[calls hand]|e] eqn:E.
  - destruct (proj1 (proj2 (proj2 (process_first_hand
                [HandTracker.mkConnection 0 30] (720, 1280)%Z)))
                _ _ _ _ E) as [_ Hd].
    exfalso. cbn in Hd. discriminate.
  - destruct (proj2 (proj2 (proj2 (process_first_hand
                [HandTracker.mkConnection 0 30] (720, 1280)%Z)))
                _ _ _ E) as [-> _].
    reflexivity.
Defined.

(** ** The capture loop (src/main.py, lines 98-105) *)

Section Loop.

Variables (connections : list HandTracker.Connection) (shape : Z * Z).

Lemma process_ok (hand_landmarks : list LandmarkPoint.t)
    (others : list (list LandmarkPoint.t)) :
  Forall (in_range (length hand_landmarks)) connections ->
  exists drawn,
    HandTracker.process connections shape (hand_landmarks :: others)
    = Ok (drawn, Some (mkHandData hand_landmarks)).
Proof.
  intros Hf. destruct shape as [height width].
  destruct (draw_connections_ok hand_landmarks width height connections Hf)
    as (lines & Hd & _).
  unfold HandTracker.process, HandTracker._draw_landmarks.
  rewrite Hd, copy_landmarks. eauto.
Qed.

Lemma update_calls_have_moveTo self j tx ty :
  existsb is_moveTo (update_calls self j tx ty) = true.
Proof. reflexivity. Qed.

Lemma loop_as_run (detections : list (list (list LandmarkPoint.t))) :
  Forall (detection_ok connections) detections ->
  forall self,
    region_ok self ->
    exists traces self',
      loop connections shape detections self = Ok (traces, self')
      /\ length traces = length detections
      /\ run (first_hands detections) self
         = Ok (filter (existsb is_moveTo) traces, self').
Proof.
  induction 1 as [|detected rest Hd _ IH]; intros self Hr.
  - exists [], self. repeat split.
  - destruct detected as [|hand_landmarks others].
    + destruct (IH self Hr) as (traces & self' & Hl & Hlen & Hrun).
      exists ([] :: traces), self'.
      cbn [loop loop_body HandTracker.process]. rewrite Hl.
      split; [reflexivity|]. split; [cbn; lia|]. exact Hrun.
    + destruct Hd as [H13 Hin].
      destruct (process_ok hand_landmarks others Hin) as (drawn & Hp).
      destruct (length_has_joints (mkHandData hand_landmarks) H13)
        as [j Hj].
      destruct (update_total self _ j Hj Hr) as (s1 & calls & Hu).
      destruct (update_inv _ _ _ _ _ Hj Hu) as (tx & ty & _ & Hc & Hsame & _).
      destruct (IH s1 (region_ok_same_config _ _ Hsame Hr))
        as (traces & self' & Hl & Hlen & Hrun).
      exists (calls :: traces), self'.
      cbn [loop]. unfold loop_body. rewrite Hp, Hu, Hl.
      split; [reflexivity|]. split; [cbn; lia|].
      cbn [first_hands flat_map app filter].
      rewrite Hc at 1. rewrite update_calls_have_moveTo.
      exact (run_cons_ok _ _ _ _ _ _ _ Hu Hrun).
Qed.

End Loop.

(** X25. Frames with no hand are skipped whole.  Over a sequence of
    detection results, each with no hand or with a first hand of at least
    13 landmarks that holds both ends of every connection, and with an
    active region that does not divide by zero, the loop returns one trace
    per frame; a frame with no hand makes no [pyautogui] call and leaves
    the controller as it was, latches and scroll history included; so the
    controller at the end, and the traces that are not empty, are those of
    the updates on the hands present, taken in a row. *)
Theorem loop_skips_absent_hands :
  forall connections shape detections self,
    Forall (detection_ok connections) detections ->
    region_ok self ->
    loop_body connections shape [] self
    = Ok (draw_interaction_zone self, [], self)
    /\ exists traces self',
         loop connections shape detections self = Ok (traces, self')
         /\ length traces = length detections
         /\ run (first_hands detections) self
            = Ok (filter (existsb is_moveTo) traces, self').
Proof.
  intros connections shape detections self Hd Hr.
  split; [reflexivity|].
  exact (loop_as_run connections shape detections Hd self Hr).
Qed.

Lemma loop_skips_absent_hands_witness :
  exists traces self',
    loop [HandTracker.mkConnection 0 4] (720, 1280)%Z
      [[landmarks (pinch_frame 0.02)]; []; [];
       [landmarks (pinch_frame 0.02)]]
      (controller_with 120 [] false false) = Ok (traces, self')
    /\ length traces = 4%nat
    /\ run [pinch_frame 0.02; pinch_frame 0.02]
           (controller_with 120 [] false false)
       = Ok (filter (existsb is_moveTo) traces, self').
Proof.
  apply (loop_skips_absent_hands [HandTracker.mkConnection 0 4]
           (720, 1280)%Z
           [[landmarks (pinch_frame 0.02)]; []; [];
            [landmarks (pinch_frame 0.02)]]
           (controller_with 120 [] false false)).
  - repeat (apply Forall_cons;
            [first [exact I
                   | split; [cbn; lia
                            | apply Forall_cons;
                              [split; cbn; lia | apply Forall_nil]]]|]).
    apply Forall_nil.
  - split; cbn; lia.
Defined.

(** ** Frames that are not what the annotation says *)

Section Dynamic.

Lemma update_tail (self : MouseGestureController) (hand : HandData)
    (j : Joints) :
  has_joints hand j ->
  update hand self
  = (_move_cursor (LandmarkPoint.x (index_tip j))
                  (LandmarkPoint.y (index_tip j)) ;;
     gestures (index_extended j) (middle_extended j)
       (LandmarkPoint.y (index_tip j)) (LandmarkPoint.y (middle_tip j))
       (left_pinch_dist j) (right_pinch_dist j)) self.
Proof.
  intros (H4 & H8 & H6 & H12 & H10).
  unfold update.
  unfold bind at 1, lift at 1, getitem at 1. rewrite H4.
  unfold bind at 1, lift at 1, getitem at 1. rewrite H8.
  unfold bind at 1, lift at 1, getitem at 1. rewrite H6.
  unfold bind at 1, lift at 1, getitem at 1. rewrite H12.
  unfold bind at 1, lift at 1, getitem at 1. rewrite H10.
  fold (index_extended j) (middle_extended j).
  fold (left_pinch_dist j) (right_pinch_dist j).
  fold (gestures (index_extended j) (middle_extended j)
          (LandmarkPoint.y (index_tip j)) (LandmarkPoint.y (middle_tip j))
          (left_pinch_dist j) (right_pinch_dist j)).
  destruct ((_ ;; _) self) as [[[u s] t]|e]; reflexivity.
Qed.

Lemma dyn_joints_slots (hand : HandData) (j : Joints) :
  has_joints hand j -> dyn_joints (slots hand) j.
Proof.
  unfold has_joints, dyn_joints, slots.
  intros (H4 & H8 & H6 & H12 & H10).
  rewrite !nth_error_map, H4, H8, H6, H12, H10. repeat split.
Qed.

Lemma dyn_short (self : MouseGestureController)
    (lm : list (option LandmarkPoint.t)) :
  (length lm < 13)%nat -> update_dynamic lm self = Raised IndexError self [].
Proof.
  intros H. unfold update_dynamic.
  assert (H12 : nth_error lm 12 = None) by (apply nth_error_None; lia).
  cbv [bindD liftD getitem]. rewrite H12.
  destruct (nth_error lm 4); [|reflexivity].
  destruct (nth_error lm 8); [|reflexivity].
  destruct (nth_error lm 6); reflexivity.
Qed.

Lemma dyn_slots_exist (lm : list (option LandmarkPoint.t)) :
  (13 <= length lm)%nat ->
  exists t i ip m mp,
    nth_error lm 4 = Some t /\ nth_error lm 8 = Some i
    /\ nth_error lm 6 = Some ip /\ nth_error lm 12 = Some m
    /\ nth_error lm 10 = Some mp.
Proof.
  intros H.
  assert (G : forall k, (k < 13)%nat -> exists o, nth_error lm k = Some o).
  { intros k Hk. destruct (nth_error lm k) eqn:E; [eauto|].
    apply nth_error_None in E. lia. }
  destruct (G 4%nat) as [t Ht]; [lia|].
  destruct (G 8%nat) as [i Hi]; [lia|].
  destruct (G 6%nat) as [ip Hip]; [lia|].
  destruct (G 12%nat) as [m Hm]; [lia|].
  destruct (G 10%nat) as [mp Hmp]; [lia|].
  exists t, i, ip, m, mp. auto.
Qed.

(** [None] in the place of a finger joint: the exception comes at lines
    68-69, before anything is done. *)
Lemma dyn_null_finger (self : MouseGestureController)
    (lm : list (option LandmarkPoint.t)) :
  (13 <= length lm)%nat ->
  nth_error lm 8 = Some None \/ nth_error lm 6 = Some None
  \/ nth_error lm 12 = Some None \/ nth_error lm 10 = Some None ->
  update_dynamic lm self = Raised AttributeError self [].
Proof.
  intros Hl Hnull.
  destruct (dyn_slots_exist lm Hl)
    as (t & i & ip & m & mp & H4 & H8 & H6 & H12 & H10).
  unfold update_dynamic. cbv [bindD liftD getitem].
  rewrite H4, H8, H6, H12, H10 in *. cbv beta iota.
  destruct i as [I|]; [|reflexivity].
  destruct ip as [Ip|]; [|reflexivity].
  destruct m as [M|]; [|reflexivity].
  destruct mp as [Mp|]; [|reflexivity].
  exfalso. destruct Hnull as [H|[H|[H|H]]]; discriminate.
Qed.

(** [None] in the place of the thumb tip: the cursor is moved first. *)
Lemma dyn_null_thumb (self : MouseGestureController)
    (lm : list (option LandmarkPoint.t)) (I Ip M Mp : LandmarkPoint.t) :
  nth_error lm 4 = Some None ->
  nth_error lm 8 = Some (Some I) -> nth_error lm 6 = Some (Some Ip) ->
  nth_error lm 12 = Some (Some M) -> nth_error lm 10 = Some (Some Mp) ->
  (region_ok self ->
   exists self1 x y,
     update_dynamic lm self = Raised AttributeError self1 [moveTo x y]
     /\ prev_cursor self1 = SmoothPoint.mk x y
     /\ same_config self self1
     /\ scroll_history self1 = scroll_history self
     /\ left_click_latched self1 = left_click_latched self
     /\ right_click_latched self1 = right_click_latched self)
  /\ (~ region_ok self ->
      update_dynamic lm self = Raised ZeroDivisionError self []).
Proof.
  intros H4 H8 H6 H12 H10.
  unfold update_dynamic. cbv [bindD liftD getitem attr].
  rewrite H4, H8, H6, H12, H10. cbv beta iota.
  unfold _move_cursor. cbv [runM bind get lift modify call].
  split.
  - intros Hr.
    destruct (cursor_target_ok self (LandmarkPoint.x I) (LandmarkPoint.y I) Hr)
      as (tx & ty & Ht).
    rewrite Ht. cbv beta iota zeta.
    eexists. eexists. eexists. split; [reflexivity|].
    repeat split.
  - intros Hn.
    destruct (cursor_target self (LandmarkPoint.x I) (LandmarkPoint.y I))
      as [[tx ty]|e] eqn:Ht.
    + destruct Hn. exact (cursor_target_region _ _ _ _ _ Ht).
    + apply cursor_target_raises in Ht as [-> _]. reflexivity.
Qed.

Lemma gestures_total (ie me : bool) (iy my dl dr : R)
    (s : MouseGestureController) :
  exists s' t, gestures ie me iy my dl dr s = Ok (tt, s', t).
Proof.
  unfold gestures. cbv [bind get modify call ret].
  destruct (ie && me && ltb (left_pinch_threshold s) dl);
    cbv beta iota; [rewrite handle_scroll_spec; cbv beta iota|];
    cbn -[deque_append deque_clear scroll_calls];
    repeat (match goal with
            | |- context [if ?c then _ else _] => destruct c
            end; cbn -[deque_append deque_clear scroll_calls]);
    eauto.
Qed.

(** With the five joints in their places the outcome is the one of the
    typed model, whatever else the list holds. *)
Lemma dyn_typed (self : MouseGestureController)
    (lm : list (option LandmarkPoint.t)) (j : Joints) :
  dyn_joints lm j ->
  update_dynamic lm self = typed_outcome self (update (frame_of j) self).
Proof.
  intros (H4 & H8 & H6 & H12 & H10).
  rewrite (update_tail self (frame_of j) j (has_joints_frame_of j)).
  unfold update_dynamic. cbv [bindD liftD getitem attr].
  rewrite H4, H8, H6, H12, H10. cbv beta iota.
  fold (index_extended j) (middle_extended j).
  fold (left_pinch_dist j) (right_pinch_dist j).
  unfold runM, bind, typed_outcome.
  destruct (_move_cursor _ _ self) as [[[u s1] t1]|e]; [|reflexivity].
  destruct (gestures_total (index_extended j) (middle_extended j)
              (LandmarkPoint.y (index_tip j)) (LandmarkPoint.y (middle_tip j))
              (left_pinch_dist j) (right_pinch_dist j) s1) as (s2 & t2 & ->).
  reflexivity.
Qed.

Lemma dyn_of_typed (self : MouseGestureController) (hand : HandData) :
  update_dynamic (slots hand) self = typed_outcome self (update hand self).
Proof.
  destruct (Nat.lt_ge_cases (length (landmarks hand)) 13) as [Hs|Hs].
  - rewrite dyn_short by (unfold slots; rewrite length_map; exact Hs).
    now rewrite (update_short self hand Hs).
  - destruct (length_has_joints hand Hs) as [j Hj].
    rewrite (dyn_typed self (slots hand) j (dyn_joints_slots hand j Hj)).
    now rewrite (update_joints_only self hand (frame_of j) j Hj
                   (has_joints_frame_of j)).
Qed.

Lemma dyn_returned_joints (self self' : MouseGestureController)
    (lm : list (option LandmarkPoint.t)) (a : unit) (calls : list GuiCall) :
  update_dynamic lm self = Returned a self' calls ->
  exists j, dyn_joints lm j.
Proof.
  intros Hu.
  destruct (Nat.lt_ge_cases (length lm) 13) as [Hs|Hs];
    [rewrite (dyn_short self lm Hs) in Hu; discriminate|].
  destruct (dyn_slots_exist lm Hs)
    as (t & i & ip & m & mp & H4 & H8 & H6 & H12 & H10).
  destruct i as [I|];
    [|rewrite dyn_null_finger in Hu by auto; discriminate].
  destruct ip as [Ip|];
    [|rewrite dyn_null_finger in Hu by auto; discriminate].
  destruct m as [M|];
    [|rewrite dyn_null_finger in Hu by auto; discriminate].
  destruct mp as [Mp|];
    [|rewrite dyn_null_finger in Hu by auto; discriminate].
  destruct t as [T|].
  - exists (mkJoints T I Ip M Mp). repeat split; assumption.
  - exfalso.
    destruct (dyn_null_thumb self lm I Ip M Mp H4 H8 H6 H12 H10)
      as [Hok Hbad].
    destruct (not_region_ok self) as [_ Hdec].
    assert (Hcase : region_ok self \/ ~ region_ok self)
      by (unfold region_ok; lia).
    destruct Hcase as [Hr|Hr].
    + destruct (Hok Hr) as (s1 & x & y & E & _). congruence.
    + rewrite (Hbad Hr) in Hu. discriminate.
Qed.

End Dynamic.

(** C3 as stated fails.  A frame cut to 13 landmarks has fewer than the
    21 joints of a hand, and a frame of 21 slots whose first slot is
    [None] has a null entry; [update] takes both and returns, with no
    exception of any kind. *)
Lemma malformed_frames_are_accepted :
  (length (slots (short_frame (pinch_frame 0.05))) = 13%nat
   /\ exists self' calls,
        update_dynamic (slots (short_frame (pinch_frame 0.05)))
                       (controller_with 120 [] false false)
        = Returned tt self' calls)
  /\ (nth_error (null_at 0 (slots (pinch_frame 0.05))) 0 = Some None
      /\ exists self' calls,
           update_dynamic (null_at 0 (slots (pinch_frame 0.05)))
                          (controller_with 120 [] false false)
           = Returned tt self' calls).
Proof.
  assert (Hok : forall lm,
             dyn_joints lm (pinch_joints 0.05) ->
             exists self' calls,
               update_dynamic lm (controller_with 120 [] false false)
               = Returned tt self' calls).
  { intros lm Hj. rewrite (dyn_typed _ lm _ Hj).
    destruct (update_total (controller_with 120 [] false false)
                (frame_of (pinch_joints 0.05)) (pinch_joints 0.05))
      as (self' & calls & ->).
    - apply has_joints_frame_of.
    - split; cbn; lia.
    - exists self', calls. reflexivity. }
  split; (split; [reflexivity|]); apply Hok; repeat split.
Qed.

(** C3, amended.  What [update] does with a frame that is not 21
    landmarks.  With fewer than 13 slots it raises [IndexError], before
    anything is done.  With 13 slots or more: [None] in the place of the
    index tip, the index PIP, the middle tip or the middle PIP raises
    [AttributeError], before anything is done; [None] in the place of the
    thumb tip raises [AttributeError] after the cursor has been moved and
    [moveTo] called, latches and scroll history untouched, or
    [ZeroDivisionError] before anything is done when the active region has
    no width or no height; with the five joints in their places the
    outcome is the one for a full frame with these joints, whatever the
    length of the list and whatever its other slots hold, [None]
    included.  No exception is an [InvalidInputError] and no default is
    put in for a joint: [update] returns only when the five joints are in
    the list and none is [None].  On a frame as the annotation has it the
    outcome is the one of the typed [update]. *)
Theorem malformed_frame_outcomes :
  forall self lm,
    ((length lm < 13)%nat ->
     update_dynamic lm self = Raised IndexError self [])
    /\ ((13 <= length lm)%nat ->
        nth_error lm 8 = Some None \/ nth_error lm 6 = Some None
        \/ nth_error lm 12 = Some None \/ nth_error lm 10 = Some None ->
        update_dynamic lm self = Raised AttributeError self [])
    /\ (forall I Ip M Mp,
          nth_error lm 4 = Some None ->
          nth_error lm 8 = Some (Some I) -> nth_error lm 6 = Some (Some Ip) ->
          nth_error lm 12 = Some (Some M) ->
          nth_error lm 10 = Some (Some Mp) ->
          (region_ok self ->
           exists self1 x y,
             update_dynamic lm self = Raised AttributeError self1 [moveTo x y]
             /\ prev_cursor self1 = SmoothPoint.mk x y
             /\ same_config self self1
             /\ scroll_history self1 = scroll_history self
             /\ left_click_latched self1 = left_click_latched self
             /\ right_click_latched self1 = right_click_latched self)
          /\ (~ region_ok self ->
              update_dynamic lm self = Raised ZeroDivisionError self []))
    /\ (forall j,
          dyn_joints lm j ->
          update_dynamic lm self
          = typed_outcome self (update (frame_of j) self))
    /\ (forall a self' calls,
          update_dynamic lm self = Returned a self' calls ->
          exists j, dyn_joints lm j)
    /\ (forall hand,
          update_dynamic (slots hand) self
          = typed_outcome self (update hand self)).
Proof.
  intros self lm.
  split; [apply dyn_short|].
  split; [apply dyn_null_finger|].
  split; [intros I Ip M Mp; apply dyn_null_thumb|].
  split; [intros j; apply dyn_typed|].
  split; [intros a self' calls; apply dyn_returned_joints|].
  intros hand. apply dyn_of_typed.
Qed.

Lemma malformed_frame_outcomes_witness :
  update_dynamic (firstn 12 (slots (pinch_frame 0.05)))
                 (controller_with 120 [] false false)
  = Raised IndexError (controller_with 120 [] false false) []
  /\ update_dynamic (null_at 8 (slots (pinch_frame 0.05)))
                    (controller_with 120 [] false false)
     = Raised AttributeError (controller_with 120 [] false false) []
  /\ exists self1 x y,
       update_dynamic (null_at 4 (slots (pinch_frame 0.05)))
                      (controller_with 120 [] false false)
       = Raised AttributeError self1 [moveTo x y]
       /\ prev_cursor self1 = SmoothPoint.mk x y.
Proof.
  split; [|split].
  - apply (proj1 (malformed_frame_outcomes
                    (controller_with 120 [] false false)
                    (firstn 12 (slots (pinch_frame 0.05))))).
    cbn. lia.
  - apply (proj1 (proj2 (malformed_frame_outcomes
                           (controller_with 120 [] false false)
                           (null_at 8 (slots (pinch_frame 0.05)))))).
    + cbn. lia.
    + left. reflexivity.
  - destruct (proj1 (proj2 (proj2 (malformed_frame_outcomes
                (controller_with 120 [] false false)
                (null_at 4 (slots (pinch_frame 0.05))))))
                (index_tip (pinch_joints 0.05)) (index_pip (pinch_joints 0.05))
                (middle_tip (pinch_joints 0.05))
                (middle_pip (pinch_joints 0.05)))
      as [Hok _]; try reflexivity.
    destruct Hok as (self1 & x & y & Hu & Hp & _); [split; cbn; lia|].
    exists self1, x, y. split; [exact Hu | exact Hp].
Defined.
